(** * pkg/rtc/config.go: WebRTC transport configuration

    A shallow embedding of [NewWebRTCConfig], [getNAT1to1IPsForConf],
    [InterfaceFilterFromConf] and [IPFilterFromConf], and the properties of
    the transport configuration that are established about them.

    Conventions.
    - Go [int], [uint16] and [uint32] values are [Z]; the [uint16(..)]
      conversions of the source are written out as [mod 2^16].
    - A Go [(value, error)] return is a [res]; a function that may also
      panic returns an [outcome].
    - A possibly-nil slice or func value is an [option]; [None] is [nil].
    - [natMapping], a Go [map[string]string], is a [gmap string string].
    - The calls into the packages [net], [math/rand], [pion/ice] and
      [livekit-server/pkg/config] are answered by an environment record. *)

From stdpp Require Import base strings list gmap.
From Stdlib Require Import ZArith Ascii.

(** ** Results of fallible code *)

(** A Go [(value, error)] pair; the string of [Error] is [err.Error()]. *)
Inductive res (A : Type) : Type :=
  | Val (a : A)
  | Error (e : string).
Arguments Val {A} a.
Arguments Error {A} e.

(** What a call can do: return a value, return a non-nil error, or panic. *)
Inductive outcome (A : Type) : Type :=
  | Ok (a : A)
  | Err (e : string)
  | Panic (msg : string).
Arguments Ok {A} a.
Arguments Err {A} e.
Arguments Panic {A} msg.

Global Instance outcome_ret : MRet outcome := @Ok.
Global Instance outcome_bind : MBind outcome := λ A B f m,
  match m with
  | Ok a => f a
  | Err e => Err e
  | Panic msg => Panic msg
  end.

Definition lift {A} (r : res A) : outcome A :=
  match r with
  | Val a => Ok a
  | Error e => Err e
  end.

(** ** Strings *)

(** [strings.HasPrefix s p]. *)
Fixpoint HasPrefix (s p : string) : bool :=
  match p, s with
  | EmptyString, _ => true
  | String c p', String d s' => bool_decide (c = d) && HasPrefix s' p'
  | String _ _, EmptyString => false
  end.

(** [strings.Contains s substr]. *)
Fixpoint Contains (s substr : string) : bool :=
  HasPrefix s substr ||
  match s with
  | EmptyString => false
  | String _ s' => Contains s' substr
  end.

(** [fmt.Sprintf("%s/%s", external, local)]. *)
Definition sprintf_pair (external local : string) : string :=
  external +:+ "/" +:+ local.

(** [fmt.Sprintf("stun:%s", stunServer)]. *)
Definition sprintf_stun (stunServer : string) : string :=
  "stun:" +:+ stunServer.

(** ** The [net] package, as far as the source uses it *)

Class NetPkg := {
  (** [net.IP]; the nil address is one of its values *)
  IP : Type;
  (** [*net.IPNet] *)
  IPNet : Type;
  (** [net.ParseIP], nil when the text is no address *)
  ParseIP : string → IP;
  (** [net.ParseCIDR], its [*IPNet] and error results *)
  ParseCIDR : string → res IPNet;
  (** the [Contains] method of [IPNet] *)
  IPNet_Contains : IPNet → IP → bool
}.

(** ** Configuration *)

(** Modelled from the spec: [config.Config] is declared in [pkg/config],
    which is not among the sources.  These are the settings the source
    reads (STUN server list, UDP port and port range, TCP port, force-TCP,
    lite-ICE, mDNS, loopback-candidate, strict-ACK and send-side-BWE flags,
    interface and IP include/exclude lists, node-IP and external-IP
    settings, development mode), under the names the source uses; the port
    fields are unsigned 32-bit numbers, [PacketBufferSize] is an [int]. *)
Record InterfacesConfig := {
  if_Includes : list string;
  if_Excludes : list string
}.

Record IPsConfig := {
  ip_Includes : list string;
  ip_Excludes : list string
}.

(** ** Network filters *)

(** [InterfaceFilterFromConf]: the returned closure. *)
Definition InterfaceFilterFromConf (ifs : InterfacesConfig) : string → bool :=
  let includes := if_Includes ifs in
  let excludes := if_Excludes ifs in
  λ s,
    (* filter by include interfaces *)
    if bool_decide (0 < length includes) then
      existsb (λ iface, bool_decide (iface = s)) includes
    else
      (* filter by exclude interfaces *)
      if bool_decide (0 < length excludes) then
        if existsb (λ iface, bool_decide (iface = s)) excludes
        then false else true
      else true.

Section ip_filter.
Context `{NetPkg}.

(** The inner closure of [IPFilterFromConf]: parse every entry, stop at
    the first one that is no CIDR block. *)
Fixpoint parseNets (fromIPs : list string) : res (list IPNet) :=
  match fromIPs with
  | [] => Val []
  | ip :: rest =>
      match ParseCIDR ip with
      | Error e => Error e
      | Val ipnet =>
          match parseNets rest with
          | Error e => Error e
          | Val toNets => Val (ipnet :: toNets)
          end
      end
  end.

(** The closure [IPFilterFromConf] returns, over the parsed sets. *)
Definition ipFilterOf (includes excludes : list IPNet) : IP → bool :=
  λ ip,
    if bool_decide (0 < length includes) then
      existsb (λ ipn, IPNet_Contains ipn ip) includes
    else
      if bool_decide (0 < length excludes) then
        if existsb (λ ipn, IPNet_Contains ipn ip) excludes
        then false else true
      else true.

Definition IPFilterFromConf (ips : IPsConfig) : res (IP → bool) :=
  match parseNets (ip_Includes ips) with
  | Error e => Error e
  | Val includes =>
      match parseNets (ip_Excludes ips) with
      | Error e => Error e
      | Val excludes => Val (ipFilterOf includes excludes)
      end
  end.
End ip_filter.

(** The rest of [config.Config], after the filters that read its include
    and exclude lists. *)
Record CongestionControlConfig := {
  UseSendSideBWE : bool
}.

Record RTCConfig := {
  UDPPort : Z;
  TCPPort : Z;
  ICEPortRangeStart : Z;
  ICEPortRangeEnd : Z;
  NodeIP : string;
  NodeIPAutoGenerated : bool;
  STUNServers : list string;
  UseExternalIP : bool;
  UseICELite : bool;
  Interfaces : InterfacesConfig;
  IPs : IPsConfig;
  EnableLoopbackCandidate : bool;
  UseMDNS : bool;
  StrictACKs : bool;
  PacketBufferSize : Z;
  CongestionControl : CongestionControlConfig;
  ForceTCP : bool
}.

Record Config := {
  RTC : RTCConfig;
  Development : bool
}.

(** [rtcConf.PacketBufferSize = n] on the local copy [rtcConf]. *)
Definition set_PacketBufferSize (n : Z) (r : RTCConfig) : RTCConfig :=
  {| UDPPort := UDPPort r; TCPPort := TCPPort r;
     ICEPortRangeStart := ICEPortRangeStart r;
     ICEPortRangeEnd := ICEPortRangeEnd r;
     NodeIP := NodeIP r; NodeIPAutoGenerated := NodeIPAutoGenerated r;
     STUNServers := STUNServers r; UseExternalIP := UseExternalIP r;
     UseICELite := UseICELite r; Interfaces := Interfaces r; IPs := IPs r;
     EnableLoopbackCandidate := EnableLoopbackCandidate r;
     UseMDNS := UseMDNS r; StrictACKs := StrictACKs r;
     PacketBufferSize := n;
     CongestionControl := CongestionControl r; ForceTCP := ForceTCP r |}.

(** [rtcConf] after the default of the packet buffer size is applied. *)
Definition rtcConfOf (conf : Config) : RTCConfig :=
  if bool_decide (PacketBufferSize (RTC conf) = 0%Z)
  then set_PacketBufferSize 500 (RTC conf) else RTC conf.

(** [uint16(x)]. *)
Definition uint16 (x : Z) : Z := (x `mod` 2 ^ 16)%Z.

(** ** NAT 1:1 resolution *)

(** The local struct [ipmapping] of [getNAT1to1IPsForConf]. *)
Record ipmapping := {
  externalIP : string;
  localIP : string
}.

Section resolver.
Context `{NetPkg}.

(** The collaborators of the resolver and of the builder.  Two requests
    for the same address need not get the same answer, so a STUN request
    is identified by the probe goroutine that issues it (the position of
    its local IP in [localIPs]) and by its iteration over [udpPorts]. *)
Record Env := {
  (** [config.GetLocalIPAddresses(includeLoopback)] *)
  GetLocalIPAddresses : bool → res (list string);
  (** [config.DefaultStunServers] *)
  DefaultStunServers : list string;
  (** [config.GetExternalIP(ctx, stunServers, &net.UDPAddr{IP, Port})] as
      answered to request [j] of probe [i] *)
  GetExternalIP : nat → nat → list string → IP → Z → res string;
  (** the values drawn from the default source of [math/rand], by call *)
  randSource : nat → Z;
  (** the probes whose send on [addrCh] the collector receives before
      its timer fires, in the order it receives them *)
  arrivalOrder : list nat;
  (** the error of binding the UDP multiplexer to a port, if any *)
  udpListenError : Z → option string;
  (** the error of [net.ListenTCP] on a port, if any *)
  tcpListenError : Z → option string
}.

(** [rand.Intn(n)], call number [k]: a value of [[0,n)]; panics when
    [n <= 0]. *)
Definition Intn (env : Env) (k : nat) (n : Z) : outcome Z :=
  if bool_decide (n ≤ 0)%Z then Panic "invalid argument to Intn"
  else Ok (randSource env k `mod` n)%Z.

(** The loop [for i := 0; i < 5; i++] that samples the ports; [i] is the
    loop counter and [n] the number of iterations left. *)
Fixpoint samplePorts (env : Env) (portRangeStart portRangeEnd : Z)
    (i n : nat) (udpPorts : list Z) : outcome (list Z) :=
  match n with
  | O => Ok udpPorts
  | S n' =>
      r ← Intn env i (uint16 (portRangeEnd - portRangeStart));
      samplePorts env portRangeStart portRangeEnd (S i) n'
        (udpPorts ++ [(r + portRangeStart)%Z])
  end.

(** The candidate UDP ports [udpPorts] of [getNAT1to1IPsForConf]. *)
Definition udpPortsForConf (env : Env) (conf : Config) : outcome (list Z) :=
  if bool_decide (ICEPortRangeStart (RTC conf) ≠ 0%Z)
     && bool_decide (ICEPortRangeEnd (RTC conf) ≠ 0%Z) then
    let portRangeStart := uint16 (ICEPortRangeStart (RTC conf)) in
    let portRangeEnd := uint16 (ICEPortRangeEnd (RTC conf)) in
    samplePorts env portRangeStart portRangeEnd 0 5 []
  else if bool_decide (UDPPort (RTC conf) ≠ 0%Z) then
    Ok [UDPPort (RTC conf)]
  else
    Ok [0%Z].

(** The body of one probe goroutine, from iteration [j] on: the ports it
    binds a STUN request to, in order, and the mapping it sends on
    [addrCh], if it sends one. *)
Fixpoint probePorts (env : Env) (stunServers : list string) (i : nat)
    (localIP : string) (j : nat) (udpPorts : list Z)
    : list Z * option ipmapping :=
  match udpPorts with
  | [] =>
      (* failed to get external ip after all ports tried *)
      ([], None)
  | port :: rest =>
      match GetExternalIP env i j stunServers (ParseIP localIP) port with
      | Error err =>
          if Contains err "address already in use" then
            let '(tried, sent) :=
              probePorts env stunServers i localIP (S j) rest in
            (port :: tried, sent)
          else
            ([port], None)
      | Val addr =>
          ([port], Some {| externalIP := addr; localIP := localIP |})
      end
  end.

Definition probe (env : Env) (stunServers : list string) (i : nat)
    (localIP : string) (udpPorts : list Z) : list Z * option ipmapping :=
  probePorts env stunServers i localIP 0 udpPorts.

(** [ipFilter != nil && !ipFilter(net.ParseIP(ip))]: the local IP is
    skipped and no probe is launched for it. *)
Definition skipped (ipFilter : option (IP → bool)) (ip : string) : bool :=
  match ipFilter with
  | Some f => negb (f (ParseIP ip))
  | None => false
  end.

(** What the goroutine of iteration [i] of the launch loop sends on
    [addrCh]; nothing when there is no such iteration or its local IP is
    skipped. *)
Definition sentBy (env : Env) (stunServers : list string)
    (udpPorts : list Z) (ipFilter : option (IP → bool))
    (localIPs : list string) (i : nat) : option ipmapping :=
  match localIPs !! i with
  | Some ip =>
      if skipped ipFilter ip then None
      else (probe env stunServers i ip udpPorts).2
  | None => None
  end.

(** The mappings the collector takes from [addrCh] before [timeout.C]
    fires, in order.  The timer (five seconds, reset to one second at the
    first mapping, by the flag [firstResloved]) decides how many mappings
    are taken and the scheduler in which order; both are given by
    [arrivalOrder], so every run of the collector is the run of some
    environment.  A probe sends at most once, so a probe listed twice in
    [arrivalOrder] counts once. *)
Definition received (env : Env) (stunServers : list string)
    (udpPorts : list Z) (ipFilter : option (IP → bool))
    (localIPs : list string) : list ipmapping :=
  omap (sentBy env stunServers udpPorts ipFilter localIPs)
       (remove_dups (arrivalOrder env)).

(** The variables of the collector loop: the flag [firstResloved], the
    duration in seconds the timer [timeout] was last set to, and
    [natMapping]. *)
Record collector := {
  firstResloved : bool;
  timeout : Z;
  natMapping : gmap string string
}.

(** Before the loop: [timeout := time.NewTimer(5 * time.Second)]. *)
Definition collector0 : collector :=
  {| firstResloved := false; timeout := 5; natMapping := ∅ |}.

(** The [case mapping := <-addrCh] arm of the collector: the first mapping
    received shortens the timer to one second; the first mapping of an
    external IP is kept, later ones are ignored. *)
Definition collect1 (st : collector) (mapping : ipmapping) : collector :=
  let '(firstResloved, timeout) :=
    if negb (firstResloved st) then (true, 1%Z)
    else (firstResloved st, timeout st) in
  match natMapping st !! externalIP mapping with
  | Some local =>
      (* external ip already solved, ignore duplicate *)
      {| firstResloved := firstResloved; timeout := timeout;
         natMapping := natMapping st |}
  | None =>
      {| firstResloved := firstResloved; timeout := timeout;
         natMapping :=
           <[externalIP mapping := localIP mapping]> (natMapping st) |}
  end.

(** The loop [done:], over the mappings received until [timeout.C] fires;
    its result is [natMapping]. *)
Definition collect (mappings : list ipmapping) : gmap string string :=
  natMapping (foldl collect1 collector0 mappings).

(** The inner loop of the fallback: is [local] a value of [natMapping]? *)
Definition found (natMapping : gmap string string) (local : string) : bool :=
  existsb (λ kv, bool_decide (local = kv.2)) (map_to_list natMapping).

(** mapping unresolved local ip to itself *)
Definition selfMap1 (natMapping : gmap string string) (local : string)
    : gmap string string :=
  if found natMapping local then natMapping
  else <[local := local]> natMapping.

Definition selfMap (natMapping : gmap string string)
    (localIPs : list string) : gmap string string :=
  foldl selfMap1 natMapping localIPs.

(** The final loop over [natMapping]; Go leaves the order of a map
    iteration open, [map_to_list] is one of the orders. *)
Definition nat1to1IPs (natMapping : gmap string string) : list string :=
  (λ kv, sprintf_pair kv.1 kv.2) <$> map_to_list natMapping.

(** [getNAT1to1IPsForConf] from the launch of the probes to its return
    (this part has no error return): the resolution of [localIPs] against
    [stunServers] over the candidate ports [udpPorts]. *)
Definition resolveNAT (env : Env) (stunServers : list string)
    (udpPorts : list Z) (ipFilter : option (IP → bool))
    (localIPs : list string) : option (list string) :=
  let natMapping :=
    collect (received env stunServers udpPorts ipFilter localIPs) in
  if bool_decide (size natMapping = 0) then
    (* no external ip resolved *)
    None
  else
    Some (nat1to1IPs (selfMap natMapping localIPs)).

Definition getNAT1to1IPsForConf (env : Env) (conf : Config)
    (ipFilter : option (IP → bool)) : outcome (option (list string)) :=
  let stunServers :=
    if bool_decide (length (STUNServers (RTC conf)) = 0)
    then DefaultStunServers env else STUNServers (RTC conf) in
  localIPs ← lift (GetLocalIPAddresses env
                     (EnableLoopbackCandidate (RTC conf)));
  udpPorts ← udpPortsForConf env conf;
  Ok (resolveNAT env stunServers udpPorts ipFilter localIPs).

(** *** Notions the properties of the resolver are stated with *)

(** The request [j] of probe [i] fails with an error whose text contains
    "address already in use". *)
Definition addressInUse (env : Env) (stunServers : list string) (i : nat)
    (localIP : string) (j : nat) (port : Z) : Prop :=
  ∃ err, GetExternalIP env i j stunServers (ParseIP localIP) port = Error err
         ∧ Contains err "address already in use" = true.

(** The [natMapping] of a resolution at its return: what the collector
    stored when that is empty (the function returns before the fallback),
    and otherwise the same after the fallback. *)
Definition natMappingOf (env : Env) (stunServers : list string)
    (udpPorts : list Z) (ipFilter : option (IP → bool))
    (localIPs : list string) : gmap string string :=
  let natMapping :=
    collect (received env stunServers udpPorts ipFilter localIPs) in
  if bool_decide (size natMapping = 0) then
    (* no external ip resolved *)
    natMapping
  else
    selfMap natMapping localIPs.

(** [v] is a value of [natMapping]. *)
Definition isValue (natMapping : gmap string string) (v : string) : Prop :=
  ∃ k, natMapping !! k = Some v.

(** No two keys share a value, and a key that is an input local IP is
    mapped to itself. *)
Definition wellKeyed (localIPs : list string)
    (natMapping : gmap string string) : Prop :=
  (∀ k1 k2 v, natMapping !! k1 = Some v → natMapping !! k2 = Some v →
              k1 = k2) ∧
  (∀ k v, natMapping !! k = Some v → k ∈ localIPs → k = v).
End resolver.

(** A configured port range: both ends are non-zero. *)
Definition rangeConfigured (conf : Config) : Prop :=
  ICEPortRangeStart (RTC conf) ≠ 0%Z ∧ ICEPortRangeEnd (RTC conf) ≠ 0%Z.

(** How often [x] occurs in [l]. *)
Definition occurrences (x : string) (l : list string) : nat :=
  length (filter (λ y, y = x) l).

(** ** Direction profiles *)

(** Constants of [pion/sdp] and [pion/webrtc]. *)
Definition SDESMidURI : string := "urn:ietf:params:rtp-hdrext:sdes:mid".
Definition SDESRTPStreamIDURI : string :=
  "urn:ietf:params:rtp-hdrext:sdes:rtp-stream-id".
Definition AudioLevelURI : string :=
  "urn:ietf:params:rtp-hdrext:ssrc-audio-level".
Definition TransportCCURI : string :=
  "http://www.ietf.org/id/draft-holmer-rmcat-transport-wide-cc-extensions-01".
Definition ABSSendTimeURI : string :=
  "http://www.webrtc.org/experiments/rtp-hdrext/abs-send-time".
Definition TypeRTCPFBTransportCC : string := "transport-cc".
Definition TypeRTCPFBGoogREMB : string := "goog-remb".
Definition TypeRTCPFBCCM : string := "ccm".
Definition TypeRTCPFBNACK : string := "nack".

Definition frameMarking : string := "urn:ietf:params:rtp-hdrext:framemarking".

(** Modelled from the spec: [dd.ExtensionUrl], the dependency-descriptor
    header extension, is declared in [pkg/sfu/dependencydescriptor], which
    is not among the sources. *)
Definition dd_ExtensionUrl : string :=
  "https://aomediacodec.github.io/av1-rtp-spec/#dependency-descriptor-rtp-header-extension".

Definition minUDPBufferSize : Z := 5000000.
Definition defaultUDPBufferSize : Z := 16777216.
(** number of packets to buffer up *)
Definition readBufferSize : Z := 50.
Definition writeBufferSizeInBytes : Z := 4 * 1024 * 1024.

(** [webrtc.RTCPFeedback]. *)
Record RTCPFeedback := {
  fb_Type : string;
  fb_Parameter : string
}.

Global Instance RTCPFeedback_eq_dec : EqDecision RTCPFeedback.
Proof. solve_decision. Defined.

Record RTPHeaderExtensionConfig := {
  ext_Audio : list string;
  ext_Video : list string
}.

Record RTCPFeedbackConfig := {
  fb_Audio : list RTCPFeedback;
  fb_Video : list RTCPFeedback
}.

Record DirectionConfig := {
  RTPHeaderExtension : RTPHeaderExtensionConfig;
  RTCPFeedback_ : RTCPFeedbackConfig;
  Direction_StrictACKs : bool
}.

(** A feedback of type [t] is among [fbs]. *)
Definition hasFeedback (t : string) (fbs : list RTCPFeedback) : Prop :=
  ∃ fb, fb ∈ fbs ∧ fb_Type fb = t.

Global Instance hasFeedback_dec t fbs : Decision (hasFeedback t fbs).
Proof.
  refine (cast_if (decide (Exists (λ fb, fb_Type fb = t) fbs)));
    unfold hasFeedback; rewrite Exists_exists in *; done.
Defined.

Record ReceiverConfig := {
  Receiver_PacketBufferSize : Z
}.

(** publisher configuration *)
Definition publisherConfig : DirectionConfig :=
  {| Direction_StrictACKs := true;
       (* publisher is dialed, and will always reply with ACK *)
     RTPHeaderExtension :=
       {| ext_Audio := [SDESMidURI; SDESRTPStreamIDURI; AudioLevelURI];
          ext_Video := [SDESMidURI; SDESRTPStreamIDURI; TransportCCURI;
                        frameMarking; dd_ExtensionUrl] |};
     RTCPFeedback_ :=
       {| fb_Audio := [ {| fb_Type := TypeRTCPFBNACK; fb_Parameter := "" |} ];
          fb_Video :=
            [ {| fb_Type := TypeRTCPFBTransportCC; fb_Parameter := "" |};
              {| fb_Type := TypeRTCPFBCCM; fb_Parameter := "fir" |};
              {| fb_Type := TypeRTCPFBNACK; fb_Parameter := "" |};
              {| fb_Type := TypeRTCPFBNACK; fb_Parameter := "pli" |} ] |} |}.

(** subscriber configuration: the literal, then the two [append]s chosen by
    [rtcConf.CongestionControl.UseSendSideBWE]. *)
Definition subscriberConfig (strictACKs useSendSideBWE : bool)
    : DirectionConfig :=
  let video := [dd_ExtensionUrl] in
  let feedback :=
    [ {| fb_Type := TypeRTCPFBCCM; fb_Parameter := "fir" |};
      {| fb_Type := TypeRTCPFBNACK; fb_Parameter := "" |};
      {| fb_Type := TypeRTCPFBNACK; fb_Parameter := "pli" |} ] in
  let '(video, feedback) :=
    if useSendSideBWE then
      (video ++ [TransportCCURI],
       feedback ++ [ {| fb_Type := TypeRTCPFBTransportCC;
                        fb_Parameter := "" |} ])
    else
      (video ++ [ABSSendTimeURI],
       feedback ++ [ {| fb_Type := TypeRTCPFBGoogREMB;
                        fb_Parameter := "" |} ]) in
  {| Direction_StrictACKs := strictACKs;
     RTPHeaderExtension := {| ext_Audio := []; ext_Video := video |};
     RTCPFeedback_ := {| fb_Audio := []; fb_Video := feedback |} |}.

(** ** The builder *)

Inductive SDPSemantics :=
  | SDPSemanticsUnifiedPlan
  | SDPSemanticsPlanB
  | SDPSemanticsUnifiedPlanWithFallback.

Inductive NetworkType :=
  | NetworkTypeUDP4
  | NetworkTypeUDP6
  | NetworkTypeTCP4
  | NetworkTypeTCP6.

Inductive ICECandidateType :=
  | ICECandidateTypeHost
  | ICECandidateTypeSrflx.

(** [webrtc.ICEServer]. *)
Record ICEServer := {
  URLs : list string
}.

(** [webrtc.Configuration]. *)
Record Configuration := {
  Configuration_SDPSemantics : SDPSemantics;
  ICEServers : list ICEServer
}.

Definition iceServerForStunServers (servers : list string) : ICEServer :=
  {| URLs := foldl (λ urls stunServer, urls ++ [sprintf_stun stunServer])
                   [] servers |}.

(** [*net.TCPListener], by the port it listens on. *)
Record TCPListener := {
  listener_Port : Z
}.

(** [ice.TCPMuxParams], what [ice.NewTCPMuxDefault] is built from. *)
Record TCPMux := {
  tcpMux_Logger : string;
  tcpMux_Listener : TCPListener;
  tcpMux_ReadBufferSize : Z;
  tcpMux_WriteBufferSize : Z
}.

Section builder.
Context `{NetPkg}.

(** [ice.UDPMuxFromPortOption]. *)
Inductive UDPMuxFromPortOption :=
  | UDPMuxFromPortWithReadBufferSize (size : Z)
  | UDPMuxFromPortWithWriteBufferSize (size : Z)
  | UDPMuxFromPortWithLogger (scope : string)
  | UDPMuxFromPortWithLoopback
  | UDPMuxFromPortWithIPFilter (f : IP → bool)
  | UDPMuxFromPortWithInterfaceFilter (f : string → bool).

(** The multiplexer of [ice.NewMultiUDPMuxFromPort], by what it was
    built from. *)
Record MultiUDPMux := {
  udpMux_Port : Z;
  udpMux_Opts : list UDPMuxFromPortOption
}.

(** [webrtc.SettingEngine]: what the setters called by the source store. *)
Record SettingEngine := {
  se_InterfaceFilter : option (string → bool);
  se_IPFilter : option (IP → bool);
  se_MulticastDNSDisabled : bool;
  se_NAT1To1IPs : list string;
  se_NAT1To1IPCandidateType : option ICECandidateType;
  se_EphemeralUDPPortRange : option (Z * Z);
  se_ICEUDPMux : option MultiUDPMux;
  se_ICETCPMux : option TCPMux;
  se_NetworkTypes : list NetworkType;
  se_IncludeLoopbackCandidate : bool;
  se_Lite : bool
}.

Definition emptySettingEngine : SettingEngine :=
  {| se_InterfaceFilter := None; se_IPFilter := None;
     se_MulticastDNSDisabled := false;
     se_NAT1To1IPs := []; se_NAT1To1IPCandidateType := None;
     se_EphemeralUDPPortRange := None;
     se_ICEUDPMux := None; se_ICETCPMux := None;
     se_NetworkTypes := []; se_IncludeLoopbackCandidate := false;
     se_Lite := false |}.

Definition SetInterfaceFilter (f : string → bool) (s : SettingEngine) :=
  {| se_InterfaceFilter := Some f; se_IPFilter := se_IPFilter s;
     se_MulticastDNSDisabled := se_MulticastDNSDisabled s;
     se_NAT1To1IPs := se_NAT1To1IPs s;
     se_NAT1To1IPCandidateType := se_NAT1To1IPCandidateType s;
     se_EphemeralUDPPortRange := se_EphemeralUDPPortRange s;
     se_ICEUDPMux := se_ICEUDPMux s; se_ICETCPMux := se_ICETCPMux s;
     se_NetworkTypes := se_NetworkTypes s;
     se_IncludeLoopbackCandidate := se_IncludeLoopbackCandidate s;
     se_Lite := se_Lite s |}.

Definition SetIPFilter (f : IP → bool) (s : SettingEngine) :=
  {| se_InterfaceFilter := se_InterfaceFilter s; se_IPFilter := Some f;
     se_MulticastDNSDisabled := se_MulticastDNSDisabled s;
     se_NAT1To1IPs := se_NAT1To1IPs s;
     se_NAT1To1IPCandidateType := se_NAT1To1IPCandidateType s;
     se_EphemeralUDPPortRange := se_EphemeralUDPPortRange s;
     se_ICEUDPMux := se_ICEUDPMux s; se_ICETCPMux := se_ICETCPMux s;
     se_NetworkTypes := se_NetworkTypes s;
     se_IncludeLoopbackCandidate := se_IncludeLoopbackCandidate s;
     se_Lite := se_Lite s |}.

(** [SetICEMulticastDNSMode(ice.MulticastDNSModeDisabled)]. *)
Definition SetICEMulticastDNSModeDisabled (s : SettingEngine) :=
  {| se_InterfaceFilter := se_InterfaceFilter s;
     se_IPFilter := se_IPFilter s;
     se_MulticastDNSDisabled := true;
     se_NAT1To1IPs := se_NAT1To1IPs s;
     se_NAT1To1IPCandidateType := se_NAT1To1IPCandidateType s;
     se_EphemeralUDPPortRange := se_EphemeralUDPPortRange s;
     se_ICEUDPMux := se_ICEUDPMux s; se_ICETCPMux := se_ICETCPMux s;
     se_NetworkTypes := se_NetworkTypes s;
     se_IncludeLoopbackCandidate := se_IncludeLoopbackCandidate s;
     se_Lite := se_Lite s |}.

Definition SetNAT1To1IPs (ips : list string) (t : ICECandidateType)
    (s : SettingEngine) :=
  {| se_InterfaceFilter := se_InterfaceFilter s;
     se_IPFilter := se_IPFilter s;
     se_MulticastDNSDisabled := se_MulticastDNSDisabled s;
     se_NAT1To1IPs := ips;
     se_NAT1To1IPCandidateType := Some t;
     se_EphemeralUDPPortRange := se_EphemeralUDPPortRange s;
     se_ICEUDPMux := se_ICEUDPMux s; se_ICETCPMux := se_ICETCPMux s;
     se_NetworkTypes := se_NetworkTypes s;
     se_IncludeLoopbackCandidate := se_IncludeLoopbackCandidate s;
     se_Lite := se_Lite s |}.

(** [SetEphemeralUDPPortRange(portMin, portMax)]: refuses a range whose
    maximum is below its minimum. *)
Definition SetEphemeralUDPPortRange (portMin portMax : Z)
    (s : SettingEngine) : res SettingEngine :=
  if bool_decide (portMax < portMin)%Z then Error "invalid port range"
  else Val
  {| se_InterfaceFilter := se_InterfaceFilter s;
     se_IPFilter := se_IPFilter s;
     se_MulticastDNSDisabled := se_MulticastDNSDisabled s;
     se_NAT1To1IPs := se_NAT1To1IPs s;
     se_NAT1To1IPCandidateType := se_NAT1To1IPCandidateType s;
     se_EphemeralUDPPortRange := Some (portMin, portMax);
     se_ICEUDPMux := se_ICEUDPMux s; se_ICETCPMux := se_ICETCPMux s;
     se_NetworkTypes := se_NetworkTypes s;
     se_IncludeLoopbackCandidate := se_IncludeLoopbackCandidate s;
     se_Lite := se_Lite s |}.

Definition SetICEUDPMux (udpMux : MultiUDPMux) (s : SettingEngine) :=
  {| se_InterfaceFilter := se_InterfaceFilter s;
     se_IPFilter := se_IPFilter s;
     se_MulticastDNSDisabled := se_MulticastDNSDisabled s;
     se_NAT1To1IPs := se_NAT1To1IPs s;
     se_NAT1To1IPCandidateType := se_NAT1To1IPCandidateType s;
     se_EphemeralUDPPortRange := se_EphemeralUDPPortRange s;
     se_ICEUDPMux := Some udpMux; se_ICETCPMux := se_ICETCPMux s;
     se_NetworkTypes := se_NetworkTypes s;
     se_IncludeLoopbackCandidate := se_IncludeLoopbackCandidate s;
     se_Lite := se_Lite s |}.

Definition SetICETCPMux (tcpMux : TCPMux) (s : SettingEngine) :=
  {| se_InterfaceFilter := se_InterfaceFilter s;
     se_IPFilter := se_IPFilter s;
     se_MulticastDNSDisabled := se_MulticastDNSDisabled s;
     se_NAT1To1IPs := se_NAT1To1IPs s;
     se_NAT1To1IPCandidateType := se_NAT1To1IPCandidateType s;
     se_EphemeralUDPPortRange := se_EphemeralUDPPortRange s;
     se_ICEUDPMux := se_ICEUDPMux s; se_ICETCPMux := Some tcpMux;
     se_NetworkTypes := se_NetworkTypes s;
     se_IncludeLoopbackCandidate := se_IncludeLoopbackCandidate s;
     se_Lite := se_Lite s |}.

Definition SetNetworkTypes (networkTypes : list NetworkType)
    (s : SettingEngine) :=
  {| se_InterfaceFilter := se_InterfaceFilter s;
     se_IPFilter := se_IPFilter s;
     se_MulticastDNSDisabled := se_MulticastDNSDisabled s;
     se_NAT1To1IPs := se_NAT1To1IPs s;
     se_NAT1To1IPCandidateType := se_NAT1To1IPCandidateType s;
     se_EphemeralUDPPortRange := se_EphemeralUDPPortRange s;
     se_ICEUDPMux := se_ICEUDPMux s; se_ICETCPMux := se_ICETCPMux s;
     se_NetworkTypes := networkTypes;
     se_IncludeLoopbackCandidate := se_IncludeLoopbackCandidate s;
     se_Lite := se_Lite s |}.

Definition SetIncludeLoopbackCandidate (include : bool)
    (s : SettingEngine) :=
  {| se_InterfaceFilter := se_InterfaceFilter s;
     se_IPFilter := se_IPFilter s;
     se_MulticastDNSDisabled := se_MulticastDNSDisabled s;
     se_NAT1To1IPs := se_NAT1To1IPs s;
     se_NAT1To1IPCandidateType := se_NAT1To1IPCandidateType s;
     se_EphemeralUDPPortRange := se_EphemeralUDPPortRange s;
     se_ICEUDPMux := se_ICEUDPMux s; se_ICETCPMux := se_ICETCPMux s;
     se_NetworkTypes := se_NetworkTypes s;
     se_IncludeLoopbackCandidate := include;
     se_Lite := se_Lite s |}.

Definition SetLite (lite : bool) (s : SettingEngine) :=
  {| se_InterfaceFilter := se_InterfaceFilter s;
     se_IPFilter := se_IPFilter s;
     se_MulticastDNSDisabled := se_MulticastDNSDisabled s;
     se_NAT1To1IPs := se_NAT1To1IPs s;
     se_NAT1To1IPCandidateType := se_NAT1To1IPCandidateType s;
     se_EphemeralUDPPortRange := se_EphemeralUDPPortRange s;
     se_ICEUDPMux := se_ICEUDPMux s; se_ICETCPMux := se_ICETCPMux s;
     se_NetworkTypes := se_NetworkTypes s;
     se_IncludeLoopbackCandidate := se_IncludeLoopbackCandidate s;
     se_Lite := lite |}.

Record WebRTCConfig := {
  Configuration_ : Configuration;
  SettingEngine_ : SettingEngine;
  Receiver : ReceiverConfig;
  (** [*buffer.Factory]; attached later by [SetBufferFactory] *)
  BufferFactory : option unit;
  UDPMux : option MultiUDPMux;
  TCPMuxListener : option TCPListener;
  Publisher : DirectionConfig;
  Subscriber : DirectionConfig;
  NAT1To1IPs : option (list string);
  WebRTC_UseMDNS : bool
}.

(** [ice.NewMultiUDPMuxFromPort(port, opts...)]. *)
Definition NewMultiUDPMuxFromPort (env : Env) (port : Z)
    (opts : list UDPMuxFromPortOption) : res MultiUDPMux :=
  match udpListenError env port with
  | Some err => Error err
  | None => Val {| udpMux_Port := port; udpMux_Opts := opts |}
  end.

(** [net.ListenTCP("tcp", &net.TCPAddr{Port: port})]. *)
Definition ListenTCP (env : Env) (port : Z) : res TCPListener :=
  match tcpListenError env port with
  | Some err => Error err
  | None => Val {| listener_Port := port |}
  end.

(** [len(ips)] for a slice that may be nil. *)
Definition len {A} (ips : option (list A)) : nat :=
  match ips with
  | Some l => length l
  | None => 0
  end.

(** The filters and the NAT strategy of [NewWebRTCConfig]: from the
    declaration of [ifFilter] to the end of the block that sets the NAT 1:1
    IPs.  Returns [ifFilter], [ipFilter], [nat1to1IPs] and the setting
    engine [s]. *)
Definition filtersAndNAT (env : Env) (conf : Config) (externalIP : string)
    : outcome (option (string → bool) * option (IP → bool)
               * option (list string) * SettingEngine) :=
  let rtcConf := RTC conf in
  let s := emptySettingEngine in
  let '(ifFilter, s) :=
    if bool_decide (length (if_Includes (Interfaces rtcConf)) ≠ 0)
       || bool_decide (length (if_Excludes (Interfaces rtcConf)) ≠ 0)
    then
      let ifFilter := InterfaceFilterFromConf (Interfaces rtcConf) in
      (Some ifFilter, SetInterfaceFilter ifFilter s)
    else (None, s) in
  '(ipFilter, s) ←
    (if bool_decide (length (ip_Includes (IPs rtcConf)) ≠ 0)
        || bool_decide (length (ip_Excludes (IPs rtcConf)) ≠ 0)
     then
       filter ← lift (IPFilterFromConf (IPs rtcConf));
       Ok (Some filter, SetIPFilter filter s)
     else Ok (None, s));
  let s :=
    if negb (UseMDNS rtcConf) then SetICEMulticastDNSModeDisabled s else s in
  (* force it to the node IPs that the user has set *)
  if bool_decide (externalIP ≠ "")
     && (UseExternalIP (RTC conf)
         || (bool_decide (NodeIP (RTC conf) ≠ "")
             && negb (NodeIPAutoGenerated (RTC conf))))
  then
    if UseExternalIP (RTC conf) then
      ips ← getNAT1to1IPsForConf env conf ipFilter;
      let s :=
        if bool_decide (len ips = 0) then
          SetNAT1To1IPs [externalIP] ICECandidateTypeHost s
        else
          SetNAT1To1IPs (default [] ips) ICECandidateTypeHost s in
      Ok (ifFilter, ipFilter, ips, s)
    else
      Ok (ifFilter, ipFilter, None,
          SetNAT1To1IPs [externalIP] ICECandidateTypeHost s)
  else
    Ok (ifFilter, ipFilter, None, s).

(** The block [if !rtcConf.ForceTCP].  The multiplexer it builds is bound
    by [udpMux, err := ...] inside the block, a variable of that block: the
    [udpMux] declared before the block is not assigned.  Returns
    [networkTypes] and [s]. *)
Definition udpSetup (env : Env) (conf : Config) (rtcConf : RTCConfig)
    (ifFilter : option (string → bool)) (ipFilter : option (IP → bool))
    (networkTypes : list NetworkType) (s : SettingEngine)
    : outcome (list NetworkType * SettingEngine) :=
  if negb (ForceTCP rtcConf) then
    let networkTypes := networkTypes ++ [NetworkTypeUDP4; NetworkTypeUDP6] in
    if bool_decide (ICEPortRangeStart rtcConf ≠ 0%Z)
       && bool_decide (ICEPortRangeEnd rtcConf ≠ 0%Z) then
      s ← lift (SetEphemeralUDPPortRange
                  (uint16 (ICEPortRangeStart rtcConf))
                  (uint16 (ICEPortRangeEnd rtcConf)) s);
      Ok (networkTypes, s)
    else if bool_decide (UDPPort rtcConf ≠ 0%Z) then
      let opts :=
        [ UDPMuxFromPortWithReadBufferSize defaultUDPBufferSize;
          UDPMuxFromPortWithWriteBufferSize defaultUDPBufferSize;
          UDPMuxFromPortWithLogger "udp_mux" ] in
      let opts :=
        if EnableLoopbackCandidate rtcConf
        then opts ++ [UDPMuxFromPortWithLoopback] else opts in
      let opts :=
        match ipFilter with
        | Some f => opts ++ [UDPMuxFromPortWithIPFilter f]
        | None => opts
        end in
      let opts :=
        match ifFilter with
        | Some f => opts ++ [UDPMuxFromPortWithInterfaceFilter f]
        | None => opts
        end in
      udpMux' ← lift (NewMultiUDPMuxFromPort env (UDPPort rtcConf) opts);
      let s := SetICEUDPMux udpMux' s in
      (* [checkUDPReadBuffer()] outside development mode: a diagnostic *)
      Ok (networkTypes, s)
    else Ok (networkTypes, s)
  else Ok (networkTypes, s).

(** use TCP mux when it's set.  Returns [tcpListener], [networkTypes] and
    [s]. *)
Definition tcpSetup (env : Env) (rtcConf : RTCConfig)
    (networkTypes : list NetworkType) (s : SettingEngine)
    : outcome (option TCPListener * list NetworkType * SettingEngine) :=
  if bool_decide (TCPPort rtcConf ≠ 0%Z) then
    let networkTypes := networkTypes ++ [NetworkTypeTCP4; NetworkTypeTCP6] in
    tcpListener ← lift (ListenTCP env (TCPPort rtcConf));
    let tcpMux :=
      {| tcpMux_Logger := "tcp_mux";
         tcpMux_Listener := tcpListener;
         tcpMux_ReadBufferSize := readBufferSize;
         tcpMux_WriteBufferSize := writeBufferSizeInBytes |} in
    Ok (Some tcpListener, networkTypes, SetICETCPMux tcpMux s)
  else Ok (None, networkTypes, s).

(** The choice between ICE lite and STUN servers.  Returns [c] and [s]. *)
Definition iceSetup (env : Env) (rtcConf : RTCConfig) (c : Configuration)
    (s : SettingEngine) : Configuration * SettingEngine :=
  if UseICELite rtcConf then (c, SetLite true s)
  else if bool_decide (NodeIP rtcConf = "") && negb (UseExternalIP rtcConf)
  then
    (* use STUN servers for server to support NAT *)
    if bool_decide (0 < length (STUNServers rtcConf)) then
      ({| Configuration_SDPSemantics := Configuration_SDPSemantics c;
          ICEServers := [iceServerForStunServers (STUNServers rtcConf)] |},
       s)
    else
      ({| Configuration_SDPSemantics := Configuration_SDPSemantics c;
          ICEServers :=
            [iceServerForStunServers (DefaultStunServers env)] |},
       s)
  else (c, s).

Definition NewWebRTCConfig (env : Env) (conf : Config) (externalIP : string)
    : outcome WebRTCConfig :=
  let rtcConf := RTC conf in
  let c := {| Configuration_SDPSemantics := SDPSemanticsUnifiedPlan;
              ICEServers := [] |} in
  '(ifFilter, ipFilter, nat1to1IPs, s) ← filtersAndNAT env conf externalIP;
  let rtcConf :=
    if bool_decide (PacketBufferSize rtcConf = 0%Z)
    then set_PacketBufferSize 500 rtcConf else rtcConf in
  (* var udpMux ice.UDPMux *)
  let udpMux : option MultiUDPMux := None in
  let networkTypes : list NetworkType := [] in
  '(networkTypes, s) ←
    udpSetup env conf rtcConf ifFilter ipFilter networkTypes s;
  '(tcpListener, networkTypes, s) ← tcpSetup env rtcConf networkTypes s;
  if bool_decide (length networkTypes = 0) then
    Err "TCP is forced but not configured"
  else
    let s := SetNetworkTypes networkTypes s in
    let s :=
      if EnableLoopbackCandidate rtcConf
      then SetIncludeLoopbackCandidate true s else s in
    let subscriberConfig :=
      subscriberConfig (StrictACKs (RTC conf))
                       (UseSendSideBWE (CongestionControl rtcConf)) in
    let '(c, s) := iceSetup env rtcConf c s in
    Ok {| Configuration_ := c;
          SettingEngine_ := s;
          Receiver :=
            {| Receiver_PacketBufferSize := PacketBufferSize rtcConf |};
          BufferFactory := None;
          UDPMux := udpMux;
          TCPMuxListener := tcpListener;
          Publisher := publisherConfig;
          Subscriber := subscriberConfig;
          NAT1To1IPs := nat1to1IPs;
          WebRTC_UseMDNS := UseMDNS rtcConf |}.
End builder.

(** ** An IPv4 instance of the [net] interface

    Dotted-quad addresses and [a.b.c.d/n] blocks, enough to run the
    embedding on concrete configurations. *)
Module IPv4.

Definition digit (c : Ascii.ascii) : option Z :=
  let n := (Z.of_nat (Ascii.nat_of_ascii c) - 48)%Z in
  if bool_decide (0 ≤ n ≤ 9)%Z then Some n else None.

Fixpoint decimalFrom (acc : Z) (s : string) : option Z :=
  match s with
  | EmptyString => Some acc
  | String c s' => d ← digit c; decimalFrom (acc * 10 + d)%Z s'
  end.

Definition decimal (s : string) : option Z :=
  if bool_decide (s = "") then None else decimalFrom 0 s.

(** [strings.Split s sep] for a one-character separator. *)
Fixpoint split (sep : Ascii.ascii) (s : string) : list string :=
  match s with
  | EmptyString => [""]
  | String c s' =>
      if bool_decide (c = sep) then "" :: split sep s'
      else match split sep s' with
           | h :: t => String c h :: t
           | [] => [String c ""]
           end
  end.

(** One field of a dotted quad: at most 255, and no leading zero. *)
Definition octet (s : string) : option Z :=
  n ← decimal s;
  if bool_decide (n ≤ 255)%Z && (bool_decide (s = "0") || negb (HasPrefix s "0"))
  then Some n else None.

(** An address as its 32-bit number; [None] is the nil [net.IP]. *)
Definition parseIP (s : string) : option Z :=
  match split "."%char s with
  | [a; b; c; d] =>
      a ← octet a; b ← octet b; c ← octet c; d ← octet d;
      Some (Z.lor (Z.shiftl a 24)
              (Z.lor (Z.shiftl b 16) (Z.lor (Z.shiftl c 8) d)))
  | _ => None
  end.

(** A block as its network number and mask. *)
Definition parseCIDR (s : string) : res (Z * Z) :=
  match split "/"%char s with
  | [addr; bits] =>
      match parseIP addr, decimal bits with
      | Some a, Some n =>
          if bool_decide (n ≤ 32)%Z then
            let mask := (2 ^ 32 - 2 ^ (32 - n))%Z in
            Val (Z.land a mask, mask)
          else Error ("invalid CIDR address: " +:+ s)
      | _, _ => Error ("invalid CIDR address: " +:+ s)
      end
  | _ => Error ("invalid CIDR address: " +:+ s)
  end.

Definition contains (n : Z * Z) (ip : option Z) : bool :=
  match ip with
  | Some a => bool_decide (Z.land a n.2 = n.1)
  | None => false
  end.

Definition net : NetPkg :=
  {| IP := option Z; IPNet := Z * Z;
     ParseIP := parseIP; ParseCIDR := parseCIDR;
     IPNet_Contains := contains |}.

End IPv4.

(** ** Concrete configurations and environments *)
Module Examples.

Definition rtc0 : RTCConfig :=
  {| UDPPort := 7882; TCPPort := 7881;
     ICEPortRangeStart := 0; ICEPortRangeEnd := 0;
     NodeIP := ""; NodeIPAutoGenerated := false;
     STUNServers := ["stun1:3478"];
     UseExternalIP := true; UseICELite := false;
     Interfaces := {| if_Includes := []; if_Excludes := [] |};
     IPs := {| ip_Includes := []; ip_Excludes := [] |};
     EnableLoopbackCandidate := false; UseMDNS := false;
     StrictACKs := false; PacketBufferSize := 0;
     CongestionControl := {| UseSendSideBWE := false |};
     ForceTCP := false |}.

(** A node with a fixed UDP port and a TCP port. *)
Definition conf0 : Config := {| RTC := rtc0; Development := false |}.

(** Two local addresses; every STUN request times out. *)
Definition envSilent : @Env IPv4.net :=
  {| GetLocalIPAddresses := λ _, Val ["10.0.0.1"; "10.0.0.2"];
     DefaultStunServers := ["stun.l.google.com:19302"];
     GetExternalIP := λ _ _ _ _ _, Error "i/o timeout";
     randSource := λ k, (7919 * Z.of_nat k + 104729)%Z;
     arrivalOrder := [0; 1];
     udpListenError := λ _, None;
     tcpListenError := λ _, None |}.

(** TCP forced, no TCP port, and an include entry that is no CIDR block. *)
Definition confForcedBadCIDR : Config :=
  {| RTC :=
       {| UDPPort := 7882; TCPPort := 0;
          ICEPortRangeStart := 0; ICEPortRangeEnd := 0;
          NodeIP := ""; NodeIPAutoGenerated := false;
          STUNServers := []; UseExternalIP := false; UseICELite := false;
          Interfaces := {| if_Includes := []; if_Excludes := [] |};
          IPs := {| ip_Includes := ["not-a-cidr"]; ip_Excludes := [] |};
          EnableLoopbackCandidate := false; UseMDNS := false;
          StrictACKs := false; PacketBufferSize := 0;
          CongestionControl := {| UseSendSideBWE := true |};
          ForceTCP := true |};
     Development := false |}.

(** TCP forced, no TCP port, nothing else amiss. *)
Definition confForced : Config :=
  {| RTC :=
       {| UDPPort := 7882; TCPPort := 0;
          ICEPortRangeStart := 0; ICEPortRangeEnd := 0;
          NodeIP := ""; NodeIPAutoGenerated := false;
          STUNServers := []; UseExternalIP := false; UseICELite := false;
          Interfaces := {| if_Includes := []; if_Excludes := [] |};
          IPs := {| ip_Includes := []; ip_Excludes := [] |};
          EnableLoopbackCandidate := false; UseMDNS := false;
          StrictACKs := false; PacketBufferSize := 0;
          CongestionControl := {| UseSendSideBWE := true |};
          ForceTCP := true |};
     Development := false |}.

(** A port range of one port, 50000-50000. *)
Definition confRangeOnePort : Config :=
  {| RTC :=
       {| UDPPort := 7882; TCPPort := 7881;
          ICEPortRangeStart := 50000; ICEPortRangeEnd := 50000;
          NodeIP := ""; NodeIPAutoGenerated := false;
          STUNServers := ["stun1:3478"];
          UseExternalIP := true; UseICELite := false;
          Interfaces := {| if_Includes := []; if_Excludes := [] |};
          IPs := {| ip_Includes := []; ip_Excludes := [] |};
          EnableLoopbackCandidate := false; UseMDNS := false;
          StrictACKs := false; PacketBufferSize := 0;
          CongestionControl := {| UseSendSideBWE := false |};
          ForceTCP := false |};
     Development := false |}.

(** The port range 50000-60000. *)
Definition confRange : Config :=
  {| RTC :=
       {| UDPPort := 7882; TCPPort := 7881;
          ICEPortRangeStart := 50000; ICEPortRangeEnd := 60000;
          NodeIP := ""; NodeIPAutoGenerated := false;
          STUNServers := ["stun1:3478"];
          UseExternalIP := true; UseICELite := false;
          Interfaces := {| if_Includes := []; if_Excludes := [] |};
          IPs := {| ip_Includes := []; ip_Excludes := [] |};
          EnableLoopbackCandidate := false; UseMDNS := false;
          StrictACKs := false; PacketBufferSize := 0;
          CongestionControl := {| UseSendSideBWE := false |};
          ForceTCP := false |};
     Development := false |}.

(** The first two ports a probe tries are taken, the third answers. *)
Definition envBusyPorts : @Env IPv4.net :=
  {| GetLocalIPAddresses := λ _, Val ["10.0.0.1"];
     DefaultStunServers := ["stun.l.google.com:19302"];
     GetExternalIP := λ _ j _ _ _,
       if bool_decide (j < 2)
       then Error "listen udp 10.0.0.1:50000: bind: address already in use"
       else Val "203.0.113.5";
     randSource := λ k, (7919 * Z.of_nat k + 104729)%Z;
     arrivalOrder := [0];
     udpListenError := λ _, None;
     tcpListenError := λ _, None |}.

(** No local address at all. *)
Definition envNoLocalIPs : @Env IPv4.net :=
  {| GetLocalIPAddresses := λ _, Val [];
     DefaultStunServers := ["stun.l.google.com:19302"];
     GetExternalIP := λ _ _ _ _ _, Val "203.0.113.5";
     randSource := λ k, (7919 * Z.of_nat k + 104729)%Z;
     arrivalOrder := [0; 1];
     udpListenError := λ _, None;
     tcpListenError := λ _, None |}.

(** The probe of the first local address learns 203.0.113.5, the probe of
    the second one times out. *)
Definition envFirstAnswers : @Env IPv4.net :=
  {| GetLocalIPAddresses := λ _, Val ["10.0.0.1"; "10.0.0.2"];
     DefaultStunServers := ["stun.l.google.com:19302"];
     GetExternalIP := λ i _ _ _ _,
       if bool_decide (i = 0) then Val "203.0.113.5"
       else Error "i/o timeout";
     randSource := λ k, (7919 * Z.of_nat k + 104729)%Z;
     arrivalOrder := [0; 1];
     udpListenError := λ _, None;
     tcpListenError := λ _, None |}.

(** Two probes of one and the same local address learn two external
    addresses. *)
Definition envTwoAnswers : @Env IPv4.net :=
  {| GetLocalIPAddresses := λ _, Val ["10.0.0.1"; "10.0.0.1"];
     DefaultStunServers := ["stun.l.google.com:19302"];
     GetExternalIP := λ i _ _ _ _,
       if bool_decide (i = 0) then Val "203.0.113.5"
       else Val "203.0.113.6";
     randSource := λ k, (7919 * Z.of_nat k + 104729)%Z;
     arrivalOrder := [0; 1];
     udpListenError := λ _, None;
     tcpListenError := λ _, None |}.

(** Only the block 192.168.0.0/16 is included. *)
Definition ipsOnly192 : IPsConfig :=
  {| ip_Includes := ["192.168.0.0/16"]; ip_Excludes := [] |}.

(** The filter [IPFilterFromConf] returns for it: the block as its network
    number and its mask. *)
Definition filterOnly192 : option Z → bool :=
  @ipFilterOf IPv4.net [(3232235520, 4294901760)%Z] [].

(** The local interfaces cannot be listed. *)
Definition envNoInterfaces : @Env IPv4.net :=
  {| GetLocalIPAddresses := λ _, Error "route ip+net: netlinkrib: permission denied";
     DefaultStunServers := ["stun.l.google.com:19302"];
     GetExternalIP := λ _ _ _ _ _, Error "i/o timeout";
     randSource := λ k, (7919 * Z.of_nat k + 104729)%Z;
     arrivalOrder := [];
     udpListenError := λ _, None;
     tcpListenError := λ _, None |}.

(** TCP forced, no TCP port, external IPs to be discovered. *)
Definition confForcedExternal : Config :=
  {| RTC :=
       {| UDPPort := 7882; TCPPort := 0;
          ICEPortRangeStart := 0; ICEPortRangeEnd := 0;
          NodeIP := ""; NodeIPAutoGenerated := false;
          STUNServers := []; UseExternalIP := true; UseICELite := false;
          Interfaces := {| if_Includes := []; if_Excludes := [] |};
          IPs := {| ip_Includes := []; ip_Excludes := [] |};
          EnableLoopbackCandidate := false; UseMDNS := false;
          StrictACKs := false; PacketBufferSize := 0;
          CongestionControl := {| UseSendSideBWE := true |};
          ForceTCP := true |};
     Development := false |}.

End Examples.

(** ** Notions the further properties are stated with *)

(** The text [s] contains the separator "/" of a mapping entry. *)
Fixpoint hasSlash (s : string) : bool :=
  match s with
  | EmptyString => false
  | String c s' => bool_decide (c = "/"%char) || hasSlash s'
  end.

(** The first mapping received for the external IP [e], if there is one. *)
Definition firstFor (e : string) (mappings : list ipmapping)
    : option ipmapping :=
  head (filter (λ m, externalIP m = e) mappings).

Section builder_notions.
Context `{NetPkg}.

(** The options [opts] the UDP multiplexer is built with. *)
Definition udpMuxOpts (rtcConf : RTCConfig)
    (ifFilter : option (string → bool)) (ipFilter : option (IP → bool))
    : list UDPMuxFromPortOption :=
  [ UDPMuxFromPortWithReadBufferSize defaultUDPBufferSize;
    UDPMuxFromPortWithWriteBufferSize defaultUDPBufferSize;
    UDPMuxFromPortWithLogger "udp_mux" ]
  ++ (if EnableLoopbackCandidate rtcConf
      then [UDPMuxFromPortWithLoopback] else [])
  ++ match ipFilter with
     | Some f => [UDPMuxFromPortWithIPFilter f]
     | None => []
     end
  ++ match ifFilter with
     | Some f => [UDPMuxFromPortWithInterfaceFilter f]
     | None => []
     end.

(** The network types a configuration enables. *)
Definition enabledNetworkTypes (rtcConf : RTCConfig) : list NetworkType :=
  (if ForceTCP rtcConf then [] else [NetworkTypeUDP4; NetworkTypeUDP6])
  ++ (if bool_decide (TCPPort rtcConf ≠ 0%Z)
      then [NetworkTypeTCP4; NetworkTypeTCP6] else []).

(** What [NewWebRTCConfig] needs of the configuration and of the
    environment to return a [WebRTCConfig]: every IP filter entry parses;
    when external IPs are to be discovered, the local addresses can be
    listed and the port range, if one is configured, has two different
    16-bit ends; with TCP not forced, a configured port range is not
    inverted and, without a range, a configured UDP port can be bound; a
    configured TCP port can be listened on; and TCP is not forced without
    a TCP port. *)
Definition buildable (env : Env) (conf : Config) (externalIP : string)
    : Prop :=
  let rtcConf := RTC conf in
  let portRangeStart := uint16 (ICEPortRangeStart rtcConf) in
  let portRangeEnd := uint16 (ICEPortRangeEnd rtcConf) in
  (∀ ip, ip ∈ ip_Includes (IPs rtcConf) ++ ip_Excludes (IPs rtcConf) →
         ∃ ipnet, ParseCIDR ip = Val ipnet) ∧
  (externalIP ≠ "" → UseExternalIP rtcConf = true →
     (∃ localIPs, GetLocalIPAddresses env (EnableLoopbackCandidate rtcConf)
                  = Val localIPs) ∧
     ¬ (rangeConfigured conf ∧ portRangeStart = portRangeEnd)) ∧
  (ForceTCP rtcConf = false → rangeConfigured conf →
     (portRangeStart ≤ portRangeEnd)%Z) ∧
  (ForceTCP rtcConf = false → ¬ rangeConfigured conf →
     UDPPort rtcConf ≠ 0%Z → udpListenError env (UDPPort rtcConf) = None) ∧
  (TCPPort rtcConf ≠ 0%Z → tcpListenError env (TCPPort rtcConf) = None) ∧
  (ForceTCP rtcConf = true → TCPPort rtcConf ≠ 0%Z).
End builder_notions.

(** More environments to run the builder in. *)
Module Examples2.

(** The UDP port cannot be bound and the TCP port cannot be listened on. *)
Definition envPortsTaken : @Env IPv4.net :=
  {| GetLocalIPAddresses := λ _, Val ["10.0.0.1"; "10.0.0.2"];
     DefaultStunServers := ["stun.l.google.com:19302"];
     GetExternalIP := λ _ _ _ _ _, Error "i/o timeout";
     randSource := λ k, (7919 * Z.of_nat k + 104729)%Z;
     arrivalOrder := [0; 1];
     udpListenError := λ _, Some "listen udp4 :7882: bind: address already in use";
     tcpListenError := λ _, Some "listen tcp :7881: bind: address already in use" |}.

End Examples2.

(** * Properties *)

(** ** The outcome monad *)

Lemma bind_Ok {A B} (m : outcome A) (f : A → outcome B) (b : B) :
  m ≫= f = Ok b → ∃ a, m = Ok a ∧ f a = Ok b.
Proof. destruct m as [a| |]; simpl; [eauto | done | done]. Qed.

Lemma lift_Ok {A} (r : res A) (a : A) : lift r = Ok a → r = Val a.
Proof. destruct r; simpl; congruence. Qed.

(** ** Network filters *)

Lemma existsb_elem_of {A} (f : A → bool) (l : list A) :
  existsb f l = true ↔ ∃ x, x ∈ l ∧ f x = true.
Proof.
  rewrite existsb_exists.
  split; intros (x & Hx & Hf); exists x; (split; [|exact Hf]);
    by apply list_elem_of_In.
Qed.



Section filter_props.
Context `{NetPkg}.





End filter_props.


(** ** The builder *)

Section builder_props.
Context `{NetPkg}.

(** A successful build went through every stage, and its result is the
    record assembled at the end. *)
Lemma NewWebRTCConfig_Ok (env : Env) (conf : Config) (externalIP : string)
    (cfg : WebRTCConfig) :
  NewWebRTCConfig env conf externalIP = Ok cfg →
  ∃ ifFilter ipFilter nat1to1IPs s0 networkTypes s1 tcpListener
    networkTypes' s2,
    filtersAndNAT env conf externalIP
      = Ok (ifFilter, ipFilter, nat1to1IPs, s0) ∧
    udpSetup env conf (rtcConfOf conf) ifFilter ipFilter [] s0
      = Ok (networkTypes, s1) ∧
    tcpSetup env (rtcConfOf conf) networkTypes s1
      = Ok (tcpListener, networkTypes', s2) ∧
    networkTypes' ≠ [] ∧
    let s3 := SetNetworkTypes networkTypes' s2 in
    let s4 := if EnableLoopbackCandidate (rtcConfOf conf)
              then SetIncludeLoopbackCandidate true s3 else s3 in
    let cs := iceSetup env (rtcConfOf conf)
                {| Configuration_SDPSemantics := SDPSemanticsUnifiedPlan;
                   ICEServers := [] |} s4 in
    cfg = {| Configuration_ := cs.1;
             SettingEngine_ := cs.2;
             Receiver := {| Receiver_PacketBufferSize :=
                              PacketBufferSize (rtcConfOf conf) |};
             BufferFactory := None;
             UDPMux := None;
             TCPMuxListener := tcpListener;
             Publisher := publisherConfig;
             Subscriber :=
               subscriberConfig
                 (StrictACKs (RTC conf))
                 (UseSendSideBWE (CongestionControl (rtcConfOf conf)));
             NAT1To1IPs := nat1to1IPs;
             WebRTC_UseMDNS := UseMDNS (rtcConfOf conf) |}.
Proof.
  unfold NewWebRTCConfig. fold (rtcConfOf conf). intros Hrun.
  apply bind_Ok in Hrun as ([[[ifFilter ipFilter] nat] s0] & Hnat & Hrun).
  apply bind_Ok in Hrun as ([networkTypes s1] & Hudp & Hrun).
  apply bind_Ok in Hrun as ([[tcpListener networkTypes'] s2] & Htcp & Hrun).
  case_bool_decide as Hlen; [done|].
  destruct (iceSetup _ _ _ _) as [c s] eqn:Hice.
  injection Hrun as <-.
  exists ifFilter, ipFilter, nat, s0, networkTypes, s1, tcpListener,
    networkTypes', s2.
  repeat split; try done.
  - by intros ->.
  - simpl. by rewrite Hice.
Qed.

Lemma rtcConfOf_fields (conf : Config) :
  ForceTCP (rtcConfOf conf) = ForceTCP (RTC conf) ∧
  TCPPort (rtcConfOf conf) = TCPPort (RTC conf) ∧
  UDPPort (rtcConfOf conf) = UDPPort (RTC conf) ∧
  ICEPortRangeStart (rtcConfOf conf) = ICEPortRangeStart (RTC conf) ∧
  ICEPortRangeEnd (rtcConfOf conf) = ICEPortRangeEnd (RTC conf) ∧
  CongestionControl (rtcConfOf conf) = CongestionControl (RTC conf).
Proof. unfold rtcConfOf. by case_bool_decide. Qed.

(** The setters that run after the UDP stage leave the UDP multiplexer of
    the setting engine alone. *)
Lemma tcpSetup_ICEUDPMux (env : Env) (rtcConf : RTCConfig)
    (networkTypes networkTypes' : list NetworkType) (s s' : SettingEngine)
    (tcpListener : option TCPListener) :
  tcpSetup env rtcConf networkTypes s = Ok (tcpListener, networkTypes', s') →
  se_ICEUDPMux s' = se_ICEUDPMux s.
Proof.
  unfold tcpSetup. case_bool_decide.
  - intros (l & _ & [= _ _ <-])%bind_Ok. done.
  - by intros [= _ _ <-].
Qed.

Lemma iceSetup_ICEUDPMux (env : Env) (rtcConf : RTCConfig)
    (c : Configuration) (s : SettingEngine) :
  se_ICEUDPMux (iceSetup env rtcConf c s).2 = se_ICEUDPMux s.
Proof.
  unfold iceSetup. destruct (UseICELite rtcConf); [done|].
  destruct (_ && _); [|done]. by case_bool_decide.
Qed.

(** C3.  Whenever [NewWebRTCConfig] succeeds, the [UDPMux] field of the
    returned [WebRTCConfig] is nil.  This includes the configurations where
    TCP is not forced, no port range is set and a UDP port is configured:
    there a multi-UDP multiplexer is built and attached to the setting
    engine, and still does not appear in the returned struct. *)
Theorem UDPMux_field_nil (env : Env) (conf : Config) (externalIP : string)
    (cfg : WebRTCConfig) :
  NewWebRTCConfig env conf externalIP = Ok cfg →
  UDPMux cfg = None ∧
  (ForceTCP (RTC conf) = false →
   ¬ (ICEPortRangeStart (RTC conf) ≠ 0%Z ∧ ICEPortRangeEnd (RTC conf) ≠ 0%Z) →
   UDPPort (RTC conf) ≠ 0%Z →
   ∃ udpMux, se_ICEUDPMux (SettingEngine_ cfg) = Some udpMux
             ∧ udpMux_Port udpMux = UDPPort (RTC conf)).
Proof.
  intros (ifFilter & ipFilter & nat & s0 & nts & s1 & tl & nts' & s2
          & _ & Hudp & Htcp & _ & ->)%NewWebRTCConfig_Ok.
  split; [done|]. intros Hforce Hrange Hport. simpl.
  rewrite iceSetup_ICEUDPMux.
  assert (se_ICEUDPMux s2 = se_ICEUDPMux s1) as Hs2
    by (by eapply tcpSetup_ICEUDPMux).
  destruct (rtcConfOf_fields conf) as (Hf & _ & Hu & Hs & He & _).
  unfold udpSetup in Hudp. rewrite Hf, Hu, Hs, He, Hforce in Hudp.
  simpl in Hudp.
  destruct (bool_decide (ICEPortRangeStart (RTC conf) ≠ 0%Z)
            && bool_decide (ICEPortRangeEnd (RTC conf) ≠ 0%Z)) eqn:Hr.
  { apply andb_true_iff in Hr as [Hr1%bool_decide_eq_true
                                  Hr2%bool_decide_eq_true].
    by destruct Hrange. }
  rewrite bool_decide_eq_true_2 in Hudp by done.
  apply bind_Ok in Hudp as (udpMux & Hmux%lift_Ok & [= _ <-]).
  exists udpMux. split.
  - by destruct (EnableLoopbackCandidate (rtcConfOf conf)); simpl;
      rewrite Hs2.
  - unfold NewMultiUDPMuxFromPort in Hmux.
    destruct (udpListenError env _); [done|]. by injection Hmux as <-.
Qed.

(** C10.  Whenever [NewWebRTCConfig] succeeds, the receiver's
    [PacketBufferSize] is 500 if the configured packet buffer size is 0,
    and the configured value otherwise. *)
Theorem PacketBufferSize_default (env : Env) (conf : Config)
    (externalIP : string) (cfg : WebRTCConfig) :
  NewWebRTCConfig env conf externalIP = Ok cfg →
  Receiver_PacketBufferSize (Receiver cfg)
  = if bool_decide (PacketBufferSize (RTC conf) = 0%Z) then 500%Z
    else PacketBufferSize (RTC conf).
Proof.
  intros (ifFilter & ipFilter & nat & s0 & nts & s1 & tl & nts' & s2
          & _ & _ & _ & _ & ->)%NewWebRTCConfig_Ok.
  simpl. unfold rtcConfOf. by case_bool_decide.
Qed.

(** C5.  The Subscriber profile of a successful build follows the
    send-side bandwidth-estimation flag: when it is enabled, the video
    header extensions contain the transport-wide-CC URI and not the
    abs-send-time URI, and the video feedback contains transport-CC and not
    REMB; when it is disabled, abs-send-time and REMB are present,
    transport-wide-CC and transport-CC are absent. *)
Theorem subscriber_bwe_profile (env : Env) (conf : Config)
    (externalIP : string) (cfg : WebRTCConfig) :
  NewWebRTCConfig env conf externalIP = Ok cfg →
  let video := ext_Video (RTPHeaderExtension (Subscriber cfg)) in
  let feedback := fb_Video (RTCPFeedback_ (Subscriber cfg)) in
  if UseSendSideBWE (CongestionControl (RTC conf)) then
    (TransportCCURI ∈ video ∧ (ABSSendTimeURI ∉ video) ∧
     hasFeedback TypeRTCPFBTransportCC feedback ∧
     ¬ hasFeedback TypeRTCPFBGoogREMB feedback)
  else
    (ABSSendTimeURI ∈ video ∧ (TransportCCURI ∉ video) ∧
     hasFeedback TypeRTCPFBGoogREMB feedback ∧
     ¬ hasFeedback TypeRTCPFBTransportCC feedback).
Proof.
  intros (ifFilter & ipFilter & nat & s0 & nts & s1 & tl & nts' & s2
          & _ & _ & _ & _ & ->)%NewWebRTCConfig_Ok.
  destruct (rtcConfOf_fields conf) as (_ & _ & _ & _ & _ & ->).
  simpl. destruct (UseSendSideBWE _); simpl;
    repeat split; refine (bool_decide_unpack _ _); vm_compute; exact I.
Qed.
End builder_props.

(** A node with the fixed UDP port 7882: the multiplexer of that port is
    in the setting engine, the [UDPMux] field is nil. *)
Lemma UDPMux_field_nil_witness :
  ∃ cfg,
    @NewWebRTCConfig IPv4.net Examples.envSilent Examples.conf0 "192.0.2.1"
    = Ok cfg ∧
    UDPMux cfg = None ∧
    ∃ udpMux, se_ICEUDPMux (SettingEngine_ cfg) = Some udpMux
              ∧ udpMux_Port udpMux = 7882%Z.
Proof.
  assert (∃ cfg, @NewWebRTCConfig IPv4.net Examples.envSilent Examples.conf0
                   "192.0.2.1" = Ok cfg) as [cfg Hrun]
    by (eexists; reflexivity).
  exists cfg. split; [exact Hrun|].
  destruct (@UDPMux_field_nil IPv4.net Examples.envSilent Examples.conf0
              "192.0.2.1" cfg Hrun) as [Hnil Hmux].
  split; [exact Hnil|]. apply Hmux.
  - reflexivity.
  - intros [Hstart _]. by apply Hstart.
  - discriminate.
Defined.

Lemma PacketBufferSize_default_witness :
  ∃ cfg,
    @NewWebRTCConfig IPv4.net Examples.envSilent Examples.conf0 "192.0.2.1"
    = Ok cfg ∧
    Receiver_PacketBufferSize (Receiver cfg) = 500%Z.
Proof.
  assert (∃ cfg, @NewWebRTCConfig IPv4.net Examples.envSilent Examples.conf0
                   "192.0.2.1" = Ok cfg) as [cfg Hrun]
    by (eexists; reflexivity).
  exists cfg. split; [exact Hrun|].
  exact (@PacketBufferSize_default IPv4.net Examples.envSilent Examples.conf0
           "192.0.2.1" cfg Hrun).
Defined.

Lemma subscriber_bwe_profile_witness :
  ∃ cfg,
    @NewWebRTCConfig IPv4.net Examples.envSilent Examples.conf0 "192.0.2.1"
    = Ok cfg ∧
    ABSSendTimeURI ∈ ext_Video (RTPHeaderExtension (Subscriber cfg)) ∧
    (TransportCCURI ∉ ext_Video (RTPHeaderExtension (Subscriber cfg))) ∧
    hasFeedback TypeRTCPFBGoogREMB (fb_Video (RTCPFeedback_ (Subscriber cfg)))
    ∧ ¬ hasFeedback TypeRTCPFBTransportCC
          (fb_Video (RTCPFeedback_ (Subscriber cfg))).
Proof.
  assert (∃ cfg, @NewWebRTCConfig IPv4.net Examples.envSilent Examples.conf0
                   "192.0.2.1" = Ok cfg) as [cfg Hrun]
    by (eexists; reflexivity).
  exists cfg. split; [exact Hrun|].
  exact (@subscriber_bwe_profile IPv4.net Examples.envSilent Examples.conf0
           "192.0.2.1" cfg Hrun).
Defined.

Section forced_tcp.
Context `{NetPkg}.

(** C6, as the code has it.  With the force-TCP flag set and no TCP port
    configured, [NewWebRTCConfig] never returns a [WebRTCConfig]: it ends
    the way the filter and NAT stage ends when that stage fails, and with
    the error "TCP is forced but not configured" and a nil result when that
    stage completes. *)
Theorem forced_tcp_not_configured (env : Env) (conf : Config)
    (externalIP : string) :
  ForceTCP (RTC conf) = true →
  TCPPort (RTC conf) = 0%Z →
  NewWebRTCConfig env conf externalIP
  = match filtersAndNAT env conf externalIP with
    | Ok _ => Err "TCP is forced but not configured"
    | Err e => Err e
    | Panic msg => Panic msg
    end
  ∧ ∀ cfg, NewWebRTCConfig env conf externalIP ≠ Ok cfg.
Proof.
  intros Hforce Hport.
  assert (NewWebRTCConfig env conf externalIP
          = match filtersAndNAT env conf externalIP with
            | Ok _ => Err "TCP is forced but not configured"
            | Err e => Err e
            | Panic msg => Panic msg
            end) as Hrun.
  { unfold NewWebRTCConfig. fold (rtcConfOf conf).
    destruct (filtersAndNAT env conf externalIP)
      as [[[[ifFilter ipFilter] nat] s0]|e|msg]; simpl; [|done|done].
    destruct (rtcConfOf_fields conf) as (Hf & Ht & _).
    unfold udpSetup. rewrite Hf, Hforce. simpl.
    unfold tcpSetup. rewrite Ht, Hport. simpl. done. }
  split; [exact Hrun|].
  intros cfg. rewrite Hrun. by destruct (filtersAndNAT env conf externalIP).
Qed.
End forced_tcp.

Lemma forced_tcp_not_configured_witness :
  ForceTCP (RTC Examples.confForced) = true ∧
  TCPPort (RTC Examples.confForced) = 0%Z ∧
  @NewWebRTCConfig IPv4.net Examples.envSilent Examples.confForced "192.0.2.1"
  = Err "TCP is forced but not configured".
Proof.
  split; [reflexivity|]. split; [reflexivity|].
  rewrite (proj1 (@forced_tcp_not_configured IPv4.net Examples.envSilent
                    Examples.confForced "192.0.2.1" eq_refl eq_refl)).
  reflexivity.
Defined.

(** Two forced-TCP configurations without TCP port whose build ends with
    another error.  With an include entry that is no CIDR block it fails in
    [IPFilterFromConf], with the error of [net.ParseCIDR]; with external
    IPs to be discovered on a node whose interfaces cannot be listed it
    fails in [getNAT1to1IPsForConf], with the error of
    [config.GetLocalIPAddresses]. *)
Lemma forced_tcp_not_configured_counterexample :
  (ForceTCP (RTC Examples.confForcedBadCIDR) = true ∧
   TCPPort (RTC Examples.confForcedBadCIDR) = 0%Z ∧
   @NewWebRTCConfig IPv4.net Examples.envSilent Examples.confForcedBadCIDR
      "192.0.2.1"
   = Err "invalid CIDR address: not-a-cidr" ∧
   @NewWebRTCConfig IPv4.net Examples.envSilent Examples.confForcedBadCIDR
      "192.0.2.1"
   ≠ Err "TCP is forced but not configured") ∧
  (ForceTCP (RTC Examples.confForcedExternal) = true ∧
   TCPPort (RTC Examples.confForcedExternal) = 0%Z ∧
   @NewWebRTCConfig IPv4.net Examples.envNoInterfaces
      Examples.confForcedExternal "192.0.2.1"
   = Err "route ip+net: netlinkrib: permission denied" ∧
   @NewWebRTCConfig IPv4.net Examples.envNoInterfaces
      Examples.confForcedExternal "192.0.2.1"
   ≠ Err "TCP is forced but not configured").
Proof.
  split.
  - split; [reflexivity|]. split; [reflexivity|].
    assert (@NewWebRTCConfig IPv4.net Examples.envSilent
              Examples.confForcedBadCIDR "192.0.2.1"
            = Err "invalid CIDR address: not-a-cidr") as Hrun by reflexivity.
    split; [exact Hrun|]. rewrite Hrun. discriminate.
  - split; [reflexivity|]. split; [reflexivity|].
    assert (@NewWebRTCConfig IPv4.net Examples.envNoInterfaces
              Examples.confForcedExternal "192.0.2.1"
            = Err "route ip+net: netlinkrib: permission denied") as Hrun
      by reflexivity.
    split; [exact Hrun|]. rewrite Hrun. discriminate.
Qed.

(** ** Candidate ports and probes *)

Section ports_props.
Context `{NetPkg}.

Lemma samplePorts_spec (env : Env) (lo hi : Z) (i n : nat) (acc : list Z) :
  (0 < uint16 (hi - lo))%Z →
  samplePorts env lo hi i n acc
  = Ok (acc ++ ((λ k, (randSource env k `mod` uint16 (hi - lo) + lo)%Z)
                  <$> seq i n)).
Proof.
  intros Hpos. revert i acc. induction n as [|n IH]; intros i acc; simpl.
  - by rewrite app_nil_r.
  - unfold Intn. rewrite bool_decide_eq_false_2 by lia. simpl.
    rewrite IH. by rewrite <- app_assoc.
Qed.

(** X23.  The candidate UDP ports of the resolver, for a configuration
    whose port range, if one is configured (both ends non-zero), is a range
    of 16-bit ports with start below end: with a range they are 5 ports,
    each the start plus a random draw below the width of the range, so each
    within the range; with no range configured, if a fixed UDP port is
    configured, exactly that port; otherwise exactly the wildcard port 0. *)
Theorem candidate_udp_ports (env : Env) (conf : Config) :
  let portRangeStart := ICEPortRangeStart (RTC conf) in
  let portRangeEnd := ICEPortRangeEnd (RTC conf) in
  (rangeConfigured conf → (0 < portRangeStart < portRangeEnd)%Z
                          ∧ (portRangeEnd < 2 ^ 16)%Z) →
  (rangeConfigured conf →
     ∃ udpPorts,
       udpPortsForConf env conf = Ok udpPorts ∧
       udpPorts = (λ k, (portRangeStart + randSource env k
                           `mod` (portRangeEnd - portRangeStart))%Z)
                  <$> seq 0 5 ∧
       length udpPorts = 5 ∧
       Forall (λ port, (portRangeStart ≤ port < portRangeEnd)%Z) udpPorts) ∧
  (¬ rangeConfigured conf → UDPPort (RTC conf) ≠ 0%Z →
     udpPortsForConf env conf = Ok [UDPPort (RTC conf)]) ∧
  (¬ rangeConfigured conf → UDPPort (RTC conf) = 0%Z →
     udpPortsForConf env conf = Ok [0%Z]).
Proof.
  intros lo hi Hvalid. unfold udpPortsForConf, rangeConfigured in *.
  fold lo hi in Hvalid |- *.
  split; [|split].
  - intros [Hlo Hhi]. destruct (Hvalid (conj Hlo Hhi)) as [Hord Hbound].
    rewrite !bool_decide_eq_true_2 by done. cbn [andb].
    assert (uint16 lo = lo) as Hulo
      by (unfold uint16; apply Z.mod_small; lia).
    assert (uint16 hi = hi) as Huhi
      by (unfold uint16; apply Z.mod_small; lia).
    assert (uint16 (hi - lo) = (hi - lo)%Z) as Hw
      by (unfold uint16; apply Z.mod_small; lia).
    rewrite Hulo, Huhi.
    rewrite samplePorts_spec by (rewrite Hw; lia). rewrite Hw. simpl.
    eexists. split; [reflexivity|].
    split; [by rewrite !(Z.add_comm lo)|]. split; [done|].
    repeat constructor;
      pose proof (Z.mod_pos_bound (randSource env 0) (hi - lo));
      pose proof (Z.mod_pos_bound (randSource env 1) (hi - lo));
      pose proof (Z.mod_pos_bound (randSource env 2) (hi - lo));
      pose proof (Z.mod_pos_bound (randSource env 3) (hi - lo));
      pose proof (Z.mod_pos_bound (randSource env 4) (hi - lo)); lia.
  - intros Hno Hport.
    destruct (bool_decide (lo ≠ 0%Z) && bool_decide (hi ≠ 0%Z)) eqn:Hr.
    { apply andb_true_iff in Hr as [Hr1%bool_decide_eq_true
                                    Hr2%bool_decide_eq_true].
      by destruct Hno. }
    by rewrite bool_decide_eq_true_2.
  - intros Hno Hport.
    destruct (bool_decide (lo ≠ 0%Z) && bool_decide (hi ≠ 0%Z)) eqn:Hr.
    { apply andb_true_iff in Hr as [Hr1%bool_decide_eq_true
                                    Hr2%bool_decide_eq_true].
      by destruct Hno. }
    rewrite bool_decide_eq_false_2; [done|]. by intros [].
Qed.

Lemma probePorts_skip (env : Env) (stunServers : list string) (i : nat)
    (localIP : string) (j0 : nat) (tried rest : list Z) :
  (∀ j port, tried !! j = Some port →
             addressInUse env stunServers i localIP (j0 + j) port) →
  probePorts env stunServers i localIP j0 (tried ++ rest)
  = (tried ++ (probePorts env stunServers i localIP
                 (j0 + length tried) rest).1,
     (probePorts env stunServers i localIP (j0 + length tried) rest).2).
Proof.
  revert j0. induction tried as [|port tried IH]; intros j0 Hbusy.
  - simpl. rewrite Nat.add_0_r. by destruct (probePorts _ _ _ _ _ _).
  - destruct (Hbusy 0 port eq_refl) as (err & Herr & Hcontains).
    rewrite Nat.add_0_r in Herr.
    cbn [app probePorts]. rewrite Herr, Hcontains.
    rewrite IH.
    + cbn [length]. by rewrite Nat.add_succ_r.
    + intros j p Hj. rewrite Nat.add_succ_l, <- Nat.add_succ_r.
      by apply Hbusy.
Qed.

(** The probe launched for a local IP that passes the filter sends what
    its iteration over the ports reports; no probe is launched for a
    skipped one. *)
Lemma sentBy_probe (env : Env) (stunServers : list string)
    (udpPorts : list Z) (ipFilter : option (IP → bool))
    (localIPs : list string) (i : nat) (ip : string) :
  localIPs !! i = Some ip →
  sentBy env stunServers udpPorts ipFilter localIPs i
  = if skipped ipFilter ip then None
    else (probe env stunServers i ip udpPorts).2.
Proof. intros Hi. unfold sentBy. by rewrite Hi. Qed.

(** C8.  A probe goes through the candidate ports in order.  After any
    number of ports [tried] that all failed with "address already in use":
    a successful STUN response at the next port makes the probe report
    exactly the pair of that external IP and its local IP and try no
    further port; any other failure at the next port ends the probe with no
    report and no further port tried; and when the ports are exhausted the
    probe ends with no report. *)
Theorem probe_port_iteration (env : Env) (stunServers : list string)
    (i : nat) (localIP : string) (tried : list Z) (port : Z)
    (rest : list Z) :
  (∀ j p, tried !! j = Some p →
          addressInUse env stunServers i localIP j p) →
  let reply :=
    GetExternalIP env i (length tried) stunServers (ParseIP localIP) port in
  (∀ addr, reply = Val addr →
     probe env stunServers i localIP (tried ++ port :: rest)
     = (tried ++ [port],
        Some {| externalIP := addr; localIP := localIP |})) ∧
  (∀ err, reply = Error err →
     Contains err "address already in use" = false →
     probe env stunServers i localIP (tried ++ port :: rest)
     = (tried ++ [port], None)) ∧
  probe env stunServers i localIP tried = (tried, None).
Proof.
  intros Hbusy reply. unfold probe. split; [|split].
  - intros addr Hreply. rewrite probePorts_skip by done. simpl.
    fold reply. by rewrite Hreply.
  - intros err Hreply Hother. rewrite probePorts_skip by done. simpl.
    fold reply. by rewrite Hreply, Hother.
  - rewrite <- (app_nil_r tried) at 1. rewrite probePorts_skip by done.
    simpl. by rewrite app_nil_r.
Qed.
End ports_props.

Lemma candidate_udp_ports_witness :
  rangeConfigured Examples.confRange ∧
  ∃ udpPorts,
    @udpPortsForConf IPv4.net Examples.envSilent Examples.confRange
    = Ok udpPorts ∧
    Forall (λ port, (50000 ≤ port < 60000)%Z) udpPorts.
Proof.
  assert (rangeConfigured Examples.confRange) as Hr by (split; discriminate).
  split; [exact Hr|].
  destruct (@candidate_udp_ports IPv4.net Examples.envSilent
              Examples.confRange) as (Hrange & _ & _).
  - intros _. simpl. lia.
  - destruct (Hrange Hr) as (udpPorts & Hrun & _ & _ & Hall).
    exists udpPorts. split; [exact Hrun|exact Hall].
Defined.

Section one_port_range.
Context `{NetPkg}.

(** C7.  The code at a configured range of one port.  In the configuration
    whose port range is 50000-50000 a contiguous range is configured (both
    ends are non-zero), but whatever the environment, the selection of the
    candidate ports calls [rand.Intn(0)] and panics: it returns no port
    set, so not the 5 ports sampled from the range.  The builder's own use
    of the same range, the call of [SetEphemeralUDPPortRange], accepts the
    range and sets it in the setting engine. *)
Theorem candidate_ports_one_port_range (env : Env) :
  rangeConfigured Examples.confRangeOnePort ∧
  udpPortsForConf env Examples.confRangeOnePort
  = Panic "invalid argument to Intn" ∧
  (¬ ∃ udpPorts,
       udpPortsForConf env Examples.confRangeOnePort = Ok udpPorts) ∧
  (∀ ifFilter ipFilter networkTypes s,
     ∃ s', udpSetup env Examples.confRangeOnePort
             (rtcConfOf Examples.confRangeOnePort) ifFilter ipFilter
             networkTypes s
           = Ok (networkTypes ++ [NetworkTypeUDP4; NetworkTypeUDP6], s') ∧
           se_EphemeralUDPPortRange s' = Some (50000, 50000)%Z).
Proof.
  assert (udpPortsForConf env Examples.confRangeOnePort
          = Panic "invalid argument to Intn") as Hpanic by reflexivity.
  split; [split; discriminate|]. split; [exact Hpanic|]. split.
  - intros [udpPorts Hrun]. rewrite Hpanic in Hrun. discriminate.
  - intros ifFilter ipFilter networkTypes s. eexists.
    split; reflexivity.
Qed.
End one_port_range.

Lemma probe_port_iteration_witness :
  @probe IPv4.net Examples.envBusyPorts ["stun1:3478"] 0 "10.0.0.1"
    [50000; 50001; 50002; 50003]%Z
  = ([50000; 50001; 50002]%Z,
     Some {| externalIP := "203.0.113.5"; localIP := "10.0.0.1" |}).
Proof.
  refine (proj1 (@probe_port_iteration IPv4.net Examples.envBusyPorts
                   ["stun1:3478"] 0 "10.0.0.1" [50000; 50001]%Z 50002%Z
                   [50003%Z] _) "203.0.113.5" _).
  - intros j p Hj. exists
      "listen udp 10.0.0.1:50000: bind: address already in use".
    destruct j as [|[|j]]; [| |done]; (split; [reflexivity|]);
      vm_compute; reflexivity.
  - reflexivity.
Defined.

(** ** NAT 1:1 resolution *)

Lemma occurrences_not_elem_of (x : string) (l : list string) :
  x ∉ l → occurrences x l = 0.
Proof.
  unfold occurrences. induction l as [|y l IH]; [done|].
  intros [Hne Hnotin]%not_elem_of_cons.
  rewrite filter_cons_False by congruence. by apply IH.
Qed.

Lemma occurrences_NoDup (x : string) (l : list string) :
  NoDup l → x ∈ l → occurrences x l = 1.
Proof.
  induction 1 as [|y l Hnotin Hnodup IH]; [by intros ?%elem_of_nil|].
  intros [->|Hin]%elem_of_cons.
  - unfold occurrences. rewrite filter_cons_True by done. simpl.
    f_equal. by apply occurrences_not_elem_of.
  - unfold occurrences. rewrite filter_cons_False.
    + by apply IH.
    + intros ->. done.
Qed.

Lemma NoDup_fmap_elem_inj {A B} (f : A → B) (l : list A) (x y : A) :
  NoDup (f <$> l) → x ∈ l → y ∈ l → f x = f y → x = y.
Proof.
  induction l as [|a l IH]; [by intros _ ?%elem_of_nil|].
  rewrite fmap_cons, NoDup_cons. intros [Hnotin Hnodup] Hx Hy Heq.
  apply elem_of_cons in Hx as [->|Hx]; apply elem_of_cons in Hy as [->|Hy].
  - done.
  - destruct Hnotin. rewrite Heq. by apply list_elem_of_fmap_2.
  - destruct Hnotin. rewrite <- Heq. by apply list_elem_of_fmap_2.
  - by apply IH.
Qed.

Lemma NoDup_fmap_omap {A B C} (f : A → option B) (g : B → C) (l : list A) :
  NoDup l →
  (∀ i j a b, f i = Some a → f j = Some b → g a = g b → i = j) →
  NoDup (g <$> omap f l).
Proof.
  intros Hnodup Hinj. induction Hnodup as [|i l Hnotin Hnodup IH]; simpl.
  - constructor.
  - destruct (f i) as [a|] eqn:Hfi; [|done].
    rewrite fmap_cons. constructor; [|done].
    intros (b & Hgb & Hb)%list_elem_of_fmap.
    apply list_elem_of_omap in Hb as (j & Hj & Hfj).
    assert (i = j) by (by eapply Hinj). by subst.
Qed.

Section resolver_props.
Context `{NetPkg}.

(** *** What the collector receives *)

Lemma probePorts_localIP (env : Env) (stunServers : list string) (i : nat)
    (ip : string) (j : nat) (udpPorts : list Z) (m : ipmapping) :
  (probePorts env stunServers i ip j udpPorts).2 = Some m → localIP m = ip.
Proof.
  revert j. induction udpPorts as [|port rest IH]; intros j; simpl; [done|].
  destruct (GetExternalIP _ _ _ _ _ _) as [addr|err]; simpl.
  - by intros [= <-].
  - destruct (Contains err _); [|done].
    specialize (IH (S j)). by destruct (probePorts _ _ _ _ _ _).
Qed.

Lemma probePorts_all_fail (env : Env) (stunServers : list string) (i : nat)
    (ip : string) (j : nat) (udpPorts : list Z) :
  (∀ i j ip port,
     ∃ err, GetExternalIP env i j stunServers ip port = Error err) →
  (probePorts env stunServers i ip j udpPorts).2 = None.
Proof.
  intros Hfail. revert j.
  induction udpPorts as [|port rest IH]; intros j; simpl; [done|].
  destruct (Hfail i j (ParseIP ip) port) as [err ->].
  destruct (Contains err _); [|done].
  specialize (IH (S j)). by destruct (probePorts _ _ _ _ _ _).
Qed.

Lemma sentBy_Some (env : Env) (stunServers : list string)
    (udpPorts : list Z) (ipFilter : option (IP → bool))
    (localIPs : list string) (i : nat) (m : ipmapping) :
  sentBy env stunServers udpPorts ipFilter localIPs i = Some m →
  localIPs !! i = Some (localIP m) ∧ skipped ipFilter (localIP m) = false.
Proof.
  unfold sentBy, probe. destruct (localIPs !! i) as [ip|]; [|done].
  destruct (skipped ipFilter ip) eqn:Hskip; [done|].
  intros Hm%probePorts_localIP. by subst.
Qed.

Lemma omap_None {A B} (f : A → option B) (l : list A) :
  (∀ a, f a = None) → omap f l = [].
Proof. intros Hf. induction l as [|a l IH]; simpl; by rewrite ?Hf. Qed.

Lemma received_nil_skipped (env : Env) (stunServers : list string)
    (udpPorts : list Z) (ipFilter : option (IP → bool))
    (localIPs : list string) :
  (∀ ip, ip ∈ localIPs → skipped ipFilter ip = true) →
  received env stunServers udpPorts ipFilter localIPs = [].
Proof.
  intros Hskip. apply omap_None. intros i.
  destruct (sentBy _ _ _ _ _ i) as [m|] eqn:Hm; [|done].
  apply sentBy_Some in Hm as [Hi Hpass].
  apply list_elem_of_lookup_2 in Hi. apply Hskip in Hi. congruence.
Qed.

Lemma received_nil_all_fail (env : Env) (stunServers : list string)
    (udpPorts : list Z) (ipFilter : option (IP → bool))
    (localIPs : list string) :
  (∀ i j ip port,
     ∃ err, GetExternalIP env i j stunServers ip port = Error err) →
  received env stunServers udpPorts ipFilter localIPs = [].
Proof.
  intros Hfail. apply omap_None. intros i. unfold sentBy, probe.
  destruct (localIPs !! i) as [ip|]; [|done].
  destruct (skipped ipFilter ip); [done|]. by apply probePorts_all_fail.
Qed.

(** With nothing received the mapping stays empty and the resolution
    returns nil. *)
Lemma resolveNAT_nothing_received (env : Env) (stunServers : list string)
    (udpPorts : list Z) (ipFilter : option (IP → bool))
    (localIPs : list string) :
  received env stunServers udpPorts ipFilter localIPs = [] →
  resolveNAT env stunServers udpPorts ipFilter localIPs = None.
Proof. intros Hnil. unfold resolveNAT. by rewrite Hnil. Qed.

Lemma getNAT1to1IPsForConf_run (env : Env) (conf : Config)
    (ipFilter : option (IP → bool)) (localIPs : list string)
    (udpPorts : list Z) :
  GetLocalIPAddresses env (EnableLoopbackCandidate (RTC conf))
    = Val localIPs →
  udpPortsForConf env conf = Ok udpPorts →
  getNAT1to1IPsForConf env conf ipFilter
  = Ok (resolveNAT env
          (if bool_decide (length (STUNServers (RTC conf)) = 0)
           then DefaultStunServers env else STUNServers (RTC conf))
          udpPorts ipFilter localIPs).
Proof.
  intros Hlocal Hports. unfold getNAT1to1IPsForConf.
  rewrite Hlocal. simpl. by rewrite Hports.
Qed.

(** C9.  If the input local-IP list is empty, or there is an IP filter
    and it rejects every entry of the list (it returns false on the parsed
    address), NAT resolution returns (nil, nil): a nil mapping list and no
    error. *)
Theorem no_local_ip_returns_nil (env : Env) (ipFilter : option (IP → bool))
    (localIPs : list string) :
  localIPs = []
  ∨ (∃ filter, ipFilter = Some filter ∧
               ∀ ip, ip ∈ localIPs → filter (ParseIP ip) = false) →
  (∀ stunServers udpPorts,
     resolveNAT env stunServers udpPorts ipFilter localIPs = None) ∧
  (∀ conf udpPorts,
     GetLocalIPAddresses env (EnableLoopbackCandidate (RTC conf))
       = Val localIPs →
     udpPortsForConf env conf = Ok udpPorts →
     getNAT1to1IPsForConf env conf ipFilter = Ok None).
Proof.
  intros Hnone.
  assert (∀ ip, ip ∈ localIPs → skipped ipFilter ip = true) as Hskip.
  { destruct Hnone as [->|(filter & -> & Hreject)].
    - by intros ip ?%elem_of_nil.
    - intros ip Hip. simpl. by rewrite (Hreject ip Hip). }
  assert (∀ stunServers udpPorts,
            resolveNAT env stunServers udpPorts ipFilter localIPs = None)
    as Hnil.
  { intros stunServers udpPorts. apply resolveNAT_nothing_received.
    by apply received_nil_skipped. }
  split; [exact Hnil|]. intros conf udpPorts Hlocal Hports.
  rewrite (getNAT1to1IPsForConf_run _ _ _ _ _ Hlocal Hports).
  by rewrite Hnil.
Qed.

(** C1, as the code has it.  If every STUN probe fails, or more generally
    no mapping reaches the collector before its deadline, NAT resolution
    returns (nil, nil): no error, and no mapping list either; no
    self-mapped entry is produced. *)
Theorem all_probes_fail_returns_nil (env : Env)
    (ipFilter : option (IP → bool)) (localIPs : list string) :
  (∀ i j stunServers ip port,
     ∃ err, GetExternalIP env i j stunServers ip port = Error err)
  ∨ (∀ stunServers udpPorts,
       received env stunServers udpPorts ipFilter localIPs = []) →
  (∀ stunServers udpPorts,
     resolveNAT env stunServers udpPorts ipFilter localIPs = None) ∧
  (∀ conf udpPorts,
     GetLocalIPAddresses env (EnableLoopbackCandidate (RTC conf))
       = Val localIPs →
     udpPortsForConf env conf = Ok udpPorts →
     getNAT1to1IPsForConf env conf ipFilter = Ok None).
Proof.
  intros Hfail.
  assert (∀ stunServers udpPorts,
            resolveNAT env stunServers udpPorts ipFilter localIPs = None)
    as Hnil.
  { intros stunServers udpPorts. apply resolveNAT_nothing_received.
    destruct Hfail as [Hfail|Hnone]; [|by apply Hnone].
    apply received_nil_all_fail. intros i j ip port. apply Hfail. }
  split; [exact Hnil|]. intros conf udpPorts Hlocal Hports.
  rewrite (getNAT1to1IPsForConf_run _ _ _ _ _ Hlocal Hports).
  by rewrite Hnil.
Qed.
End resolver_props.

(** The node of the two local addresses 10.0.0.1 and 10.0.0.2 whose filter
    includes the block 192.168.0.0/16 only: the filter rejects both
    addresses, no probe is launched and the resolution returns nil, although
    the probe of 10.0.0.1 would have learnt an external address, as it does
    without the filter. *)
Lemma no_local_ip_returns_nil_witness :
  @IPFilterFromConf IPv4.net Examples.ipsOnly192
  = Val Examples.filterOnly192 ∧
  (∀ ip, ip ∈ ["10.0.0.1"; "10.0.0.2"] →
         Examples.filterOnly192 (@ParseIP IPv4.net ip) = false) ∧
  @getNAT1to1IPsForConf IPv4.net Examples.envFirstAnswers Examples.conf0
    (Some Examples.filterOnly192)
  = Ok None ∧
  @getNAT1to1IPsForConf IPv4.net Examples.envFirstAnswers Examples.conf0
    None
  = Ok (Some ["10.0.0.2/10.0.0.2"; "203.0.113.5/10.0.0.1"]).
Proof.
  assert (∀ ip, ip ∈ ["10.0.0.1"; "10.0.0.2"] →
                Examples.filterOnly192 (@ParseIP IPv4.net ip) = false)
    as Hreject.
  { intros ip [->|[->|Hnil%elem_of_nil]%elem_of_cons]%elem_of_cons;
      [reflexivity|reflexivity|done]. }
  split; [reflexivity|]. split; [exact Hreject|]. split; [|reflexivity].
  refine (proj2 (@no_local_ip_returns_nil IPv4.net Examples.envFirstAnswers
                   (Some Examples.filterOnly192) ["10.0.0.1"; "10.0.0.2"]
                   (or_intror
                      (ex_intro _ Examples.filterOnly192
                         (conj eq_refl Hreject))))
            Examples.conf0 [7882%Z] _ _); reflexivity.
Defined.

Lemma all_probes_fail_returns_nil_witness :
  @getNAT1to1IPsForConf IPv4.net Examples.envSilent Examples.conf0 None
  = Ok None.
Proof.
  refine (proj2 (@all_probes_fail_returns_nil IPv4.net Examples.envSilent
                   None ["10.0.0.1"; "10.0.0.2"] (or_introl _))
            Examples.conf0 [7882%Z] _ _); [|reflexivity|reflexivity].
  intros i j stunServers ip port. exists "i/o timeout". reflexivity.
Defined.

(** Two local addresses, every STUN request times out: the resolution
    returns nil, not the two self-mapped entries. *)
Lemma all_probes_fail_counterexample :
  (∀ i j stunServers ip port,
     ∃ err, @GetExternalIP IPv4.net Examples.envSilent i j stunServers ip port
            = Error err) ∧
  @resolveNAT IPv4.net Examples.envSilent ["stun1:3478"] [7882%Z] None
    ["10.0.0.1"; "10.0.0.2"] = None ∧
  @resolveNAT IPv4.net Examples.envSilent ["stun1:3478"] [7882%Z] None
    ["10.0.0.1"; "10.0.0.2"]
  ≠ Some ["10.0.0.1/10.0.0.1"; "10.0.0.2/10.0.0.2"] ∧
  @getNAT1to1IPsForConf IPv4.net Examples.envSilent Examples.conf0 None
  = Ok None.
Proof.
  split; [intros; by exists "i/o timeout"|].
  split; [vm_compute; reflexivity|].
  split; [vm_compute; discriminate|]. vm_compute. reflexivity.
Qed.

Section mapping_props.
Context `{NetPkg}.

(** *** The collector *)

Lemma collect1_lookup (st : collector) (m : ipmapping) (e l : string) :
  natMapping (collect1 st m) !! e = Some l →
  natMapping st !! e = Some l ∨ m = {| externalIP := e; localIP := l |}.
Proof.
  unfold collect1. destruct (negb (firstResloved st));
    (destruct (natMapping st !! externalIP m) as [local|] eqn:Hm;
       [by left|]); simpl;
    (destruct (decide (externalIP m = e)) as [<-|Hne];
       [rewrite lookup_insert_eq; intros [= <-]; right; by destruct m
       |rewrite lookup_insert_ne by done; by left]).
Qed.

Lemma foldl_collect1_lookup (mappings : list ipmapping) (st : collector)
    (e l : string) :
  natMapping (foldl collect1 st mappings) !! e = Some l →
  natMapping st !! e = Some l
  ∨ {| externalIP := e; localIP := l |} ∈ mappings.
Proof.
  revert st. induction mappings as [|m mappings IH]; intros st; simpl.
  - by left.
  - intros [[Hold| ->]%collect1_lookup|Hin]%IH.
    + by left.
    + right. apply list_elem_of_here.
    + right. by apply list_elem_of_further.
Qed.

(** Every entry of the collected mapping was received. *)
Lemma collect_lookup (mappings : list ipmapping) (e l : string) :
  collect mappings !! e = Some l →
  {| externalIP := e; localIP := l |} ∈ mappings.
Proof.
  intros [Hempty|Hin]%foldl_collect1_lookup; [|done].
  simpl in Hempty. by rewrite lookup_empty in Hempty.
Qed.

(** X4.  The deadline adapts: when the collector loop ends, its timer was
    last set to five seconds if nothing was received, and to one second,
    by the reset at the first mapping, if anything was. *)
Lemma collect_timeout (mappings : list ipmapping) :
  timeout (foldl collect1 collector0 mappings)
  = if bool_decide (mappings = []) then 5%Z else 1%Z.
Proof.
  assert (∀ ms st, firstResloved st = true →
            firstResloved (foldl collect1 st ms) = true
            ∧ timeout (foldl collect1 st ms) = timeout st) as Hkeep.
  { induction ms as [|m ms IH]; intros st Hst; simpl; [done|].
    assert (firstResloved (collect1 st m) = true
            ∧ timeout (collect1 st m) = timeout st) as [Hf Ht].
    { unfold collect1. rewrite Hst. simpl.
      by destruct (natMapping st !! externalIP m). }
    destruct (IH _ Hf) as [Hf' Ht']. split; [done|congruence]. }
  destruct mappings as [|m ms]; [done|]. simpl.
  assert (firstResloved (collect1 collector0 m) = true
          ∧ timeout (collect1 collector0 m) = 1%Z) as [Hf Ht].
  { unfold collect1. simpl. by destruct (∅ !! externalIP m). }
  destruct (Hkeep ms _ Hf) as [_ ->]. done.
Qed.

Lemma received_NoDup_localIP (env : Env) (stunServers : list string)
    (udpPorts : list Z) (ipFilter : option (IP → bool))
    (localIPs : list string) :
  NoDup localIPs →
  NoDup (localIP <$> received env stunServers udpPorts ipFilter localIPs).
Proof.
  intros Hnodup. apply NoDup_fmap_omap; [apply NoDup_remove_dups|].
  intros i j a b [Hi _]%sentBy_Some [Hj _]%sentBy_Some Heq.
  rewrite Heq in Hi. by eapply NoDup_lookup.
Qed.

(** *** The fallback *)

Lemma found_isValue (natMapping : gmap string string) (local : string) :
  found natMapping local = true ↔ isValue natMapping local.
Proof.
  unfold found, isValue. rewrite existsb_elem_of. split.
  - intros ([k v] & Hin%elem_of_map_to_list & Heq%bool_decide_eq_true).
    simpl in Heq. subst. by exists k.
  - intros [k Hk]. exists (k, local). split.
    + by apply elem_of_map_to_list.
    + by apply bool_decide_eq_true.
Qed.

Lemma selfMap1_wellKeyed (localIPs : list string)
    (natMapping : gmap string string) (local : string) :
  wellKeyed localIPs natMapping → local ∈ localIPs →
  wellKeyed localIPs (selfMap1 natMapping local) ∧
  isValue (selfMap1 natMapping local) local ∧
  (∀ v, isValue natMapping v → isValue (selfMap1 natMapping local) v).
Proof.
  intros [Hinj Hself] Hlocal. unfold selfMap1.
  destruct (found natMapping local) eqn:Hfound.
  { by apply found_isValue in Hfound. }
  assert (¬ isValue natMapping local) as Hnew.
  { rewrite <- found_isValue. congruence. }
  assert (natMapping !! local = None) as Hfree.
  { destruct (natMapping !! local) as [v|] eqn:Hv; [|done].
    destruct Hnew. exists local. rewrite Hv. f_equal. symmetry.
    by eapply Hself. }
  split; [split|split].
  - intros k1 k2 v.
    destruct (decide (local = k1)) as [<-|Hne1];
      destruct (decide (local = k2)) as [<-|Hne2];
      rewrite ?lookup_insert_eq, ?lookup_insert_ne by done; try done.
    + intros [= <-] Hk2. destruct Hnew. by exists k2.
    + intros Hk1 [= <-]. destruct Hnew. by exists k1.
    + apply Hinj.
  - intros k v. destruct (decide (local = k)) as [<-|Hne].
    + rewrite lookup_insert_eq. by intros [= <-].
    + rewrite lookup_insert_ne by done. apply Hself.
  - exists local. by rewrite lookup_insert_eq.
  - intros v [k Hk]. exists k. rewrite lookup_insert_ne; [done|].
    intros <-. congruence.
Qed.

Lemma foldl_selfMap1_wellKeyed (localIPs locals : list string)
    (natMapping : gmap string string) :
  wellKeyed localIPs natMapping →
  (∀ local, local ∈ locals → local ∈ localIPs) →
  wellKeyed localIPs (foldl selfMap1 natMapping locals) ∧
  (∀ local, local ∈ locals →
            isValue (foldl selfMap1 natMapping locals) local) ∧
  (∀ v, isValue natMapping v →
        isValue (foldl selfMap1 natMapping locals) v).
Proof.
  revert natMapping.
  induction locals as [|local locals IH]; intros natMapping Hwk Hsub; simpl.
  - split; [done|]. split; [by intros local ?%elem_of_nil|done].
  - destruct (selfMap1_wellKeyed localIPs natMapping local Hwk)
      as (Hwk1 & Hval1 & Hmono1); [apply Hsub, list_elem_of_here|].
    destruct (IH (selfMap1 natMapping local) Hwk1) as (Hwk2 & Hval2 & Hmono2).
    { intros l Hl. by apply Hsub, list_elem_of_further. }
    split; [done|]. split.
    + intros l [->|Hl]%elem_of_cons; [by apply Hmono2|by apply Hval2].
    + intros v Hv. by apply Hmono2, Hmono1.
Qed.

(** A resolution that returns a mapping list went through the fallback:
    its [natMapping] is the collected one after the fallback, and the list
    is that mapping formatted. *)
Lemma natMappingOf_returned (env : Env) (stunServers : list string)
    (udpPorts : list Z) (ipFilter : option (IP → bool))
    (localIPs out : list string) :
  resolveNAT env stunServers udpPorts ipFilter localIPs = Some out →
  natMappingOf env stunServers udpPorts ipFilter localIPs
  = selfMap (collect (received env stunServers udpPorts ipFilter localIPs))
      localIPs ∧
  out = nat1to1IPs
          (natMappingOf env stunServers udpPorts ipFilter localIPs) ∧
  size (collect (received env stunServers udpPorts ipFilter localIPs)) ≠ 0.
Proof.
  unfold resolveNAT, natMappingOf.
  destruct (bool_decide
              (size (collect (received env stunServers udpPorts ipFilter
                                localIPs)) = 0)) eqn:Hsize; [done|].
  intros [= <-]. apply bool_decide_eq_false in Hsize. done.
Qed.

(** The mapping after the fallback, in a resolution over pairwise distinct
    local IPs in which no received external IP is another local IP. *)
Lemma selfMap_collect_wellKeyed (env : Env) (stunServers : list string)
    (udpPorts : list Z) (ipFilter : option (IP → bool))
    (localIPs : list string) :
  NoDup localIPs →
  (∀ m, m ∈ received env stunServers udpPorts ipFilter localIPs →
        externalIP m ∈ localIPs → externalIP m = localIP m) →
  wellKeyed localIPs
    (selfMap (collect (received env stunServers udpPorts ipFilter localIPs))
       localIPs) ∧
  (∀ local, local ∈ localIPs →
     isValue
       (selfMap
          (collect (received env stunServers udpPorts ipFilter localIPs))
          localIPs)
       local).
Proof.
  intros Hnodup Hforeign. unfold selfMap.
  set (mappings := received env stunServers udpPorts ipFilter localIPs)
    in *.
  assert (wellKeyed localIPs (collect mappings)) as Hwk.
  { split.
    - intros k1 k2 v Hk1%collect_lookup Hk2%collect_lookup.
      assert ({| externalIP := k1; localIP := v |}
              = {| externalIP := k2; localIP := v |}) as Heq.
      { eapply (NoDup_fmap_elem_inj localIP); [|done|done|done].
        by apply received_NoDup_localIP. }
      by injection Heq.
    - intros k v Hk%collect_lookup Hin. by apply (Hforeign _ Hk). }
  destruct (foldl_selfMap1_wellKeyed localIPs localIPs _ Hwk)
    as (Hwk' & Hval & _); done.
Qed.

Lemma wellKeyed_values_NoDup (localIPs : list string)
    (natMapping : gmap string string) :
  wellKeyed localIPs natMapping → NoDup (map_to_list natMapping).*2.
Proof.
  intros [Hinj _]. apply NoDup_fmap_2_strong; [|apply NoDup_map_to_list].
  intros [k1 v1] [k2 v2] Hk1%elem_of_map_to_list Hk2%elem_of_map_to_list.
  simpl. intros <-. f_equal. by eapply Hinj.
Qed.

(** C2, as the code has it.  For every resolution run that returns a
    mapping list: the list is the final mapping formatted entry by entry
    and is non-empty, the external-IP keys of the entries are pairwise
    distinct, and every entry is either a received pair of a discovered
    external IP and its local IP or the self-mapping of an input local IP.
    If moreover the input local IPs are pairwise distinct and no received
    external IP is an input local IP other than the one it was discovered
    for, then every input local IP appears exactly once as a value across
    the final mapping. *)
Theorem nat_mapping_keys_and_values (env : Env) (stunServers : list string)
    (udpPorts : list Z) (ipFilter : option (IP → bool))
    (localIPs out : list string) :
  resolveNAT env stunServers udpPorts ipFilter localIPs = Some out →
  let entries :=
    map_to_list (natMappingOf env stunServers udpPorts ipFilter localIPs) in
  out = (λ kv, sprintf_pair kv.1 kv.2) <$> entries ∧
  out ≠ [] ∧
  NoDup entries.*1 ∧
  (∀ e l, (e, l) ∈ entries →
     {| externalIP := e; localIP := l |}
       ∈ received env stunServers udpPorts ipFilter localIPs
     ∨ (e = l ∧ l ∈ localIPs)) ∧
  (NoDup localIPs →
   (∀ m, m ∈ received env stunServers udpPorts ipFilter localIPs →
         externalIP m ∈ localIPs → externalIP m = localIP m) →
   ∀ local, local ∈ localIPs → occurrences local entries.*2 = 1).
Proof.
  intros Hrun entries.
  destruct (natMappingOf_returned _ _ _ _ _ _ Hrun) as (Hmap & -> & Hsize).
  clear Hrun. subst entries. rewrite Hmap. clear Hmap.
  split; [done|]. split; [|split; [|split]].
  - unfold nat1to1IPs. intros Hnil%fmap_nil_inv.
    apply map_to_list_empty_iff in Hnil.
    apply Hsize. clear Hsize.
    unfold selfMap in Hnil.
    assert (∀ locals (M : gmap string string),
              foldl selfMap1 M locals = ∅ → M = ∅) as Hgrow.
    { induction locals as [|l locals IH]; intros M; simpl; [done|].
      intros HM%IH. unfold selfMap1 in HM.
      destruct (found M l); [done|]. by apply insert_non_empty in HM. }
    apply Hgrow in Hnil. rewrite Hnil. apply map_size_empty.
  - apply NoDup_fst_map_to_list.
  - intros e l Hin%elem_of_map_to_list.
    unfold selfMap in Hin.
    assert (∀ locals (M : gmap string string),
              (∀ x, x ∈ locals → x ∈ localIPs) →
              foldl selfMap1 M locals !! e = Some l →
              M !! e = Some l ∨ (e = l ∧ l ∈ localIPs)) as Hsrc.
    { induction locals as [|x locals IH]; intros M Hsub; simpl;
        [by left|].
      intros [HM|Hself]%IH; [|by right|].
      - unfold selfMap1 in HM. destruct (found M x); [by left|].
        destruct (decide (x = e)) as [->|Hne].
        + rewrite lookup_insert_eq in HM. injection HM as <-. right.
          split; [done|]. apply Hsub, list_elem_of_here.
        + rewrite lookup_insert_ne in HM by done. by left.
      - intros y Hy. by apply Hsub, list_elem_of_further. }
    destruct (Hsrc localIPs _ (λ x Hx, Hx) Hin) as [Hc|Hself];
      [|by right].
    left. by apply collect_lookup.
  - intros Hnodup Hforeign local Hlocal.
    destruct (selfMap_collect_wellKeyed env stunServers udpPorts ipFilter
                localIPs Hnodup Hforeign) as (Hwk & Hval).
    apply occurrences_NoDup.
    + by eapply wellKeyed_values_NoDup.
    + destruct (Hval local Hlocal) as [k Hk].
      apply list_elem_of_fmap. exists (k, local). split; [done|].
      by apply elem_of_map_to_list.
Qed.
End mapping_props.

(** The node of the two local addresses 10.0.0.1 and 10.0.0.2, the first
    of which is translated to 203.0.113.5: both appear once. *)
Lemma nat_mapping_keys_and_values_witness :
  @resolveNAT IPv4.net Examples.envFirstAnswers ["stun1:3478"] [0%Z] None
    ["10.0.0.1"; "10.0.0.2"]
  = Some ["10.0.0.2/10.0.0.2"; "203.0.113.5/10.0.0.1"] ∧
  ∀ local, local ∈ ["10.0.0.1"; "10.0.0.2"] →
    occurrences local
      (map_to_list
         (@natMappingOf IPv4.net Examples.envFirstAnswers ["stun1:3478"]
            [0%Z] None ["10.0.0.1"; "10.0.0.2"])).*2 = 1.
Proof.
  assert (@resolveNAT IPv4.net Examples.envFirstAnswers ["stun1:3478"]
            [0%Z] None ["10.0.0.1"; "10.0.0.2"]
          = Some ["10.0.0.2/10.0.0.2"; "203.0.113.5/10.0.0.1"]) as Hrun
    by (vm_compute; reflexivity).
  split; [exact Hrun|].
  refine (proj2 (proj2 (proj2 (proj2
    (@nat_mapping_keys_and_values IPv4.net Examples.envFirstAnswers
       ["stun1:3478"] [0%Z] None ["10.0.0.1"; "10.0.0.2"] _ Hrun)))) _ _).
  - refine (bool_decide_unpack _ _). vm_compute. exact I.
  - intros m Hm Hin. exfalso.
    assert (@received IPv4.net Examples.envFirstAnswers ["stun1:3478"]
              [0%Z] None ["10.0.0.1"; "10.0.0.2"]
            = [{| externalIP := "203.0.113.5"; localIP := "10.0.0.1" |}])
      as Hrecv by (vm_compute; reflexivity).
    rewrite Hrecv in Hm. apply list_elem_of_singleton in Hm. subst m.
    revert Hin. refine (bool_decide_unpack (_ ∉ _) _). vm_compute. exact I.
Defined.

(** Two runs that return a mapping list in which an input local IP does
    not appear exactly once as a value.  In the first, the probe of
    10.0.0.1 learns the external address 203.0.113.5, which is the node's
    other local address, whose own probe times out: the fallback then
    stores that address under its own key and the entry of 10.0.0.1 is
    gone.  In the second, the local address 10.0.0.1 is listed twice and
    its two probes learn different external addresses: it is the value of
    two entries. *)
Lemma nat_mapping_keys_and_values_counterexample :
  (@resolveNAT IPv4.net Examples.envFirstAnswers ["stun1:3478"] [0%Z] None
     ["10.0.0.1"; "203.0.113.5"]
   = Some ["203.0.113.5/203.0.113.5"] ∧
   map_to_list
     (@natMappingOf IPv4.net Examples.envFirstAnswers ["stun1:3478"] [0%Z]
        None ["10.0.0.1"; "203.0.113.5"])
   = [("203.0.113.5", "203.0.113.5")] ∧
   "10.0.0.1" ∈ ["10.0.0.1"; "203.0.113.5"] ∧
   occurrences "10.0.0.1"
     (map_to_list
        (@natMappingOf IPv4.net Examples.envFirstAnswers ["stun1:3478"]
           [0%Z] None ["10.0.0.1"; "203.0.113.5"])).*2 = 0) ∧
  (@resolveNAT IPv4.net Examples.envTwoAnswers ["stun1:3478"] [0%Z] None
     ["10.0.0.1"; "10.0.0.1"]
   = Some ["203.0.113.5/10.0.0.1"; "203.0.113.6/10.0.0.1"] ∧
   occurrences "10.0.0.1"
     (map_to_list
        (@natMappingOf IPv4.net Examples.envTwoAnswers ["stun1:3478"]
           [0%Z] None ["10.0.0.1"; "10.0.0.1"])).*2 = 2).
Proof.
  split.
  - split; [vm_compute; reflexivity|]. split; [vm_compute; reflexivity|].
    split; [apply list_elem_of_here|]. vm_compute. reflexivity.
  - split; vm_compute; reflexivity.
Qed.

(** * Further properties *)

(** ** Probes and what the collector receives *)

Section probe_props.
Context `{NetPkg}.

Lemma probePorts_shape (env : Env) (stunServers : list string) (i : nat)
    (ip : string) (j : nat) (udpPorts : list Z) :
  (probePorts env stunServers i ip j udpPorts).1 `prefix_of` udpPorts ∧
  (udpPorts ≠ [] → (probePorts env stunServers i ip j udpPorts).1 ≠ []) ∧
  ∀ m, (probePorts env stunServers i ip j udpPorts).2 = Some m →
    localIP m = ip ∧
    ∃ busy port,
      (probePorts env stunServers i ip j udpPorts).1 = busy ++ [port] ∧
      GetExternalIP env i (j + length busy) stunServers (ParseIP ip) port
      = Val (externalIP m).
Proof.
  revert j. induction udpPorts as [|port rest IH]; intros j.
  - simpl. split; [done|]. split; done.
  - cbn [probePorts].
    destruct (GetExternalIP env i j stunServers (ParseIP ip) port)
      as [addr|err] eqn:Hreply.
    + simpl. split; [by exists rest|]. split; [done|].
      intros m [= <-]. split; [done|]. exists [], port. simpl.
      by rewrite Nat.add_0_r.
    + destruct (Contains err "address already in use").
      * destruct (IH (S j)) as (Hpre & _ & Hsent).
        destruct (probePorts env stunServers i ip (S j) rest)
          as [tried sent]. simpl in *.
        split; [by apply prefix_cons|]. split; [done|].
        intros m Hm. destruct (Hsent m Hm) as (Hlocal & busy & p & -> & Hp).
        split; [done|]. exists (port :: busy), p. split; [done|].
        simpl. by rewrite Nat.add_succ_r.
      * simpl. split; [by exists rest|]. split; done.
Qed.

(** X1.  Whatever the STUN collaborator answers, a probe binds its
    requests to a prefix of the candidate ports, in their order, and to at
    least one port when there is one; and a mapping it reports carries its
    own local IP and, as external IP, the answer to the request at the last
    port it tried. *)
Theorem probe_tries_prefix (env : Env) (stunServers : list string)
    (i : nat) (ip : string) (udpPorts : list Z) :
  (probe env stunServers i ip udpPorts).1 `prefix_of` udpPorts ∧
  (udpPorts ≠ [] → (probe env stunServers i ip udpPorts).1 ≠ []) ∧
  ∀ m, (probe env stunServers i ip udpPorts).2 = Some m →
    localIP m = ip ∧
    ∃ busy port,
      (probe env stunServers i ip udpPorts).1 = busy ++ [port] ∧
      GetExternalIP env i (length busy) stunServers (ParseIP ip) port
      = Val (externalIP m).
Proof. unfold probe. apply (probePorts_shape env stunServers i ip 0). Qed.

Lemma omap_length_le {A} (f : nat → option A) (n : nat) (l : list nat) :
  (∀ i a, f i = Some a → i < n) →
  length (omap f l) ≤ length (filter (λ i, i < n) l).
Proof.
  intros Hbound. induction l as [|i l IH]; [done|].
  change (omap f (i :: l))
    with (match f i with Some a => a :: omap f l | None => omap f l end).
  destruct (f i) as [a|] eqn:Hfi.
  - rewrite filter_cons_True by (by eapply Hbound). simpl. lia.
  - destruct (decide (i < n)).
    + rewrite filter_cons_True by done. simpl. lia.
    + by rewrite filter_cons_False.
Qed.

(** X2.  The collector receives at most as many mappings as there are
    input local IPs, the capacity [addrCh] is made with, and each mapping
    it receives belongs to an input local IP that the IP filter, if there
    is one, accepts: the filter returns true on the parsed address. *)
Theorem received_within_capacity (env : Env) (stunServers : list string)
    (udpPorts : list Z) (ipFilter : option (IP → bool))
    (localIPs : list string) :
  length (received env stunServers udpPorts ipFilter localIPs)
    ≤ length localIPs ∧
  ∀ m, m ∈ received env stunServers udpPorts ipFilter localIPs →
       localIP m ∈ localIPs ∧
       ∀ filter, ipFilter = Some filter →
                 filter (ParseIP (localIP m)) = true.
Proof.
  split.
  - unfold received.
    etransitivity; [apply (omap_length_le _ (length localIPs))|].
    + intros i m [Hi _]%sentBy_Some. by eapply lookup_lt_Some.
    + transitivity (length (seq 0 (length localIPs)));
        [|by rewrite length_seq].
      apply submseteq_length, NoDup_submseteq.
      * apply NoDup_filter, NoDup_remove_dups.
      * intros i [Hlt _]%list_elem_of_filter. apply elem_of_seq. lia.
  - intros m (i & _ & [Hi Hpass]%sentBy_Some)%list_elem_of_omap.
    split; [by eapply list_elem_of_lookup_2|].
    intros filter ->. simpl in Hpass. by apply negb_false_iff in Hpass.
Qed.
End probe_props.

(** ** The collector and the fallback *)

Section collector_props.
Context `{NetPkg}.

Lemma firstFor_cons (e : string) (m : ipmapping) (ms : list ipmapping) :
  firstFor e (m :: ms)
  = if decide (externalIP m = e) then Some m else firstFor e ms.
Proof.
  unfold firstFor. destruct (decide (externalIP m = e)).
  - by rewrite filter_cons_True.
  - by rewrite filter_cons_False.
Qed.

Lemma collect1_lookup_first (st : collector) (m : ipmapping) (e : string) :
  natMapping (collect1 st m) !! e
  = match natMapping st !! e with
    | Some l => Some l
    | None => if decide (externalIP m = e) then Some (localIP m) else None
    end.
Proof.
  unfold collect1.
  destruct (negb (firstResloved st));
    (destruct (natMapping st !! externalIP m) as [local|] eqn:Hm; simpl;
     destruct (decide (externalIP m = e)) as [<-|Hne];
     rewrite ?Hm, ?lookup_insert_eq, ?lookup_insert_ne by done;
     try done; by destruct (natMapping st !! e)).
Qed.

Lemma foldl_collect1_first (ms : list ipmapping) (st : collector)
    (e : string) :
  natMapping (foldl collect1 st ms) !! e
  = match natMapping st !! e with
    | Some l => Some l
    | None => localIP <$> firstFor e ms
    end.
Proof.
  revert st. induction ms as [|m ms IH]; intros st; simpl.
  - by destruct (natMapping st !! e).
  - rewrite IH, collect1_lookup_first, firstFor_cons.
    destruct (natMapping st !! e); [done|].
    by destruct (decide (externalIP m = e)).
Qed.

(** X3.  First discovery wins: after the collector has taken the received
    mappings, an external IP is a key of [natMapping] exactly when a
    mapping for it was received, and it is mapped to the local IP of the
    first such mapping; later mappings for it change nothing. *)
Theorem collect_first_wins (mappings : list ipmapping) (e : string) :
  collect mappings !! e = localIP <$> firstFor e mappings.
Proof. unfold collect. by rewrite foldl_collect1_first. Qed.

(** X5.  NAT resolution returns nil exactly when the collector received no
    mapping before its deadline: one received mapping is enough for a
    mapping list to be returned. *)
Theorem resolveNAT_nil_iff (env : Env) (stunServers : list string)
    (udpPorts : list Z) (ipFilter : option (IP → bool))
    (localIPs : list string) :
  resolveNAT env stunServers udpPorts ipFilter localIPs = None
  ↔ received env stunServers udpPorts ipFilter localIPs = [].
Proof.
  split; [|apply resolveNAT_nothing_received].
  unfold resolveNAT. case_bool_decide as Hsize; [|done]. intros _.
  apply map_size_empty_iff in Hsize.
  destruct (received env stunServers udpPorts ipFilter localIPs)
    as [|m ms]; [done|].
  assert (collect (m :: ms) !! externalIP m = Some (localIP m)) as Hm.
  { unfold collect. rewrite foldl_collect1_first, firstFor_cons. simpl.
    rewrite lookup_empty. by rewrite decide_True. }
  rewrite Hsize, lookup_empty in Hm. done.
Qed.

(** *** The fallback *)

Lemma selfMap1_keeps_self (M : gmap string string) (x l : string) :
  M !! l = Some l → selfMap1 M x !! l = Some l.
Proof.
  intros Hl. unfold selfMap1. destruct (found M x) eqn:Hfound; [done|].
  destruct (decide (x = l)) as [->|Hne].
  - by rewrite lookup_insert_eq.
  - by rewrite lookup_insert_ne.
Qed.

Lemma foldl_selfMap1_keeps_self (locals : list string)
    (M : gmap string string) (l : string) :
  M !! l = Some l → foldl selfMap1 M locals !! l = Some l.
Proof.
  revert M. induction locals as [|x locals IH]; intros M Hl; simpl; [done|].
  by apply IH, selfMap1_keeps_self.
Qed.

Lemma selfMap1_not_value (M : gmap string string) (x l : string) :
  x ≠ l → ¬ isValue M l → ¬ isValue (selfMap1 M x) l.
Proof.
  intros Hne Hnot [k Hk]. unfold selfMap1 in Hk.
  destruct (found M x); [by apply Hnot; exists k|].
  destruct (decide (x = k)) as [->|Hxk].
  - rewrite lookup_insert_eq in Hk. congruence.
  - rewrite lookup_insert_ne in Hk by done. apply Hnot. by exists k.
Qed.

Lemma foldl_selfMap1_self (locals : list string) (M : gmap string string)
    (l : string) :
  l ∈ locals → ¬ isValue M l →
  foldl selfMap1 M locals !! l = Some l.
Proof.
  revert M. induction locals as [|x locals IH]; intros M Hin Hnot; simpl.
  - by apply elem_of_nil in Hin.
  - destruct (decide (x = l)) as [->|Hne].
    + apply foldl_selfMap1_keeps_self. unfold selfMap1.
      destruct (found M l) eqn:Hfound.
      * by apply found_isValue in Hfound.
      * by rewrite lookup_insert_eq.
    + apply IH.
      * apply elem_of_cons in Hin as [->|Hin]; done.
      * by apply selfMap1_not_value.
Qed.

(** X6.  mapping unresolved local ip to itself: whenever a resolution
    returns a mapping list, an input local IP for which the collector
    received no mapping (its probe failed, was late, or was not launched)
    is mapped to itself in the [natMapping] the list is built from, and its
    self-mapped entry is in the list.  An input local IP that the IP filter
    rejects is such a local IP. *)
Theorem unresolved_local_self_mapped (env : Env) (stunServers : list string)
    (udpPorts : list Z) (ipFilter : option (IP → bool))
    (localIPs out : list string) (local : string) :
  resolveNAT env stunServers udpPorts ipFilter localIPs = Some out →
  local ∈ localIPs →
  (∀ m, m ∈ received env stunServers udpPorts ipFilter localIPs →
        localIP m ≠ local)
  ∨ (∃ filter, ipFilter = Some filter ∧ filter (ParseIP local) = false) →
  natMappingOf env stunServers udpPorts ipFilter localIPs !! local
    = Some local ∧
  sprintf_pair local local ∈ out.
Proof.
  intros Hrun Hin Hunresolved.
  assert (∀ m, m ∈ received env stunServers udpPorts ipFilter localIPs →
               localIP m ≠ local) as Hnone.
  { destruct Hunresolved as [Hnone|(filter & -> & Hreject)]; [done|].
    intros m (i & _ & [_ Hpass]%sentBy_Some)%list_elem_of_omap <-.
    simpl in Hpass. by rewrite Hreject in Hpass. }
  destruct (natMappingOf_returned _ _ _ _ _ _ Hrun) as (Hmap & -> & _).
  assert (natMappingOf env stunServers udpPorts ipFilter localIPs !! local
          = Some local) as Hself.
  { rewrite Hmap. unfold selfMap. apply foldl_selfMap1_self; [done|].
    intros [k Hk%collect_lookup]. by apply (Hnone _ Hk). }
  split; [done|].
  unfold nat1to1IPs. apply list_elem_of_fmap. exists (local, local).
  split; [done|]. by apply elem_of_map_to_list.
Qed.
End collector_props.

(** The probe of 10.0.0.1 learns 203.0.113.5, the probe of 10.0.0.2 times
    out: 10.0.0.2 is self-mapped in the returned list. *)
Lemma unresolved_local_self_mapped_witness :
  @resolveNAT IPv4.net Examples.envFirstAnswers ["stun1:3478"] [0%Z] None
    ["10.0.0.1"; "10.0.0.2"]
  = Some ["10.0.0.2/10.0.0.2"; "203.0.113.5/10.0.0.1"] ∧
  @natMappingOf IPv4.net Examples.envFirstAnswers ["stun1:3478"] [0%Z] None
    ["10.0.0.1"; "10.0.0.2"] !! "10.0.0.2" = Some "10.0.0.2" ∧
  "10.0.0.2/10.0.0.2"
  ∈ ["10.0.0.2/10.0.0.2"; "203.0.113.5/10.0.0.1"].
Proof.
  assert (@resolveNAT IPv4.net Examples.envFirstAnswers ["stun1:3478"]
            [0%Z] None ["10.0.0.1"; "10.0.0.2"]
          = Some ["10.0.0.2/10.0.0.2"; "203.0.113.5/10.0.0.1"]) as Hrun
    by (vm_compute; reflexivity).
  assert (@received IPv4.net Examples.envFirstAnswers ["stun1:3478"]
            [0%Z] None ["10.0.0.1"; "10.0.0.2"]
          = [{| externalIP := "203.0.113.5"; localIP := "10.0.0.1" |}])
    as Hrecv by (vm_compute; reflexivity).
  split; [exact Hrun|].
  apply (@unresolved_local_self_mapped IPv4.net Examples.envFirstAnswers
           ["stun1:3478"] [0%Z] None ["10.0.0.1"; "10.0.0.2"]
           ["10.0.0.2/10.0.0.2"; "203.0.113.5/10.0.0.1"] "10.0.0.2" Hrun).
  - apply list_elem_of_further, list_elem_of_here.
  - left. intros m Hm. rewrite Hrecv in Hm.
    apply list_elem_of_singleton in Hm. subst m. discriminate.
Defined.

(** ** The returned mapping list *)

Section result_props.
Context `{NetPkg}.

Lemma foldl_selfMap1_lookup (localIPs locals : list string)
    (M : gmap string string) (e l : string) :
  (∀ x, x ∈ locals → x ∈ localIPs) →
  foldl selfMap1 M locals !! e = Some l →
  M !! e = Some l ∨ (e = l ∧ l ∈ localIPs).
Proof.
  revert M. induction locals as [|x locals IH]; intros M Hsub; simpl.
  - by left.
  - intros [HM|Hself]%IH; [|by right|].
    + unfold selfMap1 in HM. destruct (found M x); [by left|].
      destruct (decide (x = e)) as [->|Hne].
      * rewrite lookup_insert_eq in HM. injection HM as <-. right.
        split; [done|]. apply Hsub, list_elem_of_here.
      * rewrite lookup_insert_ne in HM by done. by left.
    + intros y Hy. by apply Hsub, list_elem_of_further.
Qed.

(** Where an entry of the final mapping comes from. *)
Lemma natMappingOf_lookup (env : Env) (stunServers : list string)
    (udpPorts : list Z) (ipFilter : option (IP → bool))
    (localIPs : list string) (e l : string) :
  natMappingOf env stunServers udpPorts ipFilter localIPs !! e = Some l →
  {| externalIP := e; localIP := l |}
    ∈ received env stunServers udpPorts ipFilter localIPs
  ∨ (e = l ∧ l ∈ localIPs).
Proof.
  unfold natMappingOf, selfMap.
  destruct (bool_decide
              (size (collect (received env stunServers udpPorts ipFilter
                                localIPs)) = 0)).
  - intros Hc. left. by apply collect_lookup.
  - intros [Hc|Hself]%(foldl_selfMap1_lookup localIPs); [|by right|done].
    left. by apply collect_lookup.
Qed.

Lemma received_localIP (env : Env) (stunServers : list string)
    (udpPorts : list Z) (ipFilter : option (IP → bool))
    (localIPs : list string) (m : ipmapping) :
  m ∈ received env stunServers udpPorts ipFilter localIPs →
  localIP m ∈ localIPs.
Proof.
  intros (i & _ & [Hi _]%sentBy_Some)%list_elem_of_omap.
  by eapply list_elem_of_lookup_2.
Qed.

(** X7.  One entry per input local IP: whenever a resolution over pairwise
    distinct input local IPs, in which no received external IP is an input
    local IP other than the one it was discovered for, returns a mapping
    list, the values of the [natMapping] the list is built from are the
    input local IPs, each once, and the list has exactly as many entries as
    there are input local IPs. *)
Theorem one_entry_per_local_ip (env : Env) (stunServers : list string)
    (udpPorts : list Z) (ipFilter : option (IP → bool))
    (localIPs out : list string) :
  resolveNAT env stunServers udpPorts ipFilter localIPs = Some out →
  NoDup localIPs →
  (∀ m, m ∈ received env stunServers udpPorts ipFilter localIPs →
        externalIP m ∈ localIPs → externalIP m = localIP m) →
  (map_to_list
     (natMappingOf env stunServers udpPorts ipFilter localIPs)).*2
    ≡ₚ localIPs ∧
  length out = length localIPs.
Proof.
  intros Hrun Hnodup Hforeign.
  destruct (natMappingOf_returned _ _ _ _ _ _ Hrun) as (Hmap & -> & _).
  destruct (selfMap_collect_wellKeyed env stunServers udpPorts ipFilter
              localIPs Hnodup Hforeign) as (Hwk & Hval).
  rewrite <- Hmap in Hwk, Hval. clear Hmap Hrun.
  assert ((map_to_list
             (natMappingOf env stunServers udpPorts ipFilter localIPs)).*2
          ≡ₚ localIPs) as Hperm.
  { apply NoDup_Permutation; [by eapply wellKeyed_values_NoDup|done|].
    intros l. split.
    - intros ([e l'] & -> & Hin%elem_of_map_to_list)%list_elem_of_fmap.
      simpl. apply natMappingOf_lookup in Hin as [Hrecv|[_ Hl]]; [|done].
      by apply received_localIP in Hrecv.
    - intros [k Hk]%Hval. apply list_elem_of_fmap. exists (k, l).
      split; [done|]. by apply elem_of_map_to_list. }
  split; [done|].
  unfold nat1to1IPs. rewrite length_fmap.
  rewrite <- (length_fmap snd). by rewrite Hperm.
Qed.

Lemma sprintf_pair_inj (e l e' l' : string) :
  hasSlash e = false → hasSlash e' = false →
  sprintf_pair e l = sprintf_pair e' l' → e = e' ∧ l = l'.
Proof.
  assert (∀ x, "" +:+ x = x) as Hnil by done.
  assert (∀ c s x, String c s +:+ x = String c (s +:+ x)) as Hcons by done.
  unfold sprintf_pair. revert e'.
  induction e as [|c e IH]; intros [|c' e']; simpl;
    rewrite ?Hcons, ?Hnil.
  - intros _ _ [= ->]. done.
  - intros _ [Hc Hs]%orb_false_iff [= <- _].
    by apply bool_decide_eq_false in Hc.
  - intros [Hc Hs]%orb_false_iff _ [= -> _].
    by apply bool_decide_eq_false in Hc.
  - intros [_ Hs]%orb_false_iff [_ Hs']%orb_false_iff [= <- Heq].
    destruct (IH e' Hs Hs' Heq) as [-> ->]. done.
Qed.

(** X8.  The entries can be told apart and read back: the format
    external/local is injective on pairs whose external part contains no
    "/", so when no received external IP and no input local IP contains a
    "/", a returned mapping list has no duplicate strings. *)
Theorem nat1to1_entries_distinct (env : Env) (stunServers : list string)
    (udpPorts : list Z) (ipFilter : option (IP → bool))
    (localIPs out : list string) :
  (∀ m, m ∈ received env stunServers udpPorts ipFilter localIPs →
        hasSlash (externalIP m) = false) →
  (∀ local, local ∈ localIPs → hasSlash local = false) →
  resolveNAT env stunServers udpPorts ipFilter localIPs = Some out →
  NoDup out ∧
  ∀ e l e' l', hasSlash e = false → hasSlash e' = false →
               sprintf_pair e l = sprintf_pair e' l' → e = e' ∧ l = l'.
Proof.
  intros Hext Hlocal Hrun. split; [|apply sprintf_pair_inj].
  destruct (natMappingOf_returned _ _ _ _ _ _ Hrun) as (_ & -> & _).
  unfold nat1to1IPs. apply NoDup_fmap_2_strong; [|apply NoDup_map_to_list].
  assert (∀ e l,
            natMappingOf env stunServers udpPorts ipFilter localIPs !! e
              = Some l → hasSlash e = false) as Hkey.
  { intros e l [Hrecv|[-> Hl]]%natMappingOf_lookup.
    - apply (Hext _ Hrecv).
    - by apply Hlocal. }
  intros [e l] [e' l'] Hin%elem_of_map_to_list Hin'%elem_of_map_to_list.
  simpl. intros Heq.
  destruct (sprintf_pair_inj e l e' l') as [-> ->]; eauto.
Qed.
End result_props.

Lemma one_entry_per_local_ip_witness :
  ∃ out,
    @resolveNAT IPv4.net Examples.envFirstAnswers ["stun1:3478"] [0%Z] None
      ["10.0.0.1"; "10.0.0.2"] = Some out ∧
    length out = 2.
Proof.
  exists ["10.0.0.2/10.0.0.2"; "203.0.113.5/10.0.0.1"].
  assert (@resolveNAT IPv4.net Examples.envFirstAnswers ["stun1:3478"]
            [0%Z] None ["10.0.0.1"; "10.0.0.2"]
          = Some ["10.0.0.2/10.0.0.2"; "203.0.113.5/10.0.0.1"]) as Hrun
    by (vm_compute; reflexivity).
  split; [exact Hrun|].
  refine (proj2 (@one_entry_per_local_ip IPv4.net Examples.envFirstAnswers
                   ["stun1:3478"] [0%Z] None ["10.0.0.1"; "10.0.0.2"] _
                   Hrun _ _)).
  - refine (bool_decide_unpack _ _). vm_compute. exact I.
  - intros m Hm Hin. exfalso.
    assert (@received IPv4.net Examples.envFirstAnswers ["stun1:3478"]
              [0%Z] None ["10.0.0.1"; "10.0.0.2"]
            = [{| externalIP := "203.0.113.5"; localIP := "10.0.0.1" |}])
      as Hrecv by (vm_compute; reflexivity).
    rewrite Hrecv in Hm. apply list_elem_of_singleton in Hm. subst m.
    revert Hin. refine (bool_decide_unpack (_ ∉ _) _). vm_compute. exact I.
Defined.

Lemma nat1to1_entries_distinct_witness :
  NoDup ["10.0.0.2/10.0.0.2"; "203.0.113.5/10.0.0.1"].
Proof.
  refine (proj1 (@nat1to1_entries_distinct IPv4.net Examples.envFirstAnswers
                   ["stun1:3478"] [0%Z] None ["10.0.0.1"; "10.0.0.2"]
                   ["10.0.0.2/10.0.0.2"; "203.0.113.5/10.0.0.1"] _ _ _)).
  - intros m Hm.
    assert (@received IPv4.net Examples.envFirstAnswers ["stun1:3478"]
              [0%Z] None ["10.0.0.1"; "10.0.0.2"]
            = [{| externalIP := "203.0.113.5"; localIP := "10.0.0.1" |}])
      as Hrecv by (vm_compute; reflexivity).
    rewrite Hrecv in Hm. apply list_elem_of_singleton in Hm. by subst m.
  - intros local [->|[->|Hnil%elem_of_nil]%elem_of_cons]%elem_of_cons;
      done.
  - vm_compute. reflexivity.
Defined.

(** ** Candidate ports, all cases *)

Lemma uint16_bounds (x : Z) : (0 ≤ uint16 x < 2 ^ 16)%Z.
Proof. unfold uint16. apply Z.mod_pos_bound. done. Qed.

Lemma uint16_sub_zero (a b : Z) :
  (0 ≤ a < 2 ^ 16)%Z → (0 ≤ b < 2 ^ 16)%Z →
  uint16 (a - b) = 0%Z ↔ a = b.
Proof.
  intros Ha Hb. unfold uint16. split.
  - intros Hmod. destruct (decide (b ≤ a)%Z) as [Hle|Hgt].
    + rewrite Z.mod_small in Hmod by lia. lia.
    + replace (a - b)%Z with (a - b + 2 ^ 16 + (-1) * 2 ^ 16)%Z in Hmod
        by lia.
      rewrite Z_mod_plus_full, Z.mod_small in Hmod by lia. lia.
  - intros ->. by rewrite Z.sub_diag.
Qed.

Section ports_outcomes.
Context `{NetPkg}.

Lemma udpPortsForConf_cases (env : Env) (conf : Config) :
  let portRangeStart := uint16 (ICEPortRangeStart (RTC conf)) in
  let portRangeEnd := uint16 (ICEPortRangeEnd (RTC conf)) in
  (∀ e, udpPortsForConf env conf ≠ Err e) ∧
  ((∃ msg, udpPortsForConf env conf = Panic msg)
   ↔ rangeConfigured conf ∧ portRangeStart = portRangeEnd) ∧
  (∀ udpPorts, udpPortsForConf env conf = Ok udpPorts →
     udpPorts ≠ [] ∧
     (rangeConfigured conf →
        length udpPorts = 5 ∧
        Forall (λ port, (portRangeStart ≤ port < portRangeStart + 2 ^ 16)%Z)
               udpPorts)).
Proof.
  intros lo hi. unfold udpPortsForConf, rangeConfigured. fold lo hi.
  pose proof (uint16_bounds (ICEPortRangeStart (RTC conf))) as Hlo.
  pose proof (uint16_bounds (ICEPortRangeEnd (RTC conf))) as Hhi.
  fold lo in Hlo. fold hi in Hhi.
  destruct (bool_decide (ICEPortRangeStart (RTC conf) ≠ 0%Z)
            && bool_decide (ICEPortRangeEnd (RTC conf) ≠ 0%Z)) eqn:Hr.
  - apply andb_true_iff in Hr as [Hr1%bool_decide_eq_true
                                  Hr2%bool_decide_eq_true].
    destruct (decide (uint16 (hi - lo) = 0%Z)) as [Hzero|Hwidth].
    + assert (samplePorts env lo hi 0 5 []
              = Panic "invalid argument to Intn") as ->.
      { cbn [samplePorts]. unfold Intn. rewrite Hzero. done. }
      apply (uint16_sub_zero hi lo Hhi Hlo) in Hzero.
      split; [done|]. split; [|done].
      split; [intros _; repeat split; done|by eexists].
    + pose proof (uint16_bounds (hi - lo)) as Hw.
      rewrite samplePorts_spec by lia. simpl.
      split; [done|]. split.
      * split; [by intros [msg ?]|].
        intros [_ Heq]. destruct Hwidth.
        by apply (uint16_sub_zero hi lo Hhi Hlo).
      * intros udpPorts [= <-]. split; [done|]. intros _. split; [done|].
        repeat constructor;
          pose proof (Z.mod_pos_bound (randSource env 0) (uint16 (hi - lo)));
          pose proof (Z.mod_pos_bound (randSource env 1) (uint16 (hi - lo)));
          pose proof (Z.mod_pos_bound (randSource env 2) (uint16 (hi - lo)));
          pose proof (Z.mod_pos_bound (randSource env 3) (uint16 (hi - lo)));
          pose proof (Z.mod_pos_bound (randSource env 4) (uint16 (hi - lo)));
          lia.
  - assert (¬ (ICEPortRangeStart (RTC conf) ≠ 0%Z
               ∧ ICEPortRangeEnd (RTC conf) ≠ 0%Z)) as Hno.
    { intros [H1 H2]. rewrite !bool_decide_eq_true_2 in Hr by done. done. }
    clear Hr. destruct (bool_decide (UDPPort (RTC conf) ≠ 0%Z)).
    + split; [done|]. split; [|by intros udpPorts [= <-]].
      split; [by intros [msg ?]|by intros [? _]].
    + split; [done|]. split; [|by intros udpPorts [= <-]].
      split; [by intros [msg ?]|by intros [? _]].
Qed.

(** X9.  The selection of the candidate ports never returns an error.  It
    panics exactly when a port range is configured whose two ends are the
    same 16-bit port, where [rand.Intn] is called with 0.  Otherwise it
    returns a non-empty port list; for a configured range these are 5
    ports, each at or above the 16-bit start and less than 2^16 above
    it. *)
Theorem udpPortsForConf_outcomes (env : Env) (conf : Config) :
  let portRangeStart := uint16 (ICEPortRangeStart (RTC conf)) in
  let portRangeEnd := uint16 (ICEPortRangeEnd (RTC conf)) in
  (∀ e, udpPortsForConf env conf ≠ Err e) ∧
  ((∃ msg, udpPortsForConf env conf = Panic msg)
   ↔ rangeConfigured conf ∧ portRangeStart = portRangeEnd) ∧
  (∀ udpPorts, udpPortsForConf env conf = Ok udpPorts →
     udpPorts ≠ [] ∧
     (rangeConfigured conf →
        length udpPorts = 5 ∧
        Forall (λ port, (portRangeStart ≤ port < portRangeStart + 2 ^ 16)%Z)
               udpPorts)).
Proof. apply udpPortsForConf_cases. Qed.
End ports_outcomes.

(** ** Construction of the IP filter *)

Section ip_filter_errors.
Context `{NetPkg}.

Lemma parseNets_app (l1 l2 : list string) :
  parseNets (l1 ++ l2)
  = match parseNets l1 with
    | Error e => Error e
    | Val nets1 =>
        match parseNets l2 with
        | Error e => Error e
        | Val nets2 => Val (nets1 ++ nets2)
        end
    end.
Proof.
  induction l1 as [|ip l1 IH]; simpl.
  - by destruct (parseNets l2).
  - destruct (ParseCIDR ip) as [ipnet|e]; [|done]. rewrite IH.
    destruct (parseNets l1) as [nets1|e]; [|done].
    by destruct (parseNets l2).
Qed.

Lemma parseNets_Val_iff (fromIPs : list string) :
  (∃ toNets, parseNets fromIPs = Val toNets)
  ↔ ∀ ip, ip ∈ fromIPs → ∃ ipnet, ParseCIDR ip = Val ipnet.
Proof.
  induction fromIPs as [|ip rest IH]; simpl.
  - split; [by intros _ ip' ?%elem_of_nil|by eexists].
  - split.
    + intros [toNets Hrun].
      destruct (ParseCIDR ip) as [ipnet|e] eqn:Hip; [|done].
      destruct (parseNets rest) as [nets|e] eqn:Hrest; [|done].
      intros ip' [->|Hin]%elem_of_cons; [by eexists|].
      apply IH; [by eexists|done].
    + intros Hall. destruct (Hall ip) as [ipnet ->];
        [apply list_elem_of_here|].
      destruct (proj2 IH) as [nets ->]; [|by eexists].
      intros ip' Hin. by apply Hall, list_elem_of_further.
Qed.

Lemma parseNets_first_error (pre post : list string) (bad e : string) :
  (∀ ip, ip ∈ pre → ∃ ipnet, ParseCIDR ip = Val ipnet) →
  ParseCIDR bad = Error e →
  parseNets (pre ++ bad :: post) = Error e.
Proof.
  intros [nets Hpre]%parseNets_Val_iff Hbad.
  rewrite parseNets_app, Hpre. simpl. by rewrite Hbad.
Qed.

Lemma IPFilterFromConf_parseNets (ips : IPsConfig) :
  match IPFilterFromConf ips, parseNets (ip_Includes ips ++ ip_Excludes ips)
  with
  | Val _, Val _ => True
  | Error e, Error e' => e = e'
  | _, _ => False
  end.
Proof.
  unfold IPFilterFromConf. rewrite parseNets_app.
  destruct (parseNets (ip_Includes ips)); [|done].
  by destruct (parseNets (ip_Excludes ips)).
Qed.

(** X10.  [IPFilterFromConf] returns a filter exactly when every include
    entry and every exclude entry parses as a CIDR block; the exclude
    entries are parsed also when the include list is non-empty and the
    filter will ignore them. *)
Theorem IPFilterFromConf_succeeds_iff (ips : IPsConfig) :
  (∃ filter, IPFilterFromConf ips = Val filter)
  ↔ ∀ ip, ip ∈ ip_Includes ips ++ ip_Excludes ips →
          ∃ ipnet, ParseCIDR ip = Val ipnet.
Proof.
  rewrite <- parseNets_Val_iff.
  pose proof (IPFilterFromConf_parseNets ips) as Hrel.
  destruct (IPFilterFromConf ips) as [filter|e];
    destruct (parseNets (ip_Includes ips ++ ip_Excludes ips)) as [nets|e'];
    try done; split; try (by intros [? ?]); by eexists.
Qed.

(** X11.  When an entry fails to parse, [IPFilterFromConf] returns no
    filter but the error of the first such entry, the include entries
    counting before the exclude entries. *)
Theorem IPFilterFromConf_first_error (ips : IPsConfig)
    (pre post : list string) (bad e : string) :
  ip_Includes ips ++ ip_Excludes ips = pre ++ bad :: post →
  (∀ ip, ip ∈ pre → ∃ ipnet, ParseCIDR ip = Val ipnet) →
  ParseCIDR bad = Error e →
  IPFilterFromConf ips = Error e.
Proof.
  intros Hsplit Hpre Hbad.
  pose proof (IPFilterFromConf_parseNets ips) as Hrel.
  rewrite Hsplit, (parseNets_first_error pre post bad e Hpre Hbad) in Hrel.
  destruct (IPFilterFromConf ips); [done|by subst].
Qed.

Lemma existsb_ext_elem {A} (f : A → bool) (l1 l2 : list A) :
  (∀ x, x ∈ l1 ↔ x ∈ l2) → existsb f l1 = existsb f l2.
Proof.
  intros Hsame. apply eq_true_iff_eq. rewrite !existsb_elem_of.
  split; intros (x & Hx & Hf); exists x; (split; [|done]); by apply Hsame.
Qed.

Lemma nonempty_ext_elem {A} (l1 l2 : list A) :
  (∀ x, x ∈ l1 ↔ x ∈ l2) →
  bool_decide (0 < length l1) = bool_decide (0 < length l2).
Proof.
  intros Hsame. destruct l1 as [|a l1], l2 as [|b l2]; [done| | |].
  - exfalso. eapply elem_of_nil, Hsame, list_elem_of_here.
  - exfalso. eapply elem_of_nil, Hsame, list_elem_of_here.
  - by rewrite !bool_decide_eq_true_2 by (simpl; lia).
Qed.

(** X12.  Both filters depend only on which names or blocks are listed:
    two configurations whose include lists have the same members and whose
    exclude lists have the same members, in whatever order and however
    often repeated, give filters that decide every name and every address
    alike. *)
Theorem filters_depend_on_members (ifs1 ifs2 : InterfacesConfig)
    (includes1 includes2 excludes1 excludes2 : list IPNet) :
  (∀ x, x ∈ if_Includes ifs1 ↔ x ∈ if_Includes ifs2) →
  (∀ x, x ∈ if_Excludes ifs1 ↔ x ∈ if_Excludes ifs2) →
  (∀ x, x ∈ includes1 ↔ x ∈ includes2) →
  (∀ x, x ∈ excludes1 ↔ x ∈ excludes2) →
  (∀ s, InterfaceFilterFromConf ifs1 s = InterfaceFilterFromConf ifs2 s) ∧
  (∀ ip, ipFilterOf includes1 excludes1 ip
         = ipFilterOf includes2 excludes2 ip).
Proof.
  intros Hi He Hni Hne. split.
  - intros s. unfold InterfaceFilterFromConf.
    rewrite (nonempty_ext_elem _ _ Hi), (nonempty_ext_elem _ _ He).
    by rewrite (existsb_ext_elem _ _ _ Hi), (existsb_ext_elem _ _ _ He).
  - intros ip. unfold ipFilterOf.
    rewrite (nonempty_ext_elem _ _ Hni), (nonempty_ext_elem _ _ Hne).
    by rewrite (existsb_ext_elem _ _ _ Hni), (existsb_ext_elem _ _ _ Hne).
Qed.
End ip_filter_errors.

Lemma IPFilterFromConf_first_error_witness :
  @IPFilterFromConf IPv4.net
    {| ip_Includes := ["10.0.0.0/8"];
       ip_Excludes := ["10.2.0.0/16"; "10.3.0.0"; "bad"] |}
  = Error "invalid CIDR address: 10.3.0.0".
Proof.
  refine (@IPFilterFromConf_first_error IPv4.net
            {| ip_Includes := ["10.0.0.0/8"];
               ip_Excludes := ["10.2.0.0/16"; "10.3.0.0"; "bad"] |}
            ["10.0.0.0/8"; "10.2.0.0/16"] ["bad"] "10.3.0.0"
            "invalid CIDR address: 10.3.0.0" eq_refl _ _).
  - intros ip [->|[->|Hnil%elem_of_nil]%elem_of_cons]%elem_of_cons;
      [eexists; vm_compute; reflexivity
      |eexists; vm_compute; reflexivity|done].
  - vm_compute. reflexivity.
Defined.

Lemma filters_depend_on_members_witness :
  InterfaceFilterFromConf
    {| if_Includes := ["eth0"; "eth1"]; if_Excludes := [] |} "eth1"
  = InterfaceFilterFromConf
      {| if_Includes := ["eth1"; "eth0"; "eth1"]; if_Excludes := [] |}
      "eth1".
Proof.
  refine (proj1 (@filters_depend_on_members IPv4.net
                   {| if_Includes := ["eth0"; "eth1"]; if_Excludes := [] |}
                   {| if_Includes := ["eth1"; "eth0"; "eth1"];
                      if_Excludes := [] |}
                   [] [] [] [] _ _ _ _) "eth1"); try done.
  intros x. simpl. rewrite !elem_of_cons, !elem_of_nil. tauto.
Defined.

(** ** STUN server URLs *)

Lemma foldl_snoc_fmap {A B} (f : A → B) (l : list A) (acc : list B) :
  foldl (λ bs a, bs ++ [f a]) acc l = acc ++ (f <$> l).
Proof.
  revert acc. induction l as [|a l IH]; intros acc; simpl.
  - by rewrite app_nil_r.
  - rewrite IH. by rewrite <- app_assoc.
Qed.

Lemma HasPrefix_app (p s : string) : HasPrefix (p +:+ s) p = true.
Proof.
  induction p as [|c p IH]; [by destruct s|].
  change (String c p +:+ s) with (String c (p +:+ s)). simpl.
  by rewrite bool_decide_eq_true_2, IH.
Qed.

(** X13.  [iceServerForStunServers] gives one URL per server, in the order
    of the servers, each the server's text behind the scheme "stun:", so
    that each server can be read back from its URL. *)
Theorem iceServerForStunServers_URLs (servers : list string) :
  URLs (iceServerForStunServers servers)
  = (λ stunServer, "stun:" +:+ stunServer) <$> servers ∧
  length (URLs (iceServerForStunServers servers)) = length servers ∧
  ∀ i url, URLs (iceServerForStunServers servers) !! i = Some url →
    ∃ stunServer, servers !! i = Some stunServer
                  ∧ url = "stun:" +:+ stunServer
                  ∧ HasPrefix url "stun:" = true.
Proof.
  assert (URLs (iceServerForStunServers servers)
          = (λ stunServer, "stun:" +:+ stunServer) <$> servers) as Hmap.
  { unfold iceServerForStunServers. simpl.
    by rewrite (foldl_snoc_fmap sprintf_stun). }
  split; [done|]. rewrite Hmap. split; [by rewrite length_fmap|].
  intros i url Hurl. apply list_lookup_fmap_Some in Hurl
    as (stunServer & -> & Hserver).
  exists stunServer. split; [done|]. split; [done|].
  apply HasPrefix_app.
Qed.

(** ** The stages of the builder *)

Section builder_stages.
Context `{NetPkg}.

(** What the filter and NAT stage returns when it completes. *)
Lemma filtersAndNAT_Ok (env : Env) (conf : Config) (externalIP : string)
    (ifFilter : option (string → bool)) (ipFilter : option (IP → bool))
    (nat1to1 : option (list string)) (s : SettingEngine) :
  filtersAndNAT env conf externalIP = Ok (ifFilter, ipFilter, nat1to1, s) →
  let rtcConf := RTC conf in
  ifFilter
  = (if bool_decide (length (if_Includes (Interfaces rtcConf)) ≠ 0)
        || bool_decide (length (if_Excludes (Interfaces rtcConf)) ≠ 0)
     then Some (InterfaceFilterFromConf (Interfaces rtcConf)) else None) ∧
  (if bool_decide (length (ip_Includes (IPs rtcConf)) ≠ 0)
      || bool_decide (length (ip_Excludes (IPs rtcConf)) ≠ 0)
   then ∃ f, IPFilterFromConf (IPs rtcConf) = Val f ∧ ipFilter = Some f
   else ipFilter = None) ∧
  se_InterfaceFilter s = ifFilter ∧
  se_IPFilter s = ipFilter ∧
  se_MulticastDNSDisabled s = negb (UseMDNS rtcConf) ∧
  (if bool_decide (externalIP ≠ "")
      && (UseExternalIP rtcConf
          || (bool_decide (NodeIP rtcConf ≠ "")
              && negb (NodeIPAutoGenerated rtcConf)))
   then
     se_NAT1To1IPCandidateType s = Some ICECandidateTypeHost ∧
     if UseExternalIP rtcConf then
       getNAT1to1IPsForConf env conf ipFilter = Ok nat1to1 ∧
       se_NAT1To1IPs s
       = (if bool_decide (len nat1to1 = 0) then [externalIP]
          else default [] nat1to1)
     else nat1to1 = None ∧ se_NAT1To1IPs s = [externalIP]
   else
     nat1to1 = None ∧ se_NAT1To1IPs s = []
     ∧ se_NAT1To1IPCandidateType s = None) ∧
  se_EphemeralUDPPortRange s = None ∧
  se_ICEUDPMux s = None ∧
  se_ICETCPMux s = None ∧
  se_NetworkTypes s = [] ∧
  se_IncludeLoopbackCandidate s = false ∧
  se_Lite s = false.
Proof.
  unfold filtersAndNAT. intros Hrun. cbv zeta.
  set (rtcConf := RTC conf) in *.
  destruct (bool_decide (length (if_Includes (Interfaces rtcConf)) ≠ 0)
            || bool_decide (length (if_Excludes (Interfaces rtcConf)) ≠ 0));
  destruct (bool_decide (length (ip_Includes (IPs rtcConf)) ≠ 0)
            || bool_decide (length (ip_Excludes (IPs rtcConf)) ≠ 0));
  (try destruct (IPFilterFromConf (IPs rtcConf)) as [f|e]);
  simpl in Hrun; try done;
  destruct (UseMDNS rtcConf);
  destruct (bool_decide (externalIP ≠ "")
            && (UseExternalIP rtcConf
                || (bool_decide (NodeIP rtcConf ≠ "")
                    && negb (NodeIPAutoGenerated rtcConf))));
  simpl in Hrun;
  destruct (UseExternalIP rtcConf);
  (try (destruct (getNAT1to1IPsForConf env conf _) as [ips| |] eqn:Hnat;
        simpl in Hrun; [|done|done]));
  injection Hrun as <- <- <- <-;
  (try destruct (bool_decide (len ips = 0)));
  simpl; repeat split; eauto.
Qed.

(** What the UDP stage returns when it completes. *)
Lemma udpSetup_Ok (env : Env) (conf : Config) (rtcConf : RTCConfig)
    (ifFilter : option (string → bool)) (ipFilter : option (IP → bool))
    (nts nts' : list NetworkType) (s s' : SettingEngine) :
  udpSetup env conf rtcConf ifFilter ipFilter nts s = Ok (nts', s') →
  nts' = nts ++ (if ForceTCP rtcConf then []
                 else [NetworkTypeUDP4; NetworkTypeUDP6]) ∧
  (se_InterfaceFilter s' = se_InterfaceFilter s ∧
   se_IPFilter s' = se_IPFilter s ∧
   se_MulticastDNSDisabled s' = se_MulticastDNSDisabled s ∧
   se_NAT1To1IPs s' = se_NAT1To1IPs s ∧
   se_NAT1To1IPCandidateType s' = se_NAT1To1IPCandidateType s ∧
   se_ICETCPMux s' = se_ICETCPMux s ∧
   se_NetworkTypes s' = se_NetworkTypes s ∧
   se_IncludeLoopbackCandidate s' = se_IncludeLoopbackCandidate s ∧
   se_Lite s' = se_Lite s) ∧
  (if ForceTCP rtcConf then
     se_EphemeralUDPPortRange s' = se_EphemeralUDPPortRange s ∧
     se_ICEUDPMux s' = se_ICEUDPMux s
   else if bool_decide (ICEPortRangeStart rtcConf ≠ 0%Z)
           && bool_decide (ICEPortRangeEnd rtcConf ≠ 0%Z) then
     se_EphemeralUDPPortRange s'
     = Some (uint16 (ICEPortRangeStart rtcConf),
             uint16 (ICEPortRangeEnd rtcConf)) ∧
     (uint16 (ICEPortRangeStart rtcConf)
      ≤ uint16 (ICEPortRangeEnd rtcConf))%Z ∧
     se_ICEUDPMux s' = se_ICEUDPMux s
   else if bool_decide (UDPPort rtcConf ≠ 0%Z) then
     udpListenError env (UDPPort rtcConf) = None ∧
     se_ICEUDPMux s'
     = Some {| udpMux_Port := UDPPort rtcConf;
               udpMux_Opts := udpMuxOpts rtcConf ifFilter ipFilter |} ∧
     se_EphemeralUDPPortRange s' = se_EphemeralUDPPortRange s
   else
     se_EphemeralUDPPortRange s' = se_EphemeralUDPPortRange s ∧
     se_ICEUDPMux s' = se_ICEUDPMux s).
Proof.
  unfold udpSetup, udpMuxOpts.
  destruct (ForceTCP rtcConf); simpl.
  { intros [= <- <-]. by rewrite app_nil_r. }
  destruct (bool_decide (ICEPortRangeStart rtcConf ≠ 0%Z)
            && bool_decide (ICEPortRangeEnd rtcConf ≠ 0%Z)).
  { unfold SetEphemeralUDPPortRange. case_bool_decide as Hinv; [done|].
    simpl. intros [= <- <-]. simpl. repeat split; try done. lia. }
  destruct (bool_decide (UDPPort rtcConf ≠ 0%Z)).
  - unfold NewMultiUDPMuxFromPort.
    destruct (udpListenError env (UDPPort rtcConf)) as [err|]; [done|].
    simpl. intros [= <- <-]. simpl.
    destruct (EnableLoopbackCandidate rtcConf), ipFilter, ifFilter; done.
  - by intros [= <- <-].
Qed.

(** What the TCP stage returns when it completes. *)
Lemma tcpSetup_Ok (env : Env) (rtcConf : RTCConfig)
    (nts nts' : list NetworkType) (s s' : SettingEngine)
    (tcpListener : option TCPListener) :
  tcpSetup env rtcConf nts s = Ok (tcpListener, nts', s') →
  nts' = nts ++ (if bool_decide (TCPPort rtcConf ≠ 0%Z)
                 then [NetworkTypeTCP4; NetworkTypeTCP6] else []) ∧
  (se_InterfaceFilter s' = se_InterfaceFilter s ∧
   se_IPFilter s' = se_IPFilter s ∧
   se_MulticastDNSDisabled s' = se_MulticastDNSDisabled s ∧
   se_NAT1To1IPs s' = se_NAT1To1IPs s ∧
   se_NAT1To1IPCandidateType s' = se_NAT1To1IPCandidateType s ∧
   se_EphemeralUDPPortRange s' = se_EphemeralUDPPortRange s ∧
   se_ICEUDPMux s' = se_ICEUDPMux s ∧
   se_NetworkTypes s' = se_NetworkTypes s ∧
   se_IncludeLoopbackCandidate s' = se_IncludeLoopbackCandidate s ∧
   se_Lite s' = se_Lite s) ∧
  (if bool_decide (TCPPort rtcConf ≠ 0%Z) then
     tcpListenError env (TCPPort rtcConf) = None ∧
     tcpListener = Some {| listener_Port := TCPPort rtcConf |} ∧
     se_ICETCPMux s'
     = Some {| tcpMux_Logger := "tcp_mux";
               tcpMux_Listener := {| listener_Port := TCPPort rtcConf |};
               tcpMux_ReadBufferSize := 50;
               tcpMux_WriteBufferSize := 4194304 |}
   else tcpListener = None ∧ se_ICETCPMux s' = se_ICETCPMux s).
Proof.
  unfold tcpSetup. destruct (bool_decide (TCPPort rtcConf ≠ 0%Z)).
  - unfold ListenTCP.
    destruct (tcpListenError env (TCPPort rtcConf)) as [err|]; [done|].
    simpl. by intros [= <- <- <-].
  - intros [= <- <- <-]. by rewrite app_nil_r.
Qed.

(** What the choice between ICE lite and STUN servers does. *)
Lemma iceSetup_result (env : Env) (rtcConf : RTCConfig) (c : Configuration)
    (s : SettingEngine) :
  let cs := iceSetup env rtcConf c s in
  Configuration_SDPSemantics cs.1 = Configuration_SDPSemantics c ∧
  ICEServers cs.1
  = (if UseICELite rtcConf then ICEServers c
     else if bool_decide (NodeIP rtcConf = "")
             && negb (UseExternalIP rtcConf) then
       [iceServerForStunServers
          (if bool_decide (0 < length (STUNServers rtcConf))
           then STUNServers rtcConf else DefaultStunServers env)]
     else ICEServers c) ∧
  se_Lite cs.2 = (if UseICELite rtcConf then true else se_Lite s) ∧
  (se_InterfaceFilter cs.2 = se_InterfaceFilter s ∧
   se_IPFilter cs.2 = se_IPFilter s ∧
   se_MulticastDNSDisabled cs.2 = se_MulticastDNSDisabled s ∧
   se_NAT1To1IPs cs.2 = se_NAT1To1IPs s ∧
   se_NAT1To1IPCandidateType cs.2 = se_NAT1To1IPCandidateType s ∧
   se_EphemeralUDPPortRange cs.2 = se_EphemeralUDPPortRange s ∧
   se_ICEUDPMux cs.2 = se_ICEUDPMux s ∧
   se_ICETCPMux cs.2 = se_ICETCPMux s ∧
   se_NetworkTypes cs.2 = se_NetworkTypes s ∧
   se_IncludeLoopbackCandidate cs.2 = se_IncludeLoopbackCandidate s).
Proof.
  unfold iceSetup. destruct (UseICELite rtcConf); [done|].
  destruct (bool_decide (NodeIP rtcConf = "")
            && negb (UseExternalIP rtcConf)); [|done].
  by destruct (bool_decide (0 < length (STUNServers rtcConf))).
Qed.

(** The setting engine of a successful build, field by field, in terms of
    the setting engines [s0], [s1] and [s2] the stages return. *)
Lemma NewWebRTCConfig_engine (env : Env) (conf : Config)
    (externalIP : string) (cfg : WebRTCConfig) :
  NewWebRTCConfig env conf externalIP = Ok cfg →
  ∃ ifFilter ipFilter s0 s1 s2 networkTypes,
    filtersAndNAT env conf externalIP
      = Ok (ifFilter, ipFilter, NAT1To1IPs cfg, s0) ∧
    udpSetup env conf (rtcConfOf conf) ifFilter ipFilter [] s0
      = Ok (networkTypes, s1) ∧
    tcpSetup env (rtcConfOf conf) networkTypes s1
      = Ok (TCPMuxListener cfg, enabledNetworkTypes (RTC conf), s2) ∧
    enabledNetworkTypes (RTC conf) ≠ [] ∧
    se_InterfaceFilter (SettingEngine_ cfg) = se_InterfaceFilter s0 ∧
    se_IPFilter (SettingEngine_ cfg) = se_IPFilter s0 ∧
    se_MulticastDNSDisabled (SettingEngine_ cfg)
      = se_MulticastDNSDisabled s0 ∧
    se_NAT1To1IPs (SettingEngine_ cfg) = se_NAT1To1IPs s0 ∧
    se_NAT1To1IPCandidateType (SettingEngine_ cfg)
      = se_NAT1To1IPCandidateType s0 ∧
    se_EphemeralUDPPortRange (SettingEngine_ cfg)
      = se_EphemeralUDPPortRange s1 ∧
    se_ICEUDPMux (SettingEngine_ cfg) = se_ICEUDPMux s1 ∧
    se_ICETCPMux (SettingEngine_ cfg) = se_ICETCPMux s2 ∧
    se_NetworkTypes (SettingEngine_ cfg) = enabledNetworkTypes (RTC conf) ∧
    se_IncludeLoopbackCandidate (SettingEngine_ cfg)
      = EnableLoopbackCandidate (RTC conf) ∧
    se_Lite (SettingEngine_ cfg) = UseICELite (RTC conf).
Proof.
  intros (ifFilter & ipFilter & nat & s0 & nts & s1 & tl & nts' & s2
          & Hnat & Hudp & Htcp & Hne & ->)%NewWebRTCConfig_Ok.
  destruct (filtersAndNAT_Ok _ _ _ _ _ _ _ Hnat)
    as (_ & _ & _ & _ & _ & _ & _ & _ & _ & _ & Hloop0 & Hlite0).
  destruct (udpSetup_Ok _ _ _ _ _ _ _ _ _ Hudp)
    as (-> & (Hu1 & Hu2 & Hu3 & Hu4 & Hu5 & Hu6 & Hu7 & Hu8 & Hu9) & _).
  destruct (tcpSetup_Ok _ _ _ _ _ _ _ Htcp)
    as (Hnts & (Ht1 & Ht2 & Ht3 & Ht4 & Ht5 & Ht6 & Ht7 & Ht8 & Ht9 & Ht10)
        & _).
  assert (nts' = enabledNetworkTypes (RTC conf)) as ->.
  { rewrite Hnts. unfold enabledNetworkTypes.
    destruct (rtcConfOf_fields conf) as (-> & -> & _). done. }
  assert (EnableLoopbackCandidate (rtcConfOf conf)
          = EnableLoopbackCandidate (RTC conf)) as Hloop
    by (unfold rtcConfOf;
        by destruct (bool_decide (PacketBufferSize (RTC conf) = 0%Z))).
  assert (UseICELite (rtcConfOf conf) = UseICELite (RTC conf)) as Hlite
    by (unfold rtcConfOf;
        by destruct (bool_decide (PacketBufferSize (RTC conf) = 0%Z))).
  exists ifFilter, ipFilter, s0, s1, s2,
    ([] ++ (if ForceTCP (rtcConfOf conf) then []
            else [NetworkTypeUDP4; NetworkTypeUDP6])).
  cbn [NAT1To1IPs TCPMuxListener SettingEngine_].
  split; [done|]. split; [done|]. split; [done|]. split; [done|].
  match goal with
  | |- context [iceSetup ?e ?r ?c ?s] =>
      destruct (iceSetup_result e r c s)
        as (_ & _ & Hl & (Hi1 & Hi2 & Hi3 & Hi4 & Hi5 & Hi6 & Hi7 & Hi8
                          & Hi9 & Hi10))
  end.
  rewrite Hi1, Hi2, Hi3, Hi4, Hi5, Hi6, Hi7, Hi8, Hi9, Hi10, Hl, Hlite,
    Hloop.
  destruct (EnableLoopbackCandidate (RTC conf)),
    (UseICELite (RTC conf)); simpl;
    rewrite ?Ht1, ?Ht2, ?Ht3, ?Ht4, ?Ht5, ?Ht6, ?Ht7, ?Ht9, ?Ht10,
      ?Hu1, ?Hu2, ?Hu3, ?Hu4, ?Hu5, ?Hu8, ?Hu9, ?Hlite0, ?Hloop0;
    by repeat split.
Qed.
End builder_stages.

(** ** What a successful build configures *)

Section build_props.
Context `{NetPkg}.

(** X14.  Whenever [NewWebRTCConfig] succeeds, the network types of the
    setting engine are the UDP pair unless TCP is forced, followed by the
    TCP pair if a TCP port is configured; the list is never empty, and
    with TCP forced it holds no UDP type. *)
Theorem enabled_network_types (env : Env) (conf : Config)
    (externalIP : string) (cfg : WebRTCConfig) :
  NewWebRTCConfig env conf externalIP = Ok cfg →
  se_NetworkTypes (SettingEngine_ cfg)
  = (if ForceTCP (RTC conf) then []
     else [NetworkTypeUDP4; NetworkTypeUDP6])
    ++ (if bool_decide (TCPPort (RTC conf) ≠ 0%Z)
        then [NetworkTypeTCP4; NetworkTypeTCP6] else []) ∧
  se_NetworkTypes (SettingEngine_ cfg) ≠ [] ∧
  (ForceTCP (RTC conf) = true →
     se_NetworkTypes (SettingEngine_ cfg)
     = [NetworkTypeTCP4; NetworkTypeTCP6]).
Proof.
  intros (ifFilter & ipFilter & s0 & s1 & s2 & nts & _ & _ & _ & Hne
          & _ & _ & _ & _ & _ & _ & _ & _ & Hnts & _)%NewWebRTCConfig_engine.
  rewrite Hnts. split; [done|]. split; [done|].
  intros Hforce. unfold enabledNetworkTypes in *. rewrite Hforce in *.
  destruct (bool_decide (TCPPort (RTC conf) ≠ 0%Z)); done.
Qed.

(** X15.  The UDP side of a successful build.  With TCP forced there is
    neither an ephemeral port range nor a UDP multiplexer.  Otherwise a
    configured port range takes precedence over the UDP port: the range
    is reserved, as 16-bit ports with start not above end, and no
    multiplexer is built.  Without a range, a configured UDP port gets a
    multiplexer on that port, built with 16 MiB read and write buffers,
    the loopback option exactly when loopback candidates are enabled, and
    the very IP and interface filters of the setting engine.  With none
    of the two there is neither. *)
Theorem udp_transport_setup (env : Env) (conf : Config)
    (externalIP : string) (cfg : WebRTCConfig) :
  NewWebRTCConfig env conf externalIP = Ok cfg →
  let s := SettingEngine_ cfg in
  (ForceTCP (RTC conf) = true →
     se_EphemeralUDPPortRange s = None ∧ se_ICEUDPMux s = None) ∧
  (ForceTCP (RTC conf) = false → rangeConfigured conf →
     se_EphemeralUDPPortRange s
     = Some (uint16 (ICEPortRangeStart (RTC conf)),
             uint16 (ICEPortRangeEnd (RTC conf))) ∧
     (uint16 (ICEPortRangeStart (RTC conf))
      ≤ uint16 (ICEPortRangeEnd (RTC conf)))%Z ∧
     se_ICEUDPMux s = None) ∧
  (ForceTCP (RTC conf) = false → ¬ rangeConfigured conf →
   UDPPort (RTC conf) ≠ 0%Z →
     se_EphemeralUDPPortRange s = None ∧
     se_ICEUDPMux s
     = Some {| udpMux_Port := UDPPort (RTC conf);
               udpMux_Opts :=
                 udpMuxOpts (RTC conf) (se_InterfaceFilter s)
                            (se_IPFilter s) |}) ∧
  (ForceTCP (RTC conf) = false → ¬ rangeConfigured conf →
   UDPPort (RTC conf) = 0%Z →
     se_EphemeralUDPPortRange s = None ∧ se_ICEUDPMux s = None).
Proof.
  intros (ifFilter & ipFilter & s0 & s1 & s2 & nts & Hnat & Hudp & _ & _
          & Hif & Hip & _ & _ & _ & Hrange & Hmux & _)%NewWebRTCConfig_engine.
  cbv zeta. rewrite Hrange, Hmux, Hif, Hip.
  destruct (filtersAndNAT_Ok _ _ _ _ _ _ _ Hnat)
    as (_ & _ & Hif0 & Hip0 & _ & _ & Hrange0 & Hmux0 & _).
  destruct (udpSetup_Ok _ _ _ _ _ _ _ _ _ Hudp) as (_ & _ & Heffect).
  rewrite Hif0, Hip0.
  destruct (rtcConfOf_fields conf) as (Hf & _ & Hu & Hs & He & _).
  rewrite Hf, Hu, Hs, He, Hrange0, Hmux0 in Heffect.
  assert (udpMuxOpts (rtcConfOf conf) ifFilter ipFilter
          = udpMuxOpts (RTC conf) ifFilter ipFilter) as Hopts.
  { unfold udpMuxOpts, rtcConfOf.
    by destruct (bool_decide (PacketBufferSize (RTC conf) = 0%Z)). }
  rewrite Hopts in Heffect. unfold rangeConfigured.
  destruct (ForceTCP (RTC conf)).
  { repeat split; try done; apply Heffect. }
  destruct (bool_decide (ICEPortRangeStart (RTC conf) ≠ 0%Z)) eqn:Hb1;
    [destruct (bool_decide (ICEPortRangeEnd (RTC conf) ≠ 0%Z)) eqn:Hb2|];
    simpl in Heffect.
  - apply bool_decide_eq_true in Hb1, Hb2.
    split; [done|]. split; [by intros _ _|].
    split; intros _ Hno; by destruct Hno.
  - apply bool_decide_eq_false in Hb2.
    destruct (bool_decide (UDPPort (RTC conf) ≠ 0%Z)) eqn:Hb3.
    + apply bool_decide_eq_true in Hb3.
      destruct Heffect as (_ & Hm & Hr).
      split; [done|]. split; [by intros _ [_ ?]|]. split; [done|].
      by intros _ _ ?.
    + apply bool_decide_eq_false in Hb3.
      split; [done|]. split; [by intros _ [_ ?]|].
      split; [by intros _ _ ?|]. intros _ _ _. apply Heffect.
  - apply bool_decide_eq_false in Hb1.
    destruct (bool_decide (UDPPort (RTC conf) ≠ 0%Z)) eqn:Hb3.
    + apply bool_decide_eq_true in Hb3.
      destruct Heffect as (_ & Hm & Hr).
      split; [done|]. split; [by intros _ [? _]|]. split; [done|].
      by intros _ _ ?.
    + apply bool_decide_eq_false in Hb3.
      split; [done|]. split; [by intros _ [? _]|].
      split; [by intros _ _ ?|]. intros _ _ _. apply Heffect.
Qed.

(** X16.  The TCP side of a successful build.  If a TCP port is
    configured, the returned [TCPMuxListener] listens on that port and the
    TCP multiplexer of the setting engine wraps that same listener, with a
    read buffer of 50 packets and a write buffer of 4 MiB; otherwise there
    is neither a listener nor a TCP multiplexer. *)
Theorem tcp_transport_setup (env : Env) (conf : Config)
    (externalIP : string) (cfg : WebRTCConfig) :
  NewWebRTCConfig env conf externalIP = Ok cfg →
  if bool_decide (TCPPort (RTC conf) ≠ 0%Z) then
    ∃ tcpListener tcpMux,
      TCPMuxListener cfg = Some tcpListener ∧
      listener_Port tcpListener = TCPPort (RTC conf) ∧
      se_ICETCPMux (SettingEngine_ cfg) = Some tcpMux ∧
      tcpMux_Listener tcpMux = tcpListener ∧
      tcpMux_ReadBufferSize tcpMux = 50%Z ∧
      tcpMux_WriteBufferSize tcpMux = (4 * 1024 * 1024)%Z
  else
    TCPMuxListener cfg = None ∧ se_ICETCPMux (SettingEngine_ cfg) = None.
Proof.
  intros (ifFilter & ipFilter & s0 & s1 & s2 & nts & Hnat & Hudp & Htcp & _
          & _ & _ & _ & _ & _ & _ & _ & Hmux & _)%NewWebRTCConfig_engine.
  rewrite Hmux.
  destruct (filtersAndNAT_Ok _ _ _ _ _ _ _ Hnat)
    as (_ & _ & _ & _ & _ & _ & _ & _ & Htcp0 & _).
  destruct (udpSetup_Ok _ _ _ _ _ _ _ _ _ Hudp)
    as (_ & (_ & _ & _ & _ & _ & Htcp1 & _) & _).
  destruct (tcpSetup_Ok _ _ _ _ _ _ _ Htcp) as (_ & _ & Heffect).
  destruct (rtcConfOf_fields conf) as (_ & Ht & _).
  rewrite Ht, Htcp1, Htcp0 in Heffect.
  destruct (bool_decide (TCPPort (RTC conf) ≠ 0%Z)); [|done].
  destruct Heffect as (_ & -> & ->). by eexists _, _.
Qed.

(** X17.  ICE lite and STUN servers exclude each other.  In a successful
    build the setting engine is lite exactly when lite ICE is requested;
    ICE servers are configured exactly when lite ICE is not requested, no
    node IP is set and external IPs are not to be discovered, and then
    there is one ICE server with one "stun:" URL per configured STUN
    server, or per default STUN server when none is configured.  A lite
    engine never comes with ICE servers. *)
Theorem ice_lite_or_stun_servers (env : Env) (conf : Config)
    (externalIP : string) (cfg : WebRTCConfig) :
  NewWebRTCConfig env conf externalIP = Ok cfg →
  let rtcConf := RTC conf in
  se_Lite (SettingEngine_ cfg) = UseICELite rtcConf ∧
  ICEServers (Configuration_ cfg)
  = (if negb (UseICELite rtcConf) && bool_decide (NodeIP rtcConf = "")
        && negb (UseExternalIP rtcConf)
     then [iceServerForStunServers
             (if bool_decide (0 < length (STUNServers rtcConf))
              then STUNServers rtcConf else DefaultStunServers env)]
     else []) ∧
  (se_Lite (SettingEngine_ cfg) = true → ICEServers (Configuration_ cfg) = [])
  ∧ Configuration_SDPSemantics (Configuration_ cfg)
    = SDPSemanticsUnifiedPlan.
Proof.
  intros Hrun.
  destruct (NewWebRTCConfig_engine _ _ _ _ Hrun)
    as (_ & _ & _ & _ & _ & _ & _ & _ & _ & _ & _ & _ & _ & _ & _ & _ & _
        & _ & _ & _ & Hlite).
  apply NewWebRTCConfig_Ok in Hrun
    as (ifFilter & ipFilter & nat & s0 & nts & s1 & tl & nts' & s2
        & _ & _ & _ & _ & Hcfg).
  cbv zeta in *. rewrite Hlite.
  assert (ICEServers (Configuration_ cfg)
          = (if negb (UseICELite (RTC conf))
                && bool_decide (NodeIP (RTC conf) = "")
                && negb (UseExternalIP (RTC conf))
             then [iceServerForStunServers
                     (if bool_decide (0 < length (STUNServers (RTC conf)))
                      then STUNServers (RTC conf)
                      else DefaultStunServers env)]
             else [])
          ∧ Configuration_SDPSemantics (Configuration_ cfg)
            = SDPSemanticsUnifiedPlan) as [Hservers Hsdp].
  { rewrite Hcfg. cbn [Configuration_].
    match goal with
    | |- context [iceSetup ?e ?r ?c ?s] =>
        destruct (iceSetup_result e r c s) as (Hsem & Hsrv & _)
    end.
    rewrite Hsem, Hsrv. unfold rtcConfOf.
    destruct (bool_decide (PacketBufferSize (RTC conf) = 0%Z)); simpl;
      by destruct (UseICELite (RTC conf)),
           (bool_decide (NodeIP (RTC conf) = "")),
           (UseExternalIP (RTC conf)). }
  split; [done|]. split; [done|]. split; [|done].
  intros Hl. rewrite Hservers, Hl. done.
Qed.

(** X18.  The NAT 1:1 strategy of a successful build.  Without an external
    IP hint, or with neither external-IP discovery nor a fixed node IP,
    the setting engine gets no NAT 1:1 IPs and the [NAT1To1IPs] field is
    nil.  Otherwise the engine gets a non-empty list, as host candidates:
    with discovery, the list the resolver returned, which is also the
    [NAT1To1IPs] field, or the hint alone when the resolver returned
    nothing; without discovery, the hint alone, the field staying nil. *)
Theorem nat_strategy (env : Env) (conf : Config) (externalIP : string)
    (cfg : WebRTCConfig) :
  NewWebRTCConfig env conf externalIP = Ok cfg →
  let rtcConf := RTC conf in
  let s := SettingEngine_ cfg in
  if bool_decide (externalIP ≠ "")
     && (UseExternalIP rtcConf
         || (bool_decide (NodeIP rtcConf ≠ "")
             && negb (NodeIPAutoGenerated rtcConf)))
  then
    se_NAT1To1IPCandidateType s = Some ICECandidateTypeHost ∧
    se_NAT1To1IPs s ≠ [] ∧
    if UseExternalIP rtcConf then
      getNAT1to1IPsForConf env conf (se_IPFilter s) = Ok (NAT1To1IPs cfg) ∧
      se_NAT1To1IPs s
      = (if bool_decide (len (NAT1To1IPs cfg) = 0) then [externalIP]
         else default [] (NAT1To1IPs cfg))
    else NAT1To1IPs cfg = None ∧ se_NAT1To1IPs s = [externalIP]
  else
    NAT1To1IPs cfg = None ∧ se_NAT1To1IPs s = []
    ∧ se_NAT1To1IPCandidateType s = None.
Proof.
  intros (ifFilter & ipFilter & s0 & s1 & s2 & nts & Hnat & _ & _ & _
          & _ & Hip & _ & Hips & Htype & _)%NewWebRTCConfig_engine.
  cbv zeta. rewrite Hips, Htype, Hip.
  destruct (filtersAndNAT_Ok _ _ _ _ _ _ _ Hnat)
    as (_ & _ & _ & Hip0 & _ & Hstrategy & _).
  cbv zeta in Hstrategy. rewrite Hip0.
  destruct (bool_decide (externalIP ≠ "")
            && (UseExternalIP (RTC conf)
                || (bool_decide (NodeIP (RTC conf) ≠ "")
                    && negb (NodeIPAutoGenerated (RTC conf)))));
    [|done].
  destruct Hstrategy as [Hhost Hlist]. split; [done|].
  destruct (UseExternalIP (RTC conf)).
  - destruct Hlist as [Hres Hlist]. split; [|done]. rewrite Hlist.
    case_bool_decide as Hlen; [done|].
    destruct (NAT1To1IPs cfg) as [[|ip ips]|]; done.
  - destruct Hlist as [Hnil Hlist]. by rewrite Hlist.
Qed.

(** X19.  The filters and flags of a successful build.  An interface
    filter is installed exactly when interface names are listed, and it is
    the filter of those lists; an IP filter is installed exactly when CIDR
    blocks are listed, and it is the filter [IPFilterFromConf] returns.
    mDNS is disabled in the engine exactly when the configuration does not
    use it, loopback candidates are included exactly when they are
    enabled, the subscriber's strict-ACK flag is the configured one and
    the publisher's is always set. *)
Theorem filters_and_flags (env : Env) (conf : Config) (externalIP : string)
    (cfg : WebRTCConfig) :
  NewWebRTCConfig env conf externalIP = Ok cfg →
  let rtcConf := RTC conf in
  let s := SettingEngine_ cfg in
  se_InterfaceFilter s
  = (if bool_decide (length (if_Includes (Interfaces rtcConf)) ≠ 0)
        || bool_decide (length (if_Excludes (Interfaces rtcConf)) ≠ 0)
     then Some (InterfaceFilterFromConf (Interfaces rtcConf)) else None) ∧
  (if bool_decide (length (ip_Includes (IPs rtcConf)) ≠ 0)
      || bool_decide (length (ip_Excludes (IPs rtcConf)) ≠ 0)
   then ∃ f, IPFilterFromConf (IPs rtcConf) = Val f ∧ se_IPFilter s = Some f
   else se_IPFilter s = None) ∧
  se_MulticastDNSDisabled s = negb (UseMDNS rtcConf) ∧
  WebRTC_UseMDNS cfg = UseMDNS rtcConf ∧
  se_IncludeLoopbackCandidate s = EnableLoopbackCandidate rtcConf ∧
  Direction_StrictACKs (Subscriber cfg) = StrictACKs rtcConf ∧
  Direction_StrictACKs (Publisher cfg) = true.
Proof.
  intros Hrun.
  destruct (NewWebRTCConfig_engine _ _ _ _ Hrun)
    as (ifFilter & ipFilter & s0 & s1 & s2 & nts & Hnat & _ & _ & _
        & Hif & Hip & Hmdns & _ & _ & _ & _ & _ & _ & Hloop & _).
  destruct (filtersAndNAT_Ok _ _ _ _ _ _ _ Hnat)
    as (Hif0 & Hip0 & Hifs & Hips & Hmdns0 & _).
  cbv zeta in *. rewrite Hif, Hip, Hmdns, Hloop, Hifs, Hips, Hmdns0.
  split; [done|]. split; [done|]. split; [done|].
  apply NewWebRTCConfig_Ok in Hrun
    as (? & ? & ? & ? & ? & ? & ? & ? & ? & _ & _ & _ & _ & ->).
  simpl. unfold rtcConfOf.
  destruct (bool_decide (PacketBufferSize (RTC conf) = 0%Z)); simpl;
    destruct (UseSendSideBWE (CongestionControl (RTC conf)));
    by repeat split.
Qed.
End build_props.

Lemma enabled_network_types_witness :
  ∃ cfg,
    @NewWebRTCConfig IPv4.net Examples.envSilent Examples.conf0 "192.0.2.1"
    = Ok cfg ∧
    se_NetworkTypes (SettingEngine_ cfg)
    = [NetworkTypeUDP4; NetworkTypeUDP6; NetworkTypeTCP4; NetworkTypeTCP6].
Proof.
  assert (∃ cfg, @NewWebRTCConfig IPv4.net Examples.envSilent Examples.conf0
                   "192.0.2.1" = Ok cfg) as [cfg Hrun]
    by (eexists; reflexivity).
  exists cfg. split; [exact Hrun|].
  exact (proj1 (@enabled_network_types IPv4.net Examples.envSilent
                  Examples.conf0 "192.0.2.1" cfg Hrun)).
Defined.

Lemma udp_transport_setup_witness :
  ∃ cfg,
    @NewWebRTCConfig IPv4.net Examples.envSilent Examples.conf0 "192.0.2.1"
    = Ok cfg ∧
    se_EphemeralUDPPortRange (SettingEngine_ cfg) = None ∧
    se_ICEUDPMux (SettingEngine_ cfg)
    = Some {| udpMux_Port := 7882;
              udpMux_Opts :=
                udpMuxOpts (RTC Examples.conf0)
                  (se_InterfaceFilter (SettingEngine_ cfg))
                  (se_IPFilter (SettingEngine_ cfg)) |}.
Proof.
  assert (∃ cfg, @NewWebRTCConfig IPv4.net Examples.envSilent Examples.conf0
                   "192.0.2.1" = Ok cfg) as [cfg Hrun]
    by (eexists; reflexivity).
  exists cfg. split; [exact Hrun|].
  destruct (@udp_transport_setup IPv4.net Examples.envSilent Examples.conf0
              "192.0.2.1" cfg Hrun) as (_ & _ & Hport & _).
  apply Hport.
  - reflexivity.
  - intros [Hstart _]. by apply Hstart.
  - discriminate.
Defined.

Lemma tcp_transport_setup_witness :
  ∃ cfg,
    @NewWebRTCConfig IPv4.net Examples.envSilent Examples.conf0 "192.0.2.1"
    = Ok cfg ∧
    ∃ tcpListener tcpMux,
      TCPMuxListener cfg = Some tcpListener ∧
      listener_Port tcpListener = 7881%Z ∧
      se_ICETCPMux (SettingEngine_ cfg) = Some tcpMux ∧
      tcpMux_Listener tcpMux = tcpListener ∧
      tcpMux_ReadBufferSize tcpMux = 50%Z ∧
      tcpMux_WriteBufferSize tcpMux = 4194304%Z.
Proof.
  assert (∃ cfg, @NewWebRTCConfig IPv4.net Examples.envSilent Examples.conf0
                   "192.0.2.1" = Ok cfg) as [cfg Hrun]
    by (eexists; reflexivity).
  exists cfg. split; [exact Hrun|].
  exact (@tcp_transport_setup IPv4.net Examples.envSilent Examples.conf0
           "192.0.2.1" cfg Hrun).
Defined.

Lemma ice_lite_or_stun_servers_witness :
  ∃ cfg,
    @NewWebRTCConfig IPv4.net Examples.envSilent Examples.conf0 "192.0.2.1"
    = Ok cfg ∧
    se_Lite (SettingEngine_ cfg) = false ∧
    ICEServers (Configuration_ cfg) = [].
Proof.
  assert (∃ cfg, @NewWebRTCConfig IPv4.net Examples.envSilent Examples.conf0
                   "192.0.2.1" = Ok cfg) as [cfg Hrun]
    by (eexists; reflexivity).
  exists cfg. split; [exact Hrun|].
  destruct (@ice_lite_or_stun_servers IPv4.net Examples.envSilent
              Examples.conf0 "192.0.2.1" cfg Hrun) as (Hlite & Hsrv & _).
  split; [exact Hlite|exact Hsrv].
Defined.

Lemma nat_strategy_witness :
  ∃ cfg,
    @NewWebRTCConfig IPv4.net Examples.envSilent Examples.conf0 "192.0.2.1"
    = Ok cfg ∧
    se_NAT1To1IPCandidateType (SettingEngine_ cfg)
    = Some ICECandidateTypeHost ∧
    se_NAT1To1IPs (SettingEngine_ cfg) ≠ [].
Proof.
  assert (∃ cfg, @NewWebRTCConfig IPv4.net Examples.envSilent Examples.conf0
                   "192.0.2.1" = Ok cfg) as [cfg Hrun]
    by (eexists; reflexivity).
  exists cfg. split; [exact Hrun|].
  destruct (@nat_strategy IPv4.net Examples.envSilent Examples.conf0
              "192.0.2.1" cfg Hrun) as (Htype & Hlist & _).
  split; [exact Htype|exact Hlist].
Defined.

Lemma filters_and_flags_witness :
  ∃ cfg,
    @NewWebRTCConfig IPv4.net Examples.envSilent Examples.conf0 "192.0.2.1"
    = Ok cfg ∧
    se_InterfaceFilter (SettingEngine_ cfg) = None ∧
    se_MulticastDNSDisabled (SettingEngine_ cfg) = true.
Proof.
  assert (∃ cfg, @NewWebRTCConfig IPv4.net Examples.envSilent Examples.conf0
                   "192.0.2.1" = Ok cfg) as [cfg Hrun]
    by (eexists; reflexivity).
  exists cfg. split; [exact Hrun|].
  destruct (@filters_and_flags IPv4.net Examples.envSilent Examples.conf0
              "192.0.2.1" cfg Hrun) as (Hif & _ & Hmdns & _).
  split; [exact Hif|exact Hmdns].
Defined.

(** ** When the build returns a configuration *)

Section build_outcome.
Context `{NetPkg}.

Lemma length_zero_false {A} (l : list A) :
  bool_decide (length l ≠ 0) = false → l = [].
Proof. intros Hl%bool_decide_eq_false. destruct l; [done|]. by destruct Hl. Qed.

(** The IP filter step: no filter without lists, the filter of the lists
    when every entry parses, the error of [IPFilterFromConf] otherwise. *)
Lemma IPFilterFromConf_total (ips : IPsConfig) :
  (∀ ip, ip ∈ ip_Includes ips ++ ip_Excludes ips →
         ∃ ipnet, ParseCIDR ip = Val ipnet) →
  ∃ filter, IPFilterFromConf ips = Val filter.
Proof.
  intros [nets Hparse]%parseNets_Val_iff.
  pose proof (IPFilterFromConf_parseNets ips) as Hrel. rewrite Hparse in Hrel.
  destruct (IPFilterFromConf ips); [by eexists|done].
Qed.

Lemma getNAT1to1IPsForConf_Ok_iff (env : Env) (conf : Config)
    (ipFilter : option (IP → bool)) :
  (∃ ips, getNAT1to1IPsForConf env conf ipFilter = Ok ips)
  ↔ (∃ localIPs,
       GetLocalIPAddresses env (EnableLoopbackCandidate (RTC conf))
       = Val localIPs) ∧
    ¬ (rangeConfigured conf
       ∧ uint16 (ICEPortRangeStart (RTC conf))
         = uint16 (ICEPortRangeEnd (RTC conf))).
Proof.
  destruct (udpPortsForConf_cases env conf) as (Hnoerr & Hpanic & _).
  cbv zeta in Hpanic. unfold getNAT1to1IPsForConf.
  destruct (GetLocalIPAddresses env (EnableLoopbackCandidate (RTC conf)))
    as [localIPs|e]; simpl.
  - destruct (udpPortsForConf env conf) as [udpPorts|e|msg] eqn:Hports;
      simpl.
    + split; [|by eexists]. intros _. split; [by eexists|].
      intros Hsame. apply Hpanic in Hsame as [msg ?]. done.
    + by destruct (Hnoerr e).
    + split; [by intros [ips ?]|]. intros [_ Hno]. destruct Hno.
      apply Hpanic. by eexists.
  - split; [by intros [ips ?]|]. by intros [[localIPs ?] _].
Qed.

Lemma filtersAndNAT_Ok_iff (env : Env) (conf : Config)
    (externalIP : string) :
  (∃ r, filtersAndNAT env conf externalIP = Ok r)
  ↔ (∀ ip, ip ∈ ip_Includes (IPs (RTC conf)) ++ ip_Excludes (IPs (RTC conf))
           → ∃ ipnet, ParseCIDR ip = Val ipnet) ∧
    (externalIP ≠ "" → UseExternalIP (RTC conf) = true →
       (∃ localIPs,
          GetLocalIPAddresses env (EnableLoopbackCandidate (RTC conf))
          = Val localIPs) ∧
       ¬ (rangeConfigured conf
          ∧ uint16 (ICEPortRangeStart (RTC conf))
            = uint16 (ICEPortRangeEnd (RTC conf)))).
Proof.
  split.
  - intros [[[[ifFilter ipFilter] nat] s] Hrun].
    destruct (filtersAndNAT_Ok _ _ _ _ _ _ _ Hrun)
      as (_ & Hip & _ & _ & _ & Hstrategy & _).
    cbv zeta in *. split.
    + destruct (bool_decide (length (ip_Includes (IPs (RTC conf))) ≠ 0))
        eqn:Hi; [|destruct (bool_decide
                              (length (ip_Excludes (IPs (RTC conf))) ≠ 0))
                    eqn:He]; simpl in Hip.
      * destruct Hip as (f & Hf & _).
        pose proof (IPFilterFromConf_parseNets (IPs (RTC conf))) as Hrel.
        rewrite Hf in Hrel. apply parseNets_Val_iff.
        destruct (parseNets _); [by eexists|done].
      * destruct Hip as (f & Hf & _).
        pose proof (IPFilterFromConf_parseNets (IPs (RTC conf))) as Hrel.
        rewrite Hf in Hrel. apply parseNets_Val_iff.
        destruct (parseNets _); [by eexists|done].
      * apply length_zero_false in Hi, He. rewrite Hi, He.
        by intros ip ?%elem_of_nil.
    + intros Hext Huse. rewrite Huse in Hstrategy.
      rewrite bool_decide_eq_true_2 in Hstrategy by done.
      simpl in Hstrategy. destruct Hstrategy as (_ & Hnat & _).
      apply (getNAT1to1IPsForConf_Ok_iff env conf ipFilter). by eexists.
  - intros [Hparse Hnat]. unfold filtersAndNAT.
    destruct (bool_decide (length (if_Includes (Interfaces (RTC conf))) ≠ 0)
              || bool_decide
                   (length (if_Excludes (Interfaces (RTC conf))) ≠ 0));
    (assert (∃ r,
       (if bool_decide (length (ip_Includes (IPs (RTC conf))) ≠ 0)
           || bool_decide (length (ip_Excludes (IPs (RTC conf))) ≠ 0)
        then
          filter ← lift (IPFilterFromConf (IPs (RTC conf)));
          Ok (Some filter, SetIPFilter filter _)
        else Ok (None, _)) = Ok r) as [[ipFilter s] ->];
     [destruct (_ || _); [|by eexists];
      destruct (IPFilterFromConf_total _ Hparse) as [f ->]; by eexists|]);
    simpl;
    (destruct (bool_decide (externalIP ≠ "")) eqn:Hext; simpl;
       [|by eexists]);
    apply bool_decide_eq_true in Hext;
    (destruct (UseExternalIP (RTC conf)) eqn:Huse; simpl;
       [|destruct (_ && _); by eexists]);
    (destruct (proj2 (getNAT1to1IPsForConf_Ok_iff env conf ipFilter)
                 (Hnat Hext eq_refl)) as [ips ->]); simpl; by eexists.
Qed.

Lemma udpSetup_Ok_iff (env : Env) (conf : Config) (rtcConf : RTCConfig)
    (ifFilter : option (string → bool)) (ipFilter : option (IP → bool))
    (nts : list NetworkType) (s : SettingEngine) :
  (∃ r, udpSetup env conf rtcConf ifFilter ipFilter nts s = Ok r)
  ↔ (ForceTCP rtcConf = false →
     ICEPortRangeStart rtcConf ≠ 0%Z ∧ ICEPortRangeEnd rtcConf ≠ 0%Z →
     (uint16 (ICEPortRangeStart rtcConf)
      ≤ uint16 (ICEPortRangeEnd rtcConf))%Z) ∧
    (ForceTCP rtcConf = false →
     ¬ (ICEPortRangeStart rtcConf ≠ 0%Z ∧ ICEPortRangeEnd rtcConf ≠ 0%Z) →
     UDPPort rtcConf ≠ 0%Z →
     udpListenError env (UDPPort rtcConf) = None).
Proof.
  unfold udpSetup. destruct (ForceTCP rtcConf); simpl.
  { split; [done|by eexists]. }
  destruct (bool_decide (ICEPortRangeStart rtcConf ≠ 0%Z)) eqn:Hb1;
    [destruct (bool_decide (ICEPortRangeEnd rtcConf ≠ 0%Z)) eqn:Hb2|];
    simpl.
  - apply bool_decide_eq_true in Hb1, Hb2.
    unfold SetEphemeralUDPPortRange. case_bool_decide as Hinv; simpl.
    + split; [by intros [r ?]|]. intros [Hle _].
      specialize (Hle eq_refl (conj Hb1 Hb2)). lia.
    + split; [|by eexists]. intros _. split; [intros _ _; lia|].
      intros _ Hno. by destruct Hno.
  - apply bool_decide_eq_false in Hb2.
    destruct (bool_decide (UDPPort rtcConf ≠ 0%Z)) eqn:Hb3.
    + apply bool_decide_eq_true in Hb3. unfold NewMultiUDPMuxFromPort.
      destruct (udpListenError env (UDPPort rtcConf)) as [err|]; simpl.
      * split; [by intros [r ?]|]. intros [_ Hbind].
        discriminate Hbind; [done|by intros [_ ?]|done].
      * split; [|by eexists]. intros _. split; [by intros _ [_ ?]|done].
    + apply bool_decide_eq_false in Hb3. split; [|by eexists].
      intros _. split; [by intros _ [_ ?]|]. by intros _ _ ?.
  - apply bool_decide_eq_false in Hb1.
    destruct (bool_decide (UDPPort rtcConf ≠ 0%Z)) eqn:Hb3.
    + apply bool_decide_eq_true in Hb3. unfold NewMultiUDPMuxFromPort.
      destruct (udpListenError env (UDPPort rtcConf)) as [err|]; simpl.
      * split; [by intros [r ?]|]. intros [_ Hbind].
        discriminate Hbind; [done|by intros [? _]|done].
      * split; [|by eexists]. intros _. split; [by intros _ [? _]|done].
    + apply bool_decide_eq_false in Hb3. split; [|by eexists].
      intros _. split; [by intros _ [? _]|]. by intros _ _ ?.
Qed.

Lemma tcpSetup_Ok_iff (env : Env) (rtcConf : RTCConfig)
    (nts : list NetworkType) (s : SettingEngine) :
  (∃ r, tcpSetup env rtcConf nts s = Ok r)
  ↔ (TCPPort rtcConf ≠ 0%Z → tcpListenError env (TCPPort rtcConf) = None).
Proof.
  unfold tcpSetup. destruct (bool_decide (TCPPort rtcConf ≠ 0%Z)) eqn:Hb.
  - apply bool_decide_eq_true in Hb. unfold ListenTCP.
    destruct (tcpListenError env (TCPPort rtcConf)) as [err|]; simpl.
    + split; [by intros [r ?]|]. intros Hlisten. by discriminate Hlisten.
    + split; [done|by eexists].
  - apply bool_decide_eq_false in Hb. split; [done|by eexists].
Qed.

Lemma enabledNetworkTypes_nil (rtcConf : RTCConfig) :
  enabledNetworkTypes rtcConf = []
  ↔ ForceTCP rtcConf = true ∧ TCPPort rtcConf = 0%Z.
Proof.
  unfold enabledNetworkTypes. destruct (ForceTCP rtcConf); simpl.
  - destruct (bool_decide (TCPPort rtcConf ≠ 0%Z)) eqn:Hport.
    + apply bool_decide_eq_true in Hport.
      split; [done|]. by intros [_ ?].
    + apply bool_decide_eq_false in Hport.
      split; [|done]. intros _. split; [done|].
      destruct (decide (TCPPort rtcConf = 0%Z)); [done|]. by destruct Hport.
  - split; [done|by intros [? _]].
Qed.

(** X20.  [NewWebRTCConfig] returns a [WebRTCConfig] exactly for the
    buildable inputs: every IP filter entry parses; if external IPs are to
    be discovered for a given external IP, the local addresses can be
    listed and a configured port range has two different 16-bit ends; with
    TCP not forced, a configured port range is not inverted and, without a
    range, a configured UDP port can be bound; a configured TCP port can
    be listened on; and TCP is not forced without a TCP port.  In every
    other case it returns an error or panics. *)
Theorem NewWebRTCConfig_succeeds_iff (env : Env) (conf : Config)
    (externalIP : string) :
  (∃ cfg, NewWebRTCConfig env conf externalIP = Ok cfg)
  ↔ buildable env conf externalIP.
Proof.
  unfold buildable. cbv zeta.
  destruct (rtcConfOf_fields conf) as (Hf & Ht & Hu & Hs & He & _).
  split.
  - intros [cfg Hrun].
    destruct (NewWebRTCConfig_engine _ _ _ _ Hrun)
      as (ifFilter & ipFilter & s0 & s1 & s2 & nts & Hnat & Hudp & Htcp
          & Hne & _).
    destruct (proj1 (filtersAndNAT_Ok_iff env conf externalIP))
      as [Hparse Hdisc]; [by eexists|].
    destruct (proj1 (udpSetup_Ok_iff env conf (rtcConfOf conf) ifFilter
                       ipFilter [] s0)) as [Hrange Hbind]; [by eexists|].
    pose proof (proj1 (tcpSetup_Ok_iff env (rtcConfOf conf) nts s1))
      as Hlisten.
    rewrite Hf, Hs, He in Hrange. rewrite Hf, Hu, Hs, He in Hbind.
    rewrite Ht in Hlisten.
    split; [done|]. split; [done|]. split; [done|]. split; [done|].
    split; [apply Hlisten; by eexists|].
    intros Hforce Hport. apply Hne, enabledNetworkTypes_nil. done.
  - intros (Hparse & Hdisc & Hrange & Hbind & Hlisten & Hforced).
    destruct (proj2 (filtersAndNAT_Ok_iff env conf externalIP))
      as [[[[ifFilter ipFilter] nat] s0] Hnat]; [done|].
    destruct (proj2 (udpSetup_Ok_iff env conf (rtcConfOf conf) ifFilter
                       ipFilter [] s0)) as [[nts s1] Hudp].
    { by rewrite Hf, Hu, Hs, He. }
    destruct (proj2 (tcpSetup_Ok_iff env (rtcConfOf conf) nts s1))
      as [[[tl nts'] s2] Htcp].
    { by rewrite Ht. }
    unfold NewWebRTCConfig. fold (rtcConfOf conf).
    rewrite Hnat. simpl. rewrite Hudp. simpl. rewrite Htcp. simpl.
    destruct (udpSetup_Ok _ _ _ _ _ _ _ _ _ Hudp) as (-> & _).
    destruct (tcpSetup_Ok _ _ _ _ _ _ _ Htcp) as (-> & _).
    rewrite Hf, Ht. fold (enabledNetworkTypes (RTC conf)).
    rewrite bool_decide_eq_false_2.
    + destruct (iceSetup _ _ _ _). by eexists.
    + intros Hlen. apply nil_length_inv in Hlen.
      apply enabledNetworkTypes_nil in Hlen as [Hforce Hport].
      by apply Hforced.
Qed.

(** X21.  The errors of the socket binds are returned as they are.  When
    the filter and NAT stage completes: if a UDP multiplexer is to be
    built (TCP not forced, no port range, a UDP port configured) and its
    bind fails, [NewWebRTCConfig] returns that error, whatever the TCP
    side would do; and if the UDP stage completes, a TCP port is
    configured and listening on it fails, it returns that error. *)
Theorem bind_errors_returned (env : Env) (conf : Config)
    (externalIP : string) (e : string) :
  (∃ r, filtersAndNAT env conf externalIP = Ok r) →
  (ForceTCP (RTC conf) = false → ¬ rangeConfigured conf →
   UDPPort (RTC conf) ≠ 0%Z →
   udpListenError env (UDPPort (RTC conf)) = Some e →
   NewWebRTCConfig env conf externalIP = Err e) ∧
  (ForceTCP (RTC conf) = true
   ∨ (rangeConfigured conf
      ∧ (uint16 (ICEPortRangeStart (RTC conf))
         ≤ uint16 (ICEPortRangeEnd (RTC conf)))%Z)
   ∨ (¬ rangeConfigured conf
      ∧ (UDPPort (RTC conf) = 0%Z
         ∨ udpListenError env (UDPPort (RTC conf)) = None)) →
   TCPPort (RTC conf) ≠ 0%Z →
   tcpListenError env (TCPPort (RTC conf)) = Some e →
   NewWebRTCConfig env conf externalIP = Err e).
Proof.
  intros [[[[ifFilter ipFilter] nat] s0] Hnat].
  destruct (rtcConfOf_fields conf) as (Hf & Ht & Hu & Hs & He & _).
  unfold rangeConfigured. split.
  - intros Hforce Hno Hport Hbind.
    unfold NewWebRTCConfig. fold (rtcConfOf conf). rewrite Hnat. simpl.
    unfold udpSetup. rewrite Hf, Hu, Hs, He, Hforce. simpl.
    destruct (bool_decide (ICEPortRangeStart (RTC conf) ≠ 0%Z)
              && bool_decide (ICEPortRangeEnd (RTC conf) ≠ 0%Z)) eqn:Hr.
    { apply andb_true_iff in Hr as [Hr1%bool_decide_eq_true
                                    Hr2%bool_decide_eq_true].
      by destruct Hno. }
    rewrite bool_decide_eq_true_2 by done.
    unfold NewMultiUDPMuxFromPort. by rewrite Hbind.
  - intros Hudpfine Hport Hlisten.
    destruct (proj2 (udpSetup_Ok_iff env conf (rtcConfOf conf) ifFilter
                       ipFilter [] s0)) as [[nts s1] Hudp].
    { rewrite Hf, Hu, Hs, He. split.
      - intros Hforce Hrange.
        destruct Hudpfine as [?|[[_ ?]|[Hno _]]]; [congruence|done|].
        by destruct Hno.
      - intros Hforce Hno Hp.
        destruct Hudpfine as [?|[[? _]|[_ [?|?]]]];
          [congruence|done|done|done]. }
    unfold NewWebRTCConfig. fold (rtcConfOf conf). rewrite Hnat. simpl.
    rewrite Hudp. simpl. unfold tcpSetup. rewrite Ht.
    rewrite bool_decide_eq_true_2 by done.
    unfold ListenTCP. by rewrite Hlisten.
Qed.

(** X22.  A port range of a single 16-bit port makes the build panic when
    external IPs are to be discovered: with an external IP given,
    external-IP discovery enabled, IP filter entries that parse and local
    addresses that can be listed, [NewWebRTCConfig] neither returns a
    configuration nor an error but panics in [rand.Intn]. *)
Theorem one_port_range_panics (env : Env) (conf : Config)
    (externalIP : string) (localIPs : list string) :
  (∀ ip, ip ∈ ip_Includes (IPs (RTC conf)) ++ ip_Excludes (IPs (RTC conf))
         → ∃ ipnet, ParseCIDR ip = Val ipnet) →
  externalIP ≠ "" →
  UseExternalIP (RTC conf) = true →
  GetLocalIPAddresses env (EnableLoopbackCandidate (RTC conf))
    = Val localIPs →
  rangeConfigured conf →
  uint16 (ICEPortRangeStart (RTC conf))
    = uint16 (ICEPortRangeEnd (RTC conf)) →
  NewWebRTCConfig env conf externalIP = Panic "invalid argument to Intn".
Proof.
  intros Hparse Hext Huse Hlocal [Hr1 Hr2] Hsame.
  assert (∀ ipFilter,
            getNAT1to1IPsForConf env conf ipFilter
            = Panic "invalid argument to Intn") as Hnat.
  { assert (udpPortsForConf env conf = Panic "invalid argument to Intn")
      as Hports.
    { unfold udpPortsForConf.
      rewrite (bool_decide_eq_true_2 _ Hr1), (bool_decide_eq_true_2 _ Hr2).
      cbn [andb samplePorts]. unfold Intn. rewrite Hsame, Z.sub_diag.
      done. }
    intros ipFilter. unfold getNAT1to1IPsForConf. rewrite Hlocal. simpl.
    by rewrite Hports. }
  unfold NewWebRTCConfig, filtersAndNAT.
  destruct (bool_decide (length (if_Includes (Interfaces (RTC conf))) ≠ 0)
            || bool_decide
                 (length (if_Excludes (Interfaces (RTC conf))) ≠ 0));
  (destruct (bool_decide (length (ip_Includes (IPs (RTC conf))) ≠ 0)
             || bool_decide (length (ip_Excludes (IPs (RTC conf))) ≠ 0));
   [destruct (IPFilterFromConf_total _ Hparse) as [f ->]|]);
  simpl; rewrite (bool_decide_eq_true_2 _ Hext), Huse; simpl;
  by rewrite Hnat.
Qed.
End build_outcome.

Lemma bind_errors_returned_witness :
  @NewWebRTCConfig IPv4.net Examples2.envPortsTaken Examples.conf0
    "192.0.2.1"
  = Err "listen udp4 :7882: bind: address already in use".
Proof.
  refine (proj1 (@bind_errors_returned IPv4.net Examples2.envPortsTaken
                   Examples.conf0 "192.0.2.1"
                   "listen udp4 :7882: bind: address already in use" _)
            _ _ _ _).
  - eexists. reflexivity.
  - reflexivity.
  - intros [Hstart _]. by apply Hstart.
  - discriminate.
  - reflexivity.
Defined.

Lemma one_port_range_panics_witness :
  @NewWebRTCConfig IPv4.net Examples.envSilent Examples.confRangeOnePort
    "192.0.2.1"
  = Panic "invalid argument to Intn".
Proof.
  refine (@one_port_range_panics IPv4.net Examples.envSilent
            Examples.confRangeOnePort "192.0.2.1" ["10.0.0.1"; "10.0.0.2"]
            _ _ _ _ _ _).
  - intros ip Hin. by apply elem_of_nil in Hin.
  - discriminate.
  - reflexivity.
  - reflexivity.
  - split; discriminate.
  - reflexivity.
Defined.
